(** * Verification of the strom-sense anomaly-scoring and billing back end

    Shallow embedding of the Python services of the back end
    ([AnomalyDetection/service.py], [PeerStatistics/service.py],
    [weather/service.py], [ocr/service.py]) and of the invoice parser
    ([energy-bill-ocr/services/parser_patterns.py]).

    Python floats are modelled by exact rationals [Q]; [round(x, n)] is
    modelled by [py_round], which rounds the exact value to [n] decimals,
    ties to even, as CPython's [round] does on the exact binary value.
    Database queries are modelled over lists of rows, [.first()] returning
    the first matching row; Python exceptions are an explicit error
    result. *)

From Stdlib Require Import ZArith QArith Qround Qabs Lqa List String Ascii Bool Lia.
From Stdlib Require Import Sorting.Sorted Sorting.Permutation.
Import ListNotations.
Open Scope Q_scope.

(* ------------------------------------------------------------------ *)
(** ** Python numbers *)

Module PyNum.

Definition qlt (x y : Q) : bool := negb (Qle_bool y x).
Definition qle (x y : Q) : bool := Qle_bool x y.
Definition qeq (x y : Q) : bool := Qeq_bool x y.

(** Truthiness of a Python number: [if x:] *)
Definition truthy (x : Q) : bool := negb (Qeq_bool x 0).

Definition qmin (x y : Q) : Q := if qlt y x then y else x.

(** Nearest integer, ties to even. *)
Definition round_half_even (y : Q) : Z :=
  let f := Qfloor y in
  match Qcompare (y - inject_Z f) (1 # 2) with
  | Lt => f
  | Gt => (f + 1)%Z
  | Eq => if Z.even f then f else (f + 1)%Z
  end.

Definition scale (n : nat) : positive := Nat.iter n (Pos.mul 10) 1%positive.

(** [round(x, n)] *)
Definition py_round (x : Q) (n : nat) : Q :=
  Qmake (round_half_even (x * inject_Z (Zpos (scale n)))) (scale n).

(** [round(math.sqrt(v), n)] for [v >= 0], computed exactly: the integer
    part of [sqrt(v) * 10^n] is the integer square root of the integer part
    of [v * 10^(2n)], and the tie test compares squares. *)
Definition py_round_sqrt (v : Q) (n : nat) : Q :=
  let w := v * inject_Z (Zpos (scale n) * Zpos (scale n)) in
  let k := Z.sqrt (Qfloor w) in
  let r :=
    match Qcompare (4 * w) (inject_Z ((2 * k + 1) * (2 * k + 1))) with
    | Lt => k
    | Gt => (k + 1)%Z
    | Eq => if Z.even k then k else (k + 1)%Z
    end in
  Qmake r (scale n).

End PyNum.

Import PyNum.

(* ------------------------------------------------------------------ *)
(** ** Detector scores *)

Module Scores.

(** [AnomalyDetectionService._calculate_historical_score] *)
Definition calculate_historical_score (yoy_change_percent : Q) : Q :=
  let abs_change := Qabs yoy_change_percent in
  let score :=
    if qlt abs_change 10 then abs_change / 10 * 2
    else if qlt abs_change 20 then 3 + (abs_change - 10) / 10 * 2
    else if qlt abs_change 30 then 6 + (abs_change - 20) / 10 * 1
    else if qlt abs_change 40 then 8 + (abs_change - 30) / 10 * 1
    else 10 in
  py_round score 2.

(** [AnomalyDetectionService._classify_historical_anomaly] *)
Definition classify_historical_anomaly (yoy_change_percent : Q) : string :=
  if qlt (Qabs yoy_change_percent) 15 then "normal"
  else if qlt 30 yoy_change_percent then "consumption_spike"
  else if qlt yoy_change_percent (-30) then "consumption_drop"
  else if qlt 15 yoy_change_percent then "moderate_increase"
  else "moderate_decrease".

(** [AnomalyDetectionService._calculate_predictive_score] *)
Definition calculate_predictive_score (deviation_percent : Q) : Q :=
  let abs_dev := Qabs deviation_percent in
  let score :=
    if qlt abs_dev 15 then abs_dev / 15 * 3
    else if qlt abs_dev 25 then 4 + (abs_dev - 15) / 10 * 2
    else if qlt abs_dev 40 then 7 + (abs_dev - 25) / 15 * 2
    else 10 in
  py_round score 2.

(** The z-score mapping inside [PeerService.calculate_peer_score]. *)
Definition peer_score_of_z (z_score : Q) : Q :=
  let score :=
    if qle z_score 1 then z_score * 3
    else if qle z_score 2 then 3 + (z_score - 1) * 4
    else if qle z_score 3 then 7 + (z_score - 2) * 3
    else 10 in
  py_round (qmin score 10) 2.

(** [PeerService.calculate_peer_score] *)
Definition calculate_peer_score (user_consumption peer_avg peer_std_dev : Q) : Q :=
  if qeq peer_std_dev 0 then 0
  else peer_score_of_z (Qabs ((user_consumption - peer_avg) / peer_std_dev)).

End Scores.

Import Scores.

(* ------------------------------------------------------------------ *)
(** ** Exceptions and effects *)

Module Py.

(** The Python exceptions the modelled code can raise. *)
Inductive exn := TypeError | ZeroDivisionError | AttributeError.

Inductive result (A : Type) : Type :=
| Ok (a : A)
| Raise (e : exn).
Arguments Ok {A} a.
Arguments Raise {A} e.

(** A computation over a mutable store [S] that may raise; the store keeps
    the updates made (and committed) before the exception. *)
Definition PyM (S A : Type) : Type := S -> result A * S.

Definition ret {S A} (a : A) : PyM S A := fun s => (Ok a, s).
Definition raise {S A} (e : exn) : PyM S A := fun s => (Raise e, s).
Definition bind {S A B} (m : PyM S A) (k : A -> PyM S B) : PyM S B :=
  fun s => match m s with
           | (Ok a, s') => k a s'
           | (Raise e, s') => (Raise e, s')
           end.
Definition lift {S A} (r : result A) : PyM S A := fun s => (r, s).

End Py.

Import Py.
Notation "x <- m ;; k" := (bind m (fun x => k))
  (at level 61, m at next level, right associativity).

(** [str(n)] for a Python int. *)
Fixpoint digits_of_N (fuel : nat) (n : N) (acc : string) : string :=
  match fuel with
  | O => acc
  | S fuel' =>
      let acc' := String (ascii_of_N (48 + N.modulo n 10)) acc in
      if N.eqb (N.div n 10) 0 then acc' else digits_of_N fuel' (N.div n 10) acc'
  end.

Definition str_of_Z (z : Z) : string :=
  let d := digits_of_N (S (N.size_nat (Z.abs_N z))) (Z.abs_N z) "" in
  if Z.ltb z 0 then String "-" d else d.

(* ------------------------------------------------------------------ *)
(** ** Weather service ([weather/service.py]) *)

Module Weather.

(** A postal code as the callers pass it: a [str] from the HTTP routes, an
    [int] (the [UserProfile.postal_code] column) from the anomaly detector. *)
Inductive postal := PStr (s : string) | PInt (z : Z).

Definition py_str (pc : postal) : string :=
  match pc with PStr s => s | PInt z => str_of_Z z end.

(** A [WeatherCache] row. *)
Record WeatherCache := {
  wc_postal_code : string;
  wc_year : Z;
  heating_degree_days : Q;
  average_temperature_celsius : option Q
}.

Definition cache := list WeatherCache.

(** What the Open-Meteo request yields: a request error, a JSON body
    without [daily.temperature_2m_mean], or the daily series (a JSON
    [null] is [None]). *)
Inductive api_response :=
| ApiRequestError
| ApiNoTemperatures
| ApiTemperatures (temperatures : list (option Q)).

(** The value returned by [get_heating_degree_days]: [None], a number,
    or the dictionary [{"hdd": .., "avg_temp": ..}]. *)
Inductive hdd_value :=
| HNone
| HNum (hdd : Q)
| HDict (hdd avg_temp : Q).

Definition BASE_TEMPERATURE : Q := 18.

Section WithApi.

(** The HTTP call [requests.get(API_BASE_URL, params=...)] for the given
    coordinates and year. *)
Variable api : Q * Q -> Z -> api_response.

Definition _get_from_cache (c : cache) (postal_code : postal) (year : Z)
    : option WeatherCache :=
  find (fun e => String.eqb e.(wc_postal_code) (py_str postal_code)
                 && Z.eqb e.(wc_year) year) c.

Fixpoint update_first (p : WeatherCache -> bool) (f : WeatherCache -> WeatherCache)
    (c : cache) : cache :=
  match c with
  | [] => []
  | e :: c' => if p e then f e :: c' else e :: update_first p f c'
  end.

Definition _save_to_cache (c : cache) (postal_code : postal) (year : Z)
    (hdd : Q) (avg_temp : option Q) : cache :=
  let key e := String.eqb e.(wc_postal_code) (py_str postal_code)
               && Z.eqb e.(wc_year) year in
  match _get_from_cache c postal_code year with
  | Some _ =>
      update_first key
        (fun e => {| wc_postal_code := e.(wc_postal_code); wc_year := e.(wc_year);
                     heating_degree_days := hdd;
                     average_temperature_celsius := avg_temp |}) c
  | None =>
      c ++ [{| wc_postal_code := py_str postal_code; wc_year := year;
               heating_degree_days := hdd; average_temperature_celsius := avg_temp |}]
  end.

Definition coordinates (prefix : string) : Q * Q :=
  if String.eqb prefix "0" then (5105 # 100, 1374 # 100)
  else if String.eqb prefix "1" then (5252 # 100, 1340 # 100)
  else if String.eqb prefix "2" then (5355 # 100, 999 # 100)
  else if String.eqb prefix "3" then (5237 # 100, 973 # 100)
  else if String.eqb prefix "4" then (5123 # 100, 678 # 100)
  else if String.eqb prefix "5" then (5094 # 100, 696 # 100)
  else if String.eqb prefix "6" then (5011 # 100, 868 # 100)
  else if String.eqb prefix "7" then (4878 # 100, 918 # 100)
  else if String.eqb prefix "8" then (4814 # 100, 1158 # 100)
  else if String.eqb prefix "9" then (4945 # 100, 1108 # 100)
  else (5116 # 100, 1045 # 100).

(** [_get_coordinates_from_postal_code]: [postal_code[0] if postal_code
    else "5"]; indexing an [int] raises [TypeError]. *)
Definition _get_coordinates_from_postal_code (postal_code : postal) : result (Q * Q) :=
  match postal_code with
  | PStr EmptyString => Ok (coordinates "5")
  | PStr (String ch _) => Ok (coordinates (String ch EmptyString))
  | PInt 0 => Ok (coordinates "5")
  | PInt _ => Raise TypeError
  end.

Fixpoint hdd_sum (temps : list (option Q)) : Q :=
  match temps with
  | [] => 0
  | Some t :: ts =>
      if qlt t BASE_TEMPERATURE then (BASE_TEMPERATURE - t) + hdd_sum ts else hdd_sum ts
  | None :: ts => hdd_sum ts
  end.

(** [_calculate_hdd_from_temperatures] *)
Definition _calculate_hdd_from_temperatures (temps : list (option Q)) : Q :=
  py_round (hdd_sum temps) 1.

(** [sum(temperatures)], which raises on a [None] entry. *)
Fixpoint py_sum (temps : list (option Q)) : result Q :=
  match temps with
  | [] => Ok 0
  | None :: _ => Raise TypeError
  | Some t :: ts => match py_sum ts with Ok s => Ok (t + s) | Raise e => Raise e end
  end.

(** [_fetch_from_api]: the coordinate lookup is outside its [try], every
    later failure becomes [(None, None)]. *)
Definition _fetch_from_api (postal_code : postal) (year : Z)
    : result (option Q * option Q) :=
  match _get_coordinates_from_postal_code postal_code with
  | Raise e => Raise e
  | Ok latlon =>
      match api latlon year with
      | ApiRequestError => Ok (None, None)
      | ApiNoTemperatures => Ok (None, None)
      | ApiTemperatures temperatures =>
          let hdd := _calculate_hdd_from_temperatures temperatures in
          match temperatures with
          | [] => Ok (Some hdd, None)
          | _ =>
              match py_sum temperatures with
              | Raise _ => Ok (None, None)
              | Ok s => Ok (Some hdd, Some (s / inject_Z (Z.of_nat (List.length temperatures))))
              end
          end
      end
  end.

(** [get_heating_degree_days]: the cache hit returns the stored number, a
    fresh fetch the dictionary; formatting [avg_temp:.1f] with [avg_temp]
    [None] raises inside the [try] after the cache was written. *)
Definition get_heating_degree_days (postal_code : postal) (year : Z)
    (force_refresh : bool) : PyM cache hdd_value :=
  fun c =>
    match (if force_refresh then None else _get_from_cache c postal_code year) with
    | Some cached => (Ok (HNum cached.(heating_degree_days)), c)
    | None =>
        match _fetch_from_api postal_code year with
        | Raise _ => (Ok HNone, c)
        | Ok (None, _) => (Ok HNone, c)
        | Ok (Some hdd, avg_temp) =>
            let c' := _save_to_cache c postal_code year hdd avg_temp in
            match avg_temp with
            | Some a => (Ok (HDict hdd a), c')
            | None => (Ok HNone, c')
            end
        end
    end.

(** The tail of [calculate_weather_adjustment_factor]:
    [if current_hdd is None or previous_hdd is None or previous_hdd == 0:
    return None] then [round(current_hdd / previous_hdd, 3)]; dividing
    anything by a dictionary, or a dictionary by anything, raises
    [TypeError]. *)
Definition adjustment_of (current_hdd previous_hdd : hdd_value) : result (option Q) :=
  match current_hdd, previous_hdd with
  | HNone, _ | _, HNone => Ok None
  | _, HNum p =>
      if qeq p 0 then Ok None
      else match current_hdd with
           | HNum c => Ok (Some (py_round (c / p) 3))
           | _ => Raise TypeError
           end
  | _, HDict _ _ => Raise TypeError
  end.

(** [calculate_weather_adjustment_factor] *)
Definition calculate_weather_adjustment_factor (postal_code : postal)
    (current_year previous_year : Z) : PyM cache (option Q) :=
  current_hdd <- get_heating_degree_days postal_code current_year false ;;
  previous_hdd <- get_heating_degree_days postal_code previous_year false ;;
  lift (adjustment_of current_hdd previous_hdd).

(** [get_expected_consumption_with_weather] *)
Definition get_expected_consumption_with_weather (baseline_consumption : Q)
    (postal_code : postal) (baseline_year target_year : Z) : PyM cache (option Q) :=
  factor <- calculate_weather_adjustment_factor postal_code target_year baseline_year ;;
  match factor with
  | None => ret None
  | Some f => ret (Some (py_round (baseline_consumption * f) 2))
  end.

End WithApi.

End Weather.

(* ------------------------------------------------------------------ *)
(** ** Database rows ([entities/db_models.py]) *)

Module Db.

(** A [UserBill] row; dates are day numbers, so that
    [(end - start).days] is a subtraction. *)
Record UserBill := {
  bill_id : Z;
  bill_user_id : Z;
  bill_year : Z;
  consumption_kwh : Q;
  total_cost_euros : Q;
  billing_start_date : Z;
  billing_end_date : Z;
  tariff_rate : option Q
}.

(** A [UserProfile] row. *)
Record UserProfile := {
  user_id : Z;
  postal_code : Z;
  household_size : option Z;
  property_type : option string
}.

(** A [BillMetrics] row. *)
Record BillMetrics := {
  metrics_bill_id : Z;
  days_in_billing_period : Z;
  daily_avg_consumption_kwh : Q;
  cost_per_kwh : Q;
  yoy_consumption_change_percent : option Q;
  previous_year_consumption_kwh : option Q
}.

(** A [PeerStatistics] row: the columns of the model in
    [entities/db_models.py] ([id] and [calculated_at] are not read by the
    services and are not modelled). The model has no median, percentile or
    cost columns. *)
Record PeerStatistics := {
  ps_household_size : Z;
  ps_property_type : option string;
  ps_year : Z;
  sample_size : nat;
  avg_consumption_kwh : Q;
  std_dev_consumption_kwh : Q
}.

(** The tables the services read and write. *)
Record DB := {
  user_bills : list UserBill;
  user_profiles : list UserProfile;
  bill_metrics : list BillMetrics;
  peer_statistics : list PeerStatistics;
  weather_cache : Weather.cache
}.

Definition set_bill_metrics (db : DB) (m : list BillMetrics) : DB :=
  {| user_bills := db.(user_bills); user_profiles := db.(user_profiles);
     bill_metrics := m; peer_statistics := db.(peer_statistics);
     weather_cache := db.(weather_cache) |}.

Definition set_peer_statistics (db : DB) (p : list PeerStatistics) : DB :=
  {| user_bills := db.(user_bills); user_profiles := db.(user_profiles);
     bill_metrics := db.(bill_metrics); peer_statistics := p;
     weather_cache := db.(weather_cache) |}.

Definition set_weather_cache (db : DB) (c : Weather.cache) : DB :=
  {| user_bills := db.(user_bills); user_profiles := db.(user_profiles);
     bill_metrics := db.(bill_metrics); peer_statistics := db.(peer_statistics);
     weather_cache := c |}.

(** Run a weather-service computation on the cache table. *)
Definition with_cache {A} (m : PyM Weather.cache A) : PyM DB A :=
  fun db => let (r, c) := m db.(weather_cache) in (r, set_weather_cache db c).

(** [query(UserBill).filter(UserBill.id == bill_id).first()] *)
Definition find_bill (db : DB) (id : Z) : option UserBill :=
  find (fun b => Z.eqb b.(bill_id) id) db.(user_bills).

(** [query(UserBill).filter(user_id == u, bill_year == y).first()] *)
Definition find_bill_of_year (db : DB) (uid year : Z) : option UserBill :=
  find (fun b => Z.eqb b.(bill_user_id) uid && Z.eqb b.(bill_year) year) db.(user_bills).

Definition find_profile (db : DB) (uid : Z) : option UserProfile :=
  find (fun p => Z.eqb p.(user_id) uid) db.(user_profiles).

Definition find_metrics (db : DB) (id : Z) : option BillMetrics :=
  find (fun m => Z.eqb m.(metrics_bill_id) id) db.(bill_metrics).

(** SQL [col == value] on a nullable column compared with a Python value:
    [None] becomes [IS NULL]. *)
Definition opt_str_eqb (a b : option string) : bool :=
  match a, b with
  | None, None => true
  | Some x, Some y => String.eqb x y
  | _, _ => false
  end.

Definition opt_Z_eqb (a b : option Z) : bool :=
  match a, b with
  | None, None => true
  | Some x, Some y => Z.eqb x y
  | _, _ => false
  end.

(** Replace the first row selected by [p], or append [r]. *)
Fixpoint upsert {R} (p : R -> bool) (r : R) (rows : list R) : list R :=
  match rows with
  | [] => [r]
  | x :: rows' => if p x then r :: rows' else x :: upsert p r rows'
  end.

End Db.

Import Db.

(* ------------------------------------------------------------------ *)
(** ** Metrics calculator ([ocr/service.py]) *)

Module Metrics.

(** [MetricsService.calculate_for_bill] *)
Definition calculate_for_bill (id : Z) : PyM DB (option BillMetrics) :=
  fun db =>
  match find_bill db id with
  | None => (Ok None, db)
  | Some bill =>
      let days := (bill.(billing_end_date) - bill.(billing_start_date))%Z in
      let daily_avg :=
        if Z.ltb 0 days then bill.(consumption_kwh) / inject_Z days else 0 in
      let cost_per_kwh :=
        if qlt 0 bill.(consumption_kwh)
        then bill.(total_cost_euros) / bill.(consumption_kwh) else 0 in
      let previous_bill := find_bill_of_year db bill.(bill_user_id) (bill.(bill_year) - 1) in
      let '(yoy_change, prev_consumption) :=
        match previous_bill with
        | None => (None, None)
        | Some pb =>
            let prev := pb.(consumption_kwh) in
            (if qlt 0 prev
             then Some ((bill.(consumption_kwh) - prev) / prev * 100) else None,
             Some prev)
        end in
      let metrics :=
        {| metrics_bill_id := id;
           days_in_billing_period := days;
           daily_avg_consumption_kwh := py_round daily_avg 2;
           cost_per_kwh := py_round cost_per_kwh 4;
           yoy_consumption_change_percent :=
             match yoy_change with
             | Some y => if truthy y then Some (py_round y 2) else None
             | None => None
             end;
           previous_year_consumption_kwh :=
             match prev_consumption with
             | Some p => if truthy p then Some (py_round p 2) else None
             | None => None
             end |} in
      (Ok (Some metrics),
       set_bill_metrics db
         (upsert (fun m => Z.eqb m.(metrics_bill_id) id) metrics db.(bill_metrics)))
  end.

End Metrics.

(* ------------------------------------------------------------------ *)
(** ** Peer statistics engine ([PeerStatistics/service.py]) *)

Module Peer.

Fixpoint insert_sorted (x : Q) (l : list Q) : list Q :=
  match l with
  | [] => [x]
  | y :: l' => if qle x y then x :: l else y :: insert_sorted x l'
  end.

(** [sorted(xs)] *)
Fixpoint sorted (l : list Q) : list Q :=
  match l with
  | [] => []
  | x :: l' => insert_sorted x (sorted l')
  end.

Definition qsum (l : list Q) : Q := fold_right Qplus 0 l.

Definition len (l : list Q) : Q := inject_Z (Z.of_nat (List.length l)).

(** [statistics.mean] *)
Definition mean (l : list Q) : Q := qsum l / len l.

(** The sample variance inside [statistics.stdev]. *)
Definition sample_variance (l : list Q) : Q :=
  let m := mean l in
  qsum (map (fun x => (x - m) * (x - m)) l) / (len l - 1).

(** [statistics.median] *)
Definition median (l : list Q) : Q :=
  let s := sorted l in
  let n := List.length l in
  if Nat.odd n then nth (n / 2) s 0
  else (nth (n / 2 - 1) s 0 + nth (n / 2) s 0) / 2.

(** The bills of the cohort: the join of [UserBill] and [UserProfile]
    filtered on household size, year and, when [property_type] is truthy,
    property type. *)
Definition cohort_bills (db : DB) (household_size : Z) (property_type : option string)
    (year : Z) : list UserBill :=
  filter (fun b =>
    match find_profile db b.(bill_user_id) with
    | None => false
    | Some p =>
        opt_Z_eqb p.(Db.household_size) (Some household_size)
        && Z.eqb b.(bill_year) year
        && match property_type with
           | Some s => if String.eqb s "" then true
                       else opt_str_eqb p.(Db.property_type) (Some s)
           | None => true
           end
    end) db.(user_bills).

Definition same_group (household_size : Z) (property_type : option string) (year : Z)
    (s : PeerStatistics) : bool :=
  Z.eqb s.(ps_household_size) household_size
  && opt_str_eqb s.(ps_property_type) property_type && Z.eqb s.(ps_year) year.

(** The object [calculate_peer_statistics] returns on its update path:
    the updated row, and the attributes the code also sets on it that are
    not columns of [PeerStatistics]. SQLAlchemy lets a mapped instance hold
    such attributes, but it does not store them: they live on this Python
    object only. *)
Record PeerStatsObject := {
  stats_row : PeerStatistics;
  median_consumption_kwh : Q;
  percentile_25_kwh : Q;
  percentile_75_kwh : Q;
  avg_cost_euros : option Q;
  avg_cost_per_kwh : option Q
}.

(** [PeerService.calculate_peer_statistics] with its default
    [min_sample_size = 3]. When a row for the group exists it is updated.
    Otherwise [PeerStatistics(..., median_consumption_kwh=...,
    percentile_25_kwh=..., percentile_75_kwh=..., avg_cost_euros=...,
    avg_cost_per_kwh=...)] is called with keywords that are not columns
    of the model, and SQLAlchemy's declarative constructor raises
    [TypeError] before anything is added or committed. *)
Definition calculate_peer_statistics (household_size : Z)
    (property_type : option string) (year : Z) : PyM DB (option PeerStatsObject) :=
  fun db =>
  let bills := cohort_bills db household_size property_type year in
  if Nat.ltb (List.length bills) 3 then (Ok None, db)
  else
    let consumptions := map consumption_kwh bills in
    let costs := map total_cost_euros bills in
    let avg_consumption := mean consumptions in
    let std_dev :=
      if Nat.ltb 1 (List.length consumptions)
      then py_round_sqrt (sample_variance consumptions) 2 else 0 in
    let sorted_consumptions := sorted consumptions in
    let n := List.length sorted_consumptions in
    let percentile_25 := nth (n / 4) sorted_consumptions 0 in
    let percentile_75 := nth ((n * 3) / 4) sorted_consumptions 0 in
    let avg_cost := mean costs in
    let avg_cost_per_kwh :=
      if qlt 0 (qsum consumptions) then Some (qsum costs / qsum consumptions) else None in
    match find (same_group household_size property_type year) db.(peer_statistics) with
    | Some existing =>
        let row :=
          {| ps_household_size := existing.(ps_household_size);
             ps_property_type := existing.(ps_property_type);
             ps_year := existing.(ps_year);
             sample_size := List.length bills;
             avg_consumption_kwh := py_round avg_consumption 2;
             std_dev_consumption_kwh := std_dev |} in
        (Ok (Some {|
           stats_row := row;
           median_consumption_kwh := py_round (median consumptions) 2;
           percentile_25_kwh := py_round percentile_25 2;
           percentile_75_kwh := py_round percentile_75 2;
           avg_cost_euros := if truthy avg_cost then Some (py_round avg_cost 2) else None;
           avg_cost_per_kwh :=
             match avg_cost_per_kwh with
             | Some c => if truthy c then Some (py_round c 4) else None
             | None => None
             end |}),
         set_peer_statistics db
           (upsert (same_group household_size property_type year) row db.(peer_statistics)))
    | None => (Raise TypeError, db)
    end.

(** [PeerService.get_peer_statistics]; an [int] column compared with
    [None] is [IS NULL], which no stored row satisfies. *)
Definition get_peer_statistics (db : DB) (household_size : option Z)
    (property_type : option string) (year : Z) : option PeerStatistics :=
  find (fun s => opt_Z_eqb (Some s.(ps_household_size)) household_size
                 && opt_str_eqb s.(ps_property_type) property_type
                 && Z.eqb s.(ps_year) year) db.(peer_statistics).

(** The dictionary [compare_to_peers] builds at its end (which it never
    reaches, see below). *)
Record Comparison := {
  user_consumption_kwh : Q;
  peer_avg_kwh : Q;
  peer_median_kwh : Q;
  peer_std_dev_kwh : Q;
  difference_kwh : Q;
  percent_difference : Q;
  z_score : Q;
  percentile : string;
  classification : string;
  peer_sample_size : nat
}.

(** [PeerService.compare_to_peers]. The peer statistics are a row read
    from the table, which has only the columns of the model. The z-score
    (guarded by [peer_std_dev > 0]) cannot fail; the percent difference
    divides by [peer_avg], so [ZeroDivisionError] when it is 0; then
    [peer_stats.percentile_25_kwh] raises [AttributeError]. The comparison
    dictionary is never built. *)
Definition compare_to_peers (db : DB) (uid bill_year : Z) : result (option Comparison) :=
  match find_profile db uid with
  | None => Ok None
  | Some user =>
  match find_bill_of_year db uid bill_year with
  | None => Ok None
  | Some bill =>
  let peer_stats :=
    match get_peer_statistics db user.(Db.household_size) user.(Db.property_type) bill_year with
    | Some s => Some s
    | None => get_peer_statistics db user.(Db.household_size) None bill_year
    end in
  match peer_stats with
  | None => Ok None
  | Some ps =>
      let peer_avg := ps.(avg_consumption_kwh) in
      if qeq peer_avg 0 then Raise ZeroDivisionError
      else Raise AttributeError
  end end end.

End Peer.

(* ------------------------------------------------------------------ *)
(** ** Anomaly detection ([AnomalyDetection/service.py]) *)

Module Anomaly.

Local Open Scope string_scope.
Local Open Scope Q_scope.

(** A detector's dictionary: the no-data sentinel
    [{"has_anomaly": False, "score": 0, "reason": ..}] or a detection
    [{"has_anomaly": .., "score": .., "anomaly_type": .., ..}] (the
    explanation and detail entries are not modelled). *)
Inductive detector_result :=
| NoData (reason : string)
| Detected (has_anomaly : bool) (score : Q) (anomaly_type : string).

Definition has_anomaly (r : detector_result) : bool :=
  match r with NoData _ => false | Detected h _ _ => h end.

Definition score (r : detector_result) : Q :=
  match r with NoData _ => 0 | Detected _ s _ => s end.

(** [r.get('anomaly_type', 'normal')] *)
Definition get_anomaly_type (r : detector_result) : string :=
  match r with NoData _ => "normal" | Detected _ _ t => t end.

(** [r['score'] if r else 0] *)
Definition score_or_0 (r : option detector_result) : Q :=
  match r with Some d => score d | None => 0 end.

Section WithApi.

Variable api : Q * Q -> Z -> Weather.api_response.

(** [detect_historical_anomaly]. [_generate_historical_explanation]
    formats [previous] with [{previous:,.0f}] in both of its branches, so
    a [previous_year_consumption_kwh] of [None] raises [TypeError] (the
    current consumption is a non-null column). *)
Definition detect_historical_anomaly (id : Z) : PyM DB (option detector_result) :=
  fun db =>
  match find_bill db id with
  | None => (Ok None, db)
  | Some bill =>
      match find_metrics db id with
      | Some m =>
          match m.(yoy_consumption_change_percent) with
          | Some yoy_change =>
              let s := calculate_historical_score yoy_change in
              let anomaly_type := classify_historical_anomaly yoy_change in
              match m.(previous_year_consumption_kwh) with
              | None => (Raise TypeError, db)
              | Some _ => (Ok (Some (Detected (qle 5 s) s anomaly_type)), db)
              end
          | None => (Ok (Some (NoData "no_historical_data")), db)
          end
      | None => (Ok (Some (NoData "no_historical_data")), db)
      end
  end.

(** [detect_peer_anomaly] *)
Definition detect_peer_anomaly (id : Z) : PyM DB (option detector_result) :=
  fun db =>
  match find_bill db id with
  | None => (Ok None, db)
  | Some bill =>
      match Peer.compare_to_peers db bill.(bill_user_id) bill.(bill_year) with
      | Raise e => (Raise e, db)
      | Ok None => (Ok (Some (NoData "no_peer_data")), db)
      | Ok (Some c) =>
          let s := calculate_peer_score c.(Peer.user_consumption_kwh)
                     c.(Peer.peer_avg_kwh) c.(Peer.peer_std_dev_kwh) in
          let z := c.(Peer.z_score) in
          let anomaly_type :=
            if qlt 2 z then "peer_outlier_high"
            else if qlt z (-2) then "peer_outlier_low"
            else if qlt 1 z then "above_peer_average"
            else "normal" in
          (Ok (Some (Detected (qle 5 s) s anomaly_type)), db)
      end
  end.

(** [detect_predictive_anomaly]; [user.postal_code] on a missing profile
    raises [AttributeError]. *)
Definition detect_predictive_anomaly (id : Z) : PyM DB (option detector_result) :=
  fun db =>
  match find_bill db id with
  | None => (Ok None, db)
  | Some bill =>
      let user := find_profile db bill.(bill_user_id) in
      match find_bill_of_year db bill.(bill_user_id) (bill.(bill_year) - 1) with
      | None => (Ok (Some (NoData "no_baseline_data")), db)
      | Some previous_bill =>
          match user with
          | None => (Raise AttributeError, db)
          | Some u =>
              (expected <- with_cache
                   (Weather.get_expected_consumption_with_weather api
                      previous_bill.(consumption_kwh) (Weather.PInt u.(postal_code))
                      previous_bill.(bill_year) bill.(bill_year)) ;;
               match expected with
               | None => ret (Some (NoData "no_weather_data"))
               | Some e =>
                   if qeq e 0 then raise ZeroDivisionError
                   else
                     let deviation_percent := (bill.(consumption_kwh) - e) / e * 100 in
                     let s := calculate_predictive_score deviation_percent in
                     let anomaly_type :=
                       if qlt (Qabs deviation_percent) 15 then "normal"
                       else if qlt 25 deviation_percent then "unexplained_spike"
                       else if qlt deviation_percent (-25) then "unexplained_drop"
                       else "moderate_deviation" in
                     ret (Some (Detected (qle 5 s) s anomaly_type))
               end) db
          end
      end
  end.

(** [_determine_primary_anomaly_type]: the three [(score, type)] pairs,
    built in order (subscripting [None] raises [TypeError], [None.get]
    raises [AttributeError]), then [max(scores, key=score)], which keeps
    the first of equal maxima. *)
Definition _determine_primary_anomaly_type (historical peer predictive : option detector_result)
    : result string :=
  match historical with
  | None => Raise TypeError
  | Some h =>
      let e1 := (score h, if has_anomaly h then get_anomaly_type h else "normal") in
      match peer with
      | None => Raise AttributeError
      | Some p =>
          let e2 := (score p, get_anomaly_type p) in
          match predictive with
          | None => Raise AttributeError
          | Some q =>
              let e3 := (score q, get_anomaly_type q) in
              let m12 := if qlt (fst e1) (fst e2) then e2 else e1 in
              let m := if qlt (fst m12) (fst e3) then e3 else m12 in
              Ok (if qle 4 (fst m) then snd m else "normal")
          end
      end
  end.

(** The dictionary returned by [detect_all_anomalies] (explanation,
    recommendations and cost estimate are not modelled). *)
Record AnomalyReport := {
  report_bill_id : Z;
  report_user_id : Z;
  report_bill_year : Z;
  report_has_anomaly : bool;
  severity : string;
  combined_score : Q;
  primary_anomaly_type : string;
  historical_score : Q;
  peer_score : Q;
  predictive_score : Q;
  historical_result : option detector_result;
  peer_result : option detector_result;
  predictive_result : option detector_result
}.

(** [detect_all_anomalies] *)
Definition detect_all_anomalies (id : Z) : PyM DB (option AnomalyReport) :=
  fun db =>
  match find_bill db id with
  | None => (Ok None, db)
  | Some bill =>
      (historical <- detect_historical_anomaly id ;;
       peer <- detect_peer_anomaly id ;;
       predictive <- detect_predictive_anomaly id ;;
       let hist_score := score_or_0 historical in
       let peer_score := score_or_0 peer in
       let pred_score := score_or_0 predictive in
       let combined_score :=
         py_round (hist_score * (4 # 10) + peer_score * (3 # 10) + pred_score * (3 # 10)) 2 in
       let severity :=
         if qlt combined_score 4 then "normal"
         else if qlt combined_score 7 then "warning"
         else "critical" in
       primary_type <- lift (_determine_primary_anomaly_type historical peer predictive) ;;
       ret (Some {|
         report_bill_id := id;
         report_user_id := bill.(bill_user_id);
         report_bill_year := bill.(bill_year);
         report_has_anomaly := qle 4 combined_score;
         severity := severity;
         combined_score := combined_score;
         primary_anomaly_type := primary_type;
         historical_score := hist_score;
         peer_score := peer_score;
         predictive_score := pred_score;
         historical_result := historical;
         peer_result := peer;
         predictive_result := predictive |})) db
  end.

End WithApi.

End Anomaly.

(* ------------------------------------------------------------------ *)
(** ** Invoice field extractor ([energy-bill-ocr/services/parser_patterns.py]) *)

Module Parser.

Local Open Scope string_scope.

(** Case folding of [re.IGNORECASE] on ASCII letters. *)
Definition lower (c : ascii) : ascii :=
  let n := nat_of_ascii c in
  if andb (Nat.leb 65 n) (Nat.leb n 90) then ascii_of_nat (n + 32) else c.

(** [\s] on ASCII characters: [str.isspace]. *)
Definition is_space (c : ascii) : bool :=
  let n := nat_of_ascii c in
  orb (andb (Nat.leb 9 n) (Nat.leb n 13)) (andb (Nat.leb 28 n) (Nat.leb n 32)).

(** Match a literal case-insensitively at the head of the input, returning
    the rest. *)
Fixpoint lit_ci (lit l : list ascii) : option (list ascii) :=
  match lit, l with
  | [], _ => Some l
  | a :: lit', c :: l' => if Ascii.eqb (lower c) a then lit_ci lit' l' else None
  | _ :: _, [] => None
  end.

(** [\s*]: greedy, and no backtracking is needed since the next pattern
    character is a letter. *)
Fixpoint skip_space (l : list ascii) : list ascii :=
  match l with
  | c :: l' => if is_space c then skip_space l' else l
  | [] => []
  end.

Definition obind {A B} (o : option A) (f : A -> option B) : option B :=
  match o with Some a => f a | None => None end.

Definition is_some {A} (o : option A) : bool := match o with Some _ => true | None => false end.

Definition L (s : string) : list ascii := list_ascii_of_string s.

(** [E[\.\-]?ON|EON\s*Deutschland|E[\.\-]?ON Energie Deutschland] matching
    at the head of the input (the first alternative covers the others). *)
Definition eon_supplier_at (l : list ascii) : bool :=
  match l with
  | e :: r =>
      Ascii.eqb (lower e) "e"%char
      && (is_some (lit_ci (L "on") r)
          || match r with
             | d :: r' => (Ascii.eqb d "." || Ascii.eqb d "-"%char) && is_some (lit_ci (L "on") r')
             | [] => false
             end)
  | [] => false
  end.

(** [Green\s*Planet\s*Energy|Greenpeace\s*Energy] at the head of the input. *)
Definition green_supplier_at (l : list ascii) : bool :=
  is_some (obind (lit_ci (L "green") l) (fun r =>
           obind (lit_ci (L "planet") (skip_space r)) (fun r' =>
           lit_ci (L "energy") (skip_space r'))))
  || is_some (obind (lit_ci (L "greenpeace") l) (fun r =>
              lit_ci (L "energy") (skip_space r))).

(** [re.search]: a match at some position. *)
Fixpoint search (at_ : list ascii -> bool) (l : list ascii) : bool :=
  at_ l || match l with [] => false | _ :: l' => search at_ l' end.

(** [detect_supplier] *)
Definition detect_supplier (text : string) : string :=
  if search eon_supplier_at (L text) then "EON"
  else if search green_supplier_at (L text) then "GREEN_PLANET"
  else "UNKNOWN".

(** The keys of [EON_PATTERNS] and [GREEN_PATTERNS], in dictionary order. *)
Definition EON_FIELDS : list string :=
  ["supplierName"; "customerId"; "contractNumber"; "invoiceId"; "meterNumber";
   "billingPeriod"; "totalConsumption"; "netAmount"; "totalAmount"; "gutschrift";
   "nextInstallment"; "issueDate"].

Definition GREEN_FIELDS : list string :=
  ["supplierName"; "customerId"; "contractNumber"; "invoiceId"; "meterNumber";
   "billingPeriod"; "totalConsumption"; "totalAmount"; "issueDate"].

(** [SUPPLIERS.get(supplier, {})] *)
Definition supplier_fields (supplier : string) : list string :=
  if String.eqb supplier "EON" then EON_FIELDS
  else if String.eqb supplier "GREEN_PLANET" then GREEN_FIELDS
  else [].

(** A normalised field value. *)
Inductive pyval :=
| VNone
| VFloat (q : Q)
| VStr (s : string)
| VPeriod (start_date end_date : option string).

(** [s.strip()] on ASCII whitespace. *)
Definition strip (s : string) : string :=
  let drop := fix drop (l : list ascii) := match l with
              | c :: l' => if is_space c then drop l' else l | [] => [] end in
  string_of_list_ascii (rev (drop (rev (drop (L s))))).

(** [score_confidence] *)
Definition score_confidence (v : pyval) (supplier_specific : bool) : Q :=
  let base := if supplier_specific then 92 # 100 else 75 # 100 in
  match v with
  | VNone => 0
  | VFloat q => if qlt (Qabs q) (1 # 1000) then base - (2 # 10) else base
  | VStr s => if Nat.ltb (String.length (strip s)) 2 then base - (3 # 10) else base
  | VPeriod _ _ => base
  end.

(** One entry of [result["fields"]]. *)
Record FieldEntry := {
  raw : option string;
  normalized : pyval;
  confidence : Q
}.

(** The dictionary [{"supplier": .., "fields": {..}}]. *)
Record ParseResult := {
  supplier : string;
  fields : list (string * FieldEntry)
}.

Section Extraction.

(** [clean_ocr_text] from [parser_eon_refined.py]. *)
Variable clean_ocr_text : string -> string.
(** [pattern.search(text)] for the pattern of [field] in the table of
    [supplier]: the stripped group 1 (or group 0) and the whole match. *)
Variable pattern_search : string -> string -> string -> option (string * string).
(** The normalisers of [parser_eon_refined.py]. *)
Variable normalize_amount_german : string -> option Q.
Variable normalize_kwh : string -> option Q.
Variable parse_german_date : string -> option string.
(** [re.findall] of the date pattern over the whole billing-period match. *)
Variable find_dates : string -> list string.

Definition of_float (o : option Q) : pyval :=
  match o with Some q => VFloat q | None => VNone end.

Definition of_str (o : option string) : pyval :=
  match o with Some s => VStr s | None => VNone end.

Definition normalize_field (field raw_match full_match : string) : pyval :=
  if String.eqb field "totalAmount" || String.eqb field "gutschrift"
  then of_float (normalize_amount_german raw_match)
  else if String.eqb field "totalConsumption" then of_float (normalize_kwh raw_match)
  else if String.eqb field "issueDate" then of_str (parse_german_date raw_match)
  else if String.eqb field "billingPeriod" then
    match find_dates full_match with
    | g0 :: g1 :: _ => VPeriod (parse_german_date g0) (parse_german_date g1)
    | _ => VNone
    end
  else VStr raw_match.

(** The loop body of [parse_invoice_text] for one field. *)
Definition extract_field (supplier text field : string) : FieldEntry :=
  match pattern_search supplier field text with
  | None => {| raw := None; normalized := VNone; confidence := 0 |}
  | Some (raw_match, full_match) =>
      let v := normalize_field field raw_match full_match in
      {| raw := Some raw_match; normalized := v;
         confidence :=
           py_round (score_confidence v (negb (String.eqb supplier "UNKNOWN"))) 3 |}
  end.

(** [parse_invoice_text] *)
Definition parse_invoice_text (raw_text : string) : ParseResult :=
  let text := clean_ocr_text raw_text in
  let supplier := detect_supplier text in
  {| supplier := supplier;
     fields := map (fun field => (field, extract_field supplier text field))
                   (supplier_fields supplier) |}.

End Extraction.

End Parser.

(* ------------------------------------------------------------------ *)
(** ** Further weather operations ([weather/service.py]) *)

Module WeatherOps.

Import Weather.

Section WithApi.

Variable api : Q * Q -> Z -> api_response.

(** [get_weather_normalized_consumption]; [actual_consumption / factor]
    raises [ZeroDivisionError] when the factor was rounded to [0.0]. *)
Definition get_weather_normalized_consumption (actual_consumption : Q)
    (postal_code : postal) (actual_year baseline_year : Z) : PyM cache (option Q) :=
  factor <- calculate_weather_adjustment_factor api postal_code actual_year baseline_year ;;
  match factor with
  | None => ret None
  | Some f =>
      if qeq f 0 then raise ZeroDivisionError
      else ret (Some (py_round (actual_consumption / f) 2))
  end.

(** [clear_cache]: a falsy postal code ([None], [""]) or year ([None],
    [0]) adds no filter; [query.delete()] returns the number of deleted
    rows. *)
Definition clear_cache (postal_code : option string) (year : option Z) : PyM cache nat :=
  fun c =>
    let selected (e : WeatherCache) :=
      match postal_code with
      | Some pc => if String.eqb pc EmptyString then true else String.eqb e.(wc_postal_code) pc
      | None => true
      end
      && match year with
         | Some y => if Z.eqb y 0 then true else Z.eqb e.(wc_year) y
         | None => true
         end in
    (Ok (List.length (filter selected c)), filter (fun e => negb (selected e)) c).

Definition common_postal_codes : list string :=
  ["10115"; "20095"; "30159"; "40210"; "50667"; "60311"; "70173"; "80331"; "90402"]%string.

(** [if hdd:] on the value of [get_heating_degree_days]: a dictionary is
    non-empty, a number is true when non-zero. *)
Definition hdd_truthy (v : hdd_value) : bool :=
  match v with HNone => false | HNum h => truthy h | HDict _ _ => true end.

(** The loop over the years for one postal code of
    [prefetch_common_locations]; the counters are [(fetched, cached)]. *)
Fixpoint prefetch_years (postal_code : string) (years : list Z) (counts : nat * nat)
    : PyM cache (nat * nat) :=
  match years with
  | [] => ret counts
  | year :: years' => fun c =>
      match _get_from_cache c (PStr postal_code) year with
      | Some _ => prefetch_years postal_code years' (fst counts, S (snd counts)) c
      | None =>
          (hdd <- get_heating_degree_days api (PStr postal_code) year false ;;
           prefetch_years postal_code years'
             (if hdd_truthy hdd then S (fst counts) else fst counts, snd counts)) c
      end
  end.

Fixpoint prefetch_codes (codes : list string) (years : list Z) (counts : nat * nat)
    : PyM cache (nat * nat) :=
  match codes with
  | [] => ret counts
  | pc :: codes' =>
      counts' <- prefetch_years pc years counts ;;
      prefetch_codes codes' years counts'
  end.

(** [prefetch_common_locations]: the dictionary [{"fetched", "cached"}] as
    a pair. *)
Definition prefetch_common_locations (years : option (list Z)) : PyM cache (nat * nat) :=
  let years := match years with None => [2022; 2023; 2024]%Z | Some ys => ys end in
  prefetch_codes common_postal_codes years (0, 0)%nat.

End WithApi.

End WeatherOps.

(* ------------------------------------------------------------------ *)
(** ** Further metrics operations ([ocr/service.py]) *)

Module MetricsOps.

(** The dictionary returned by [calculate_for_user]. *)
Record UserRun := { total : nat; processed : nat; errors : nat }.

(** The loop of [calculate_for_user]; the counters are
    [(processed, errors)]. *)
Fixpoint calculate_for_bills (bills : list UserBill) (processed errors : nat)
    : PyM DB (nat * nat) :=
  match bills with
  | [] => ret (processed, errors)
  | bill :: bills' => fun db =>
      match Metrics.calculate_for_bill bill.(bill_id) db with
      | (Ok _, db') => calculate_for_bills bills' (S processed) errors db'
      | (Raise _, db') => calculate_for_bills bills' processed (S errors) db'
      end
  end.

(** [MetricsService.calculate_for_user] *)
Definition calculate_for_user (user_id : Z) : PyM DB UserRun :=
  fun db =>
  let bills := filter (fun b => Z.eqb b.(bill_user_id) user_id) db.(user_bills) in
  (counts <- calculate_for_bills bills 0 0 ;;
   ret {| total := List.length bills; processed := fst counts; errors := snd counts |}) db.

(** [MetricsService.get_metrics_by_bill_id] *)
Definition get_metrics_by_bill_id (db : DB) (bill_id : Z) : option BillMetrics :=
  find_metrics db bill_id.

(** The dictionary returned by [recalculate_all]. *)
Record RecalcRun := { all_total : nat; created : nat; updated : nat; all_errors : nat }.

(** The loop of [recalculate_all]; the counters are
    [(created, updated, errors)]. *)
Fixpoint recalculate_bills (bills : list UserBill) (created updated errors : nat)
    : PyM DB (nat * nat * nat) :=
  match bills with
  | [] => ret (created, updated, errors)
  | bill :: bills' => fun db =>
      let existing := find_metrics db bill.(bill_id) in
      match Metrics.calculate_for_bill bill.(bill_id) db with
      | (Ok _, db') =>
          match existing with
          | Some _ => recalculate_bills bills' created (S updated) errors db'
          | None => recalculate_bills bills' (S created) updated errors db'
          end
      | (Raise _, db') => recalculate_bills bills' created updated (S errors) db'
      end
  end.

(** [MetricsService.recalculate_all] *)
Definition recalculate_all : PyM DB RecalcRun :=
  fun db =>
  let bills := db.(user_bills) in
  (counts <- recalculate_bills bills 0 0 0 ;;
   ret {| all_total := List.length bills; created := fst (fst counts);
          updated := snd (fst counts); all_errors := snd counts |}) db.

End MetricsOps.

(* ------------------------------------------------------------------ *)
(** ** Batch peer statistics ([PeerStatistics/service.py]) *)

Module PeerOps.

(** The dictionary returned by [calculate_all_peer_statistics]. *)
Record PeerRun := { created : nat; updated : nat; skipped : nat; errors : nat }.

(** SQL [DISTINCT], keeping first occurrences (the order of the rows is
    not fixed by the query). *)
Fixpoint dedup_acc (l seen : list Z) : list Z :=
  match l with
  | [] => rev seen
  | x :: l' => if existsb (Z.eqb x) seen then dedup_acc l' seen else dedup_acc l' (x :: seen)
  end.

Definition dedup (l : list Z) : list Z := dedup_acc l [].

Definition property_types : list (option string) := [Some "apartment"%string; Some "house"%string; None].

(** The body of the innermost loop of [calculate_all_peer_statistics]. *)
Definition calculate_one (force_recalculate : bool) (year_val household_size : Z)
    (property_type : option string) (r : PeerRun) : PyM DB PeerRun :=
  fun db =>
  let existing := find (Peer.same_group household_size property_type year_val)
                    db.(peer_statistics) in
  if Parser.is_some existing && negb force_recalculate then
    (Ok {| created := r.(created); updated := r.(updated); skipped := S r.(skipped);
           errors := r.(errors) |}, db)
  else
    match Peer.calculate_peer_statistics household_size property_type year_val db with
    | (Ok (Some _), db') =>
        if Parser.is_some existing then
          (Ok {| created := r.(created); updated := S r.(updated); skipped := r.(skipped);
                 errors := r.(errors) |}, db')
        else
          (Ok {| created := S r.(created); updated := r.(updated); skipped := r.(skipped);
                 errors := r.(errors) |}, db')
    | (Ok None, db') => (Ok r, db')
    | (Raise _, db') =>
        (Ok {| created := r.(created); updated := r.(updated); skipped := r.(skipped);
               errors := S r.(errors) |}, db')
    end.

Fixpoint run_combos (force_recalculate : bool) (combos : list (Z * Z * option string))
    (r : PeerRun) : PyM DB PeerRun :=
  match combos with
  | [] => ret r
  | (year_val, household_size, property_type) :: combos' =>
      r' <- calculate_one force_recalculate year_val household_size property_type r ;;
      run_combos force_recalculate combos' r'
  end.

(** The years, the non-null household sizes and the property types of
    [calculate_all_peer_statistics], in loop order. *)
Definition combos (db : DB) (year : option Z) : list (Z * Z * option string) :=
  let years := match year with
               | None => dedup (map bill_year db.(user_bills))
               | Some y => [y]
               end in
  let household_sizes :=
    dedup (flat_map (fun p => match p.(Db.household_size) with Some h => [h] | None => [] end)
             db.(user_profiles)) in
  flat_map (fun y => flat_map (fun h => map (fun p => (y, h, p)) property_types)
                       household_sizes) years.

(** [PeerService.calculate_all_peer_statistics] *)
Definition calculate_all_peer_statistics (year : option Z) (force_recalculate : bool)
    : PyM DB PeerRun :=
  fun db =>
  run_combos force_recalculate (combos db year)
    {| created := 0; updated := 0; skipped := 0; errors := 0 |} db.

End PeerOps.

(* ------------------------------------------------------------------ *)
(** ** Financial impact ([AnomalyDetection/service.py]) *)

Module AnomalyOps.

(** [max(0, x)]: the first of equal maxima. *)
Definition py_max (x y : Q) : Q := if qlt x y then y else x.

(** [_calculate_financial_impact]; the dictionary lookups
    [predictive.get('deviation_kwh')], [historical.get('current_consumption')]
    and [historical.get('previous_consumption')] are given as options
    ([None] for a missing dictionary or key). *)
Definition _calculate_financial_impact (tariff_rate : option Q)
    (predictive_deviation_kwh current_consumption previous_consumption : option Q)
    : option Q :=
  match tariff_rate with
  | None => None
  | Some t =>
      if negb (truthy t) then None
      else
        let extra_kwh :=
          match predictive_deviation_kwh with
          | Some d => if truthy d then Some (py_max 0 d) else None
          | None => None
          end in
        let extra_kwh :=
          match extra_kwh with
          | Some e => e
          | None =>
              match current_consumption, previous_consumption with
              | Some c, Some p => if truthy c && truthy p then py_max 0 (c - p) else 0
              | _, _ => 0
              end
          end in
        if qlt 0 extra_kwh then Some (py_round (extra_kwh * t) 2) else None
  end.

End AnomalyOps.

(* ------------------------------------------------------------------ *)
(** ** Number normalisers ([energy-bill-ocr/utils/parser_eon_refined.py]) *)

Module Normalize.

(** Python strings are modelled by their UTF-8 bytes; the non-ASCII
    characters the normalisers name are written out as byte sequences. *)
Definition byte (n : nat) : ascii := ascii_of_nat n.
Definition NBSP : list ascii := [byte 194; byte 160].
Definition MINUS_SIGN : list ascii := [byte 226; byte 136; byte 146].
Definition EN_DASH : list ascii := [byte 226; byte 128; byte 147].
Definition EURO_SIGN : list ascii := [byte 226; byte 130; byte 172].

Definition is_digit (c : ascii) : bool :=
  Nat.leb 48 (nat_of_ascii c) && Nat.leb (nat_of_ascii c) 57.

Definition digit_value (c : ascii) : Z := Z.of_nat (nat_of_ascii c - 48).

(** The integer written by a list of decimal digits. *)
Definition digits_val (l : list ascii) : Z :=
  fold_left (fun acc c => acc * 10 + digit_value c)%Z l 0%Z.

Fixpoint take_digits (l : list ascii) : list ascii * list ascii :=
  match l with
  | c :: l' => if is_digit c then let (d, r) := take_digits l' in (c :: d, r) else ([], l)
  | [] => ([], [])
  end.

(** [float(s)] on a string of ASCII digits, dots and minus signs: an
    optional sign, digits with at most one decimal point, and at least one
    digit; anything else raises [ValueError], [None] here. The value is
    kept exact. *)
Definition py_float (l : list ascii) : option Q :=
  let '(neg, l1) := match l with
                    | c :: r =>
                        if Ascii.eqb c "-"%char then (true, r)
                        else if Ascii.eqb c "+"%char then (false, r)
                        else (false, l)
                    | [] => (false, l)
                    end in
  let '(d1, r1) := take_digits l1 in
  let '(d2, r2) := match r1 with
                   | c :: r => if Ascii.eqb c "."%char then take_digits r else ([], r1)
                   | [] => ([], r1)
                   end in
  match r2, d1, d2 with
  | _ :: _, _, _ => None
  | [], [], [] => None
  | [], _, _ =>
      let v := inject_Z (digits_val (d1 ++ d2)) / inject_Z (10 ^ Z.of_nat (List.length d2)) in
      Some (if neg then - v else v)
  end.

Definition comma_to_dot (c : ascii) : ascii := if Ascii.eqb c ","%char then "."%char else c.

(** [normalize_kwh]; [\d] is taken as the ASCII digits (the other
    Unicode decimal digits, which [\d] and [float] also accept, are not
    modelled). *)
Definition normalize_kwh (s : string) : option Q :=
  match s with
  | EmptyString => None
  | _ =>
      let s0 := filter (fun c => is_digit c || Ascii.eqb c "."%char || Ascii.eqb c ","%char
                                 || Ascii.eqb c "-"%char) (Parser.L s) in
      let s0 := map comma_to_dot (filter (fun c => negb (Ascii.eqb c "."%char)) s0) in
      py_float s0
  end.

Fixpoint prefix (p l : list ascii) : bool :=
  match p, l with
  | [], _ => true
  | a :: p', c :: l' => Ascii.eqb a c && prefix p' l'
  | _ :: _, [] => false
  end.

(** [str.replace(pat, rep)] for a non-empty [pat], left to right and
    without overlaps; [skip] counts the characters of a match still to be
    dropped. *)
Fixpoint replace_go (pat rep : list ascii) (skip : nat) (l : list ascii) : list ascii :=
  match l with
  | [] => []
  | c :: l' =>
      match skip with
      | S k => replace_go pat rep k l'
      | O => if prefix pat l then rep ++ replace_go pat rep (pred (List.length pat)) l'
             else c :: replace_go pat rep O l'
      end
  end.

Definition replace (pat rep l : list ascii) : list ascii := replace_go pat rep O l.

(** [re.sub(r'(?i)€|eur|euro', '', s)]: one pass from left to right,
    trying the alternatives in order. *)
Fixpoint strip_currency_go (skip : nat) (l : list ascii) : list ascii :=
  match l with
  | [] => []
  | c :: l' =>
      match skip with
      | S k => strip_currency_go k l'
      | O =>
          if prefix EURO_SIGN l then strip_currency_go 2 l'
          else if Parser.is_some (Parser.lit_ci (Parser.L "eur") l) then strip_currency_go 2 l'
          else if Parser.is_some (Parser.lit_ci (Parser.L "euro") l) then strip_currency_go 3 l'
          else c :: strip_currency_go O l'
      end
  end.

Definition strip_currency (l : list ascii) : list ascii := strip_currency_go O l.

(** [s.split('.')] *)
Fixpoint split_dot (l : list ascii) : list (list ascii) :=
  match l with
  | [] => [[]]
  | c :: l' =>
      let parts := split_dot l' in
      if Ascii.eqb c "."%char then [] :: parts
      else match parts with
           | p :: ps => (c :: p) :: ps
           | [] => [[c]]
           end
  end.

(** [normalize_amount_german]; [str.strip] on ASCII white space (the
    other white space characters are dropped by the final filter
    anyway). *)
Definition normalize_amount_german (s : string) : option Q :=
  match s with
  | EmptyString => None
  | _ =>
      let s0 := Parser.L (Parser.strip s) in
      let s0 := filter (fun c => negb (Ascii.eqb c " "%char)) (replace NBSP [] s0) in
      let s0 := replace EN_DASH ["-"%char] (replace MINUS_SIGN ["-"%char] s0) in
      let s0 := strip_currency s0 in
      let s0 := map (fun c => if Ascii.eqb c "o"%char then "0"%char else c)
                  (map (fun c => if Ascii.eqb c "O"%char then "0"%char else c) s0) in
      let has c := existsb (Ascii.eqb c) s0 in
      let s0 :=
        if has ","%char && has "."%char
        then map comma_to_dot (filter (fun c => negb (Ascii.eqb c "."%char)) s0)
        else
          let s1 := map comma_to_dot s0 in
          if Nat.ltb 1 (List.length (filter (Ascii.eqb "."%char) s1)) then
            let parts := split_dot s1 in
            List.concat (removelast parts) ++ ["."%char] ++ last parts []
          else s1 in
      py_float (filter (fun c => is_digit c || Ascii.eqb c "."%char || Ascii.eqb c "-"%char) s0)
  end.

End Normalize.

(* ------------------------------------------------------------------ *)
(** ** Sample databases *)

Module Samples.

Local Open Scope string_scope.

Definition bill (id uid year : Z) (consumption : Q) : UserBill :=
  {| bill_id := id; bill_user_id := uid; bill_year := year;
     consumption_kwh := consumption; total_cost_euros := 1000;
     billing_start_date := 0; billing_end_date := 365; tariff_rate := None |}.

Definition profile (uid : Z) : UserProfile :=
  {| user_id := uid; postal_code := 10115; household_size := Some 2%Z;
     property_type := Some "apartment" |}.

Definition peer_row (year : Z) (avg std : Q) : PeerStatistics :=
  {| ps_household_size := 2; ps_property_type := Some "apartment"; ps_year := year;
     sample_size := 5; avg_consumption_kwh := avg; std_dev_consumption_kwh := std |}.

Definition cached (pc : string) (year : Z) (hdd : Q) : Weather.WeatherCache :=
  {| Weather.wc_postal_code := pc; Weather.wc_year := year;
     Weather.heating_degree_days := hdd; Weather.average_temperature_celsius := None |}.

(** An unreachable weather API. *)
Definition api_down : Q * Q -> Z -> Weather.api_response :=
  fun _ _ => Weather.ApiRequestError.

(** An API answering every request with a two-day series. *)
Definition api_up : Q * Q -> Z -> Weather.api_response :=
  fun _ _ => Weather.ApiTemperatures [Some 10; Some 20].


(** Two years of bills of one user. *)
Definition db_two_years (current previous : Q) : DB :=
  {| user_bills := [bill 1 1 2024 current; bill 2 1 2023 previous];
     user_profiles := [profile 1];
     bill_metrics := []; peer_statistics := []; weather_cache := [] |}.

(** The cohort of the spec's example: five 2024 bills of two-person
    apartments. *)
Definition db_cohort : DB :=
  {| user_bills := [bill 1 1 2024 3200; bill 2 2 2024 3400; bill 3 3 2024 3600;
                    bill 4 4 2024 3800; bill 5 5 2024 4000];
     user_profiles := [profile 1; profile 2; profile 3; profile 4; profile 5];
     bill_metrics := []; peer_statistics := []; weather_cache := [] |}.

(** A cache holding the heating degree days of 2024 and 2023 for 10115. *)
Definition cache_2750_2600 : Weather.cache :=
  [cached "10115" 2024 2750; cached "10115" 2023 2600].

(** A cache where 2024 had no heating degree days at all. *)
Definition cache_0_2600 : Weather.cache :=
  [cached "10115" 2024 0; cached "10115" 2023 2600].

(** The cohort of the spec's example with a row of statistics for the
    group already stored. *)
Definition db_cohort_row : DB :=
  {| user_bills := user_bills db_cohort; user_profiles := user_profiles db_cohort;
     bill_metrics := []; peer_statistics := [peer_row 2024 3500 100];
     weather_cache := [] |}.

(** Two years of bills of one user and a stored row of statistics for the
    user's group in 2024. *)
Definition db_peer_row : DB :=
  {| user_bills := [bill 1 1 2024 4500; bill 2 1 2023 3200];
     user_profiles := [profile 1];
     bill_metrics := []; peer_statistics := [peer_row 2024 3600 300];
     weather_cache := [] |}.

(** A 16% rise from 4000 kWh in 2023 to 4640 kWh in 2024, with the 2024
    metrics as [calculate_for_bill] stores them: historical score 4.2, below
    the detector's own threshold of 5; no peer statistics and no cached
    weather. *)
Definition db_hist_42 : DB :=
  snd (Metrics.calculate_for_bill 1
         {| user_bills := [bill 1 1 2024 4640; bill 2 1 2023 4000];
            user_profiles := [profile 1];
            bill_metrics := []; peer_statistics := []; weather_cache := [] |}).

(** A 25.1% rise from 2000 kWh in 2023 to 2502 kWh in 2024, with the 2024
    metrics as [calculate_for_bill] stores them (historical score 6.51) and
    the degree days of both years cached (factor 1.058, expected 2116 kWh,
    deviation 18.24%, predictive score 4.65): weighted sum 3.999. *)
Definition db_sum_3999 : DB :=
  snd (Metrics.calculate_for_bill 1
         {| user_bills := [bill 1 1 2024 2502; bill 2 1 2023 2000];
            user_profiles := [profile 1];
            bill_metrics := []; peer_statistics := []; weather_cache := cache_2750_2600 |}).

(** A user whose 2023 bill shows no consumption, with the heating degree
    days of both years cached. *)
Definition db_zero_baseline : DB :=
  {| user_bills := [bill 1 1 2024 4500; bill 2 1 2023 0];
     user_profiles := [profile 1];
     bill_metrics := []; peer_statistics := []; weather_cache := cache_2750_2600 |}.

End Samples.

(* ------------------------------------------------------------------ *)
(** ** Predicates used by the proofs *)

(** The key of a cache row, as [_get_from_cache] compares it. *)
Definition wc_key (pc : Weather.postal) (year : Z) (e : Weather.WeatherCache) : bool :=
  String.eqb e.(Weather.wc_postal_code) (Weather.py_str pc) && Z.eqb e.(Weather.wc_year) year.

(** The value of a cached lookup, as [get_heating_degree_days] returns it
    for a cache hit. *)
Definition cached_hdd (c : Weather.cache) (pc : Weather.postal) (year : Z) : Weather.hdd_value :=
  match Weather._get_from_cache c pc year with
  | Some e => Weather.HNum e.(Weather.heating_degree_days)
  | None => Weather.HNone
  end.

(** A weather API that always answers with a non-empty daily series
    without missing readings. *)
Definition api_complete (api : Q * Q -> Z -> Weather.api_response) : Prop :=
  forall latlon year, exists temps,
    api latlon year = Weather.ApiTemperatures temps /\ temps <> [] /\
    Forall (fun o => o <> None) temps.

Definition is_cached (c : Weather.cache) (pc : Weather.postal) (year : Z) : Prop :=
  Weather._get_from_cache c pc year <> None.

(** Whether a peer group [(year, household size, property type)] has a
    stored row, and whether its cohort has at least three bills. *)
Definition has_row (db : DB) (g : Z * Z * option string) : bool :=
  let '(year, hs, pt) := g in Parser.is_some (find (Peer.same_group hs pt year) (peer_statistics db)).

Definition big_cohort (db : DB) (g : Z * Z * option string) : bool :=
  let '(year, hs, pt) := g in Nat.leb 3 (List.length (Peer.cohort_bills db hs pt year)).

(** The number of groups of [cs] satisfying [f]. *)
Definition count_groups (f : Z * Z * option string -> bool) (cs : list (Z * Z * option string))
    : nat :=
  List.length (filter f cs).

(** The key of a peer statistics row. *)
Definition ps_key (s : PeerStatistics) : Z * option string * Z :=
  (ps_household_size s, ps_property_type s, ps_year s).

(** The characters kept by the first filter of [normalize_kwh], the
    class [[\d\.,\-]] (ASCII digits, dot, comma, minus). *)
Definition kwh_char (c : ascii) : bool :=
  Normalize.is_digit c || Ascii.eqb c "."%char || Ascii.eqb c ","%char || Ascii.eqb c "-"%char.

(* ================================================================== *)
(** * Proofs *)

(** ** Comparisons and rounding *)

Lemma qlt_true x y : qlt x y = true -> x < y.
Proof.
  unfold qlt. destruct (Qle_bool y x) eqn:E; simpl; [discriminate|].
  intros _. apply Qnot_le_lt. intro H. apply Qle_bool_iff in H. congruence.
Qed.

Lemma qlt_false x y : qlt x y = false -> y <= x.
Proof.
  unfold qlt. destruct (Qle_bool y x) eqn:E; simpl; [|discriminate].
  intros _. now apply Qle_bool_iff.
Qed.

Lemma qle_true x y : qle x y = true -> x <= y.
Proof. unfold qle. apply Qle_bool_iff. Qed.

Lemma qle_false x y : qle x y = false -> y < x.
Proof.
  unfold qle. intro E. apply Qnot_le_lt. intro H. apply Qle_bool_iff in H. congruence.
Qed.

Lemma qeq_true x y : qeq x y = true -> x == y.
Proof. unfold qeq. apply Qeq_bool_iff. Qed.

Lemma qeq_true_of x y : x == y -> qeq x y = true.
Proof. unfold qeq. apply Qeq_bool_iff. Qed.

Lemma qeq_false x y : qeq x y = false -> ~ x == y.
Proof. unfold qeq. intros E H. apply Qeq_bool_iff in H. congruence. Qed.

(** Turn the boolean comparisons of the hypotheses into propositions. *)
Ltac qbool :=
  repeat match goal with
  | H : qlt _ _ = true |- _ => apply qlt_true in H
  | H : qlt _ _ = false |- _ => apply qlt_false in H
  | H : qle _ _ = true |- _ => apply qle_true in H
  | H : qle _ _ = false |- _ => apply qle_false in H
  | H : qeq _ _ = true |- _ => apply qeq_true in H
  | H : qeq _ _ = false |- _ => apply qeq_false in H
  end.

(** Split on every boolean comparison in the goal. *)
Ltac qsplit :=
  repeat match goal with
  | |- context [qle ?a ?b] => destruct (qle a b) eqn:?
  | |- context [qeq ?a ?b] => destruct (qeq a b) eqn:?
  end;
  repeat match goal with
  | |- context [qlt ?a ?b] => destruct (qlt a b) eqn:?
  end; qbool.

Lemma rhe_below y : y - inject_Z (Qfloor y) < 1 # 2 -> round_half_even y = Qfloor y.
Proof.
  intro H. unfold round_half_even.
  destruct (Qcompare_spec (y - inject_Z (Qfloor y)) (1 # 2)); try reflexivity; lra.
Qed.

Lemma rhe_above y : 1 # 2 < y - inject_Z (Qfloor y) -> round_half_even y = (Qfloor y + 1)%Z.
Proof.
  intro H. unfold round_half_even.
  destruct (Qcompare_spec (y - inject_Z (Qfloor y)) (1 # 2)); try reflexivity; lra.
Qed.

Lemma rhe_tie y : y - inject_Z (Qfloor y) == 1 # 2 ->
  round_half_even y = if Z.even (Qfloor y) then Qfloor y else (Qfloor y + 1)%Z.
Proof.
  intro H. unfold round_half_even.
  destruct (Qcompare_spec (y - inject_Z (Qfloor y)) (1 # 2)); try reflexivity; lra.
Qed.

Lemma rhe_range y : (Qfloor y <= round_half_even y <= Qfloor y + 1)%Z.
Proof.
  unfold round_half_even.
  destruct (Qcompare (y - inject_Z (Qfloor y)) (1 # 2)); try lia.
  destruct (Z.even (Qfloor y)); lia.
Qed.

Lemma round_half_even_mono x y : x <= y -> (round_half_even x <= round_half_even y)%Z.
Proof.
  intro Hxy.
  pose proof (Qfloor_resp_le x y Hxy) as Hf.
  pose proof (rhe_range x) as Rx. pose proof (rhe_range y) as Ry.
  destruct (Z.eq_dec (Qfloor x) (Qfloor y)) as [Heq|Hne]; [|lia].
  pose proof (Qfloor_le x). pose proof (Qfloor_le y).
  assert (Hd : x - inject_Z (Qfloor x) <= y - inject_Z (Qfloor y)) by (rewrite Heq; lra).
  destruct (Qcompare_spec (x - inject_Z (Qfloor x)) (1 # 2)) as [Ex|Ex|Ex];
  destruct (Qcompare_spec (y - inject_Z (Qfloor y)) (1 # 2)) as [Ey|Ey|Ey].
  - rewrite (rhe_tie x Ex), (rhe_tie y Ey), Heq. lia.
  - lra.
  - rewrite (rhe_tie x Ex), (rhe_above y Ey), Heq. destruct (Z.even (Qfloor y)); lia.
  - rewrite (rhe_below x Ex). lia.
  - rewrite (rhe_below x Ex). lia.
  - rewrite (rhe_below x Ex). lia.
  - lra.
  - lra.
  - rewrite (rhe_above x Ex), (rhe_above y Ey), Heq. lia.
Qed.

Lemma py_round_mono x y n : x <= y -> py_round x n <= py_round y n.
Proof.
  intro H. unfold py_round, Qle; simpl.
  apply Z.mul_le_mono_nonneg_r; [lia|].
  apply round_half_even_mono.
  apply Qmult_le_compat_r; [exact H|].
  unfold Qle; simpl; lia.
Qed.

Lemma py_round_0 : py_round 0 2 == 0.
Proof. reflexivity. Qed.

Lemma py_round_10 : py_round 10 2 == 10.
Proof. reflexivity. Qed.

(** ** Detector scores *)

Lemma peer_score_of_z_inner_mono z1 z2 : 0 <= z1 -> z1 <= z2 ->
  qmin (if qle z1 1 then z1 * 3 else if qle z1 2 then 3 + (z1 - 1) * 4
        else if qle z1 3 then 7 + (z1 - 2) * 3 else 10) 10
  <= qmin (if qle z2 1 then z2 * 3 else if qle z2 2 then 3 + (z2 - 1) * 4
           else if qle z2 3 then 7 + (z2 - 2) * 3 else 10) 10.
Proof. intros. unfold qmin. qsplit; lra. Qed.

Lemma peer_score_of_z_mono z1 z2 : 0 <= z1 -> z1 <= z2 ->
  peer_score_of_z z1 <= peer_score_of_z z2.
Proof.
  intros. unfold peer_score_of_z. apply py_round_mono.
  now apply peer_score_of_z_inner_mono.
Qed.

Lemma peer_score_of_z_bounds z : 0 <= z -> 0 <= peer_score_of_z z <= 10.
Proof.
  intro Hz. unfold peer_score_of_z. split.
  - apply Qle_trans with (py_round 0 2); [now rewrite py_round_0|].
    apply py_round_mono. unfold qmin. qsplit; lra.
  - apply Qle_trans with (py_round 10 2); [|now rewrite py_round_10].
    apply py_round_mono. unfold qmin. qsplit; lra.
Qed.

(** Decide a closed comparison of rationals by evaluation. *)
Ltac qdecide := vm_compute; first [reflexivity | discriminate].

Lemma py_round_compat x y n : x == y -> py_round x n == py_round y n.
Proof.
  intro H. apply Qle_antisym; apply py_round_mono; rewrite H; apply Qle_refl.
Qed.

Lemma truthy_true x : ~ x == 0 -> truthy x = true.
Proof.
  unfold truthy. intro H. destruct (Qeq_bool x 0) eqn:E; [|reflexivity].
  apply Qeq_bool_iff in E. contradiction.
Qed.

(** A relative change [(c - p) / p * 100] with [p > 0] vanishes only when
    [c == p]. *)
Lemma relative_change_nonzero c p :
  0 < p -> ~ c == p -> ~ (c - p) / p * 100 == 0.
Proof.
  intros Hp Hne H. apply Qmult_integral in H as [H|H]; [|discriminate].
  unfold Qdiv in H. apply Qmult_integral in H as [H|H]; [apply Hne; lra|].
  assert (0 < / p) by (apply Qinv_lt_0_compat; exact Hp). lra.
Qed.

(** ** Sorting *)







(** C3 (as amended). [calculate_peer_score] is [0] for a zero standard
    deviation; otherwise it is the piecewise-linear map of the absolute
    z-score (0 -> 0, 1 -> 3, 2 -> 7, 3 -> 10, capped at 10) rounded to two
    decimals. The score lies in [0, 10], does not decrease as the absolute
    z-score grows, and scores the spec's three sample inputs 0, 3 and 10. *)
Theorem calculate_peer_score_spec :
  (forall u a s, s == 0 -> calculate_peer_score u a s == 0) /\
  (forall u a s, ~ s == 0 ->
     let z := Qabs ((u - a) / s) in
     (z <= 1 -> calculate_peer_score u a s == py_round (3 * z) 2) /\
     (1 <= z <= 2 -> calculate_peer_score u a s == py_round (3 + 4 * (z - 1)) 2) /\
     (2 <= z <= 3 -> calculate_peer_score u a s == py_round (7 + 3 * (z - 2)) 2) /\
     (3 <= z -> calculate_peer_score u a s == 10)) /\
  (forall u a s, 0 <= calculate_peer_score u a s <= 10) /\
  (forall u1 a1 s1 u2 a2 s2, ~ s1 == 0 -> ~ s2 == 0 ->
     Qabs ((u1 - a1) / s1) <= Qabs ((u2 - a2) / s2) ->
     calculate_peer_score u1 a1 s1 <= calculate_peer_score u2 a2 s2) /\
  calculate_peer_score 3400 3400 600 == 0 /\
  calculate_peer_score 4000 3400 600 == 3 /\
  calculate_peer_score 5200 3400 600 == 10.
Proof.
  split; [|split; [|split; [|split]]].
  - intros u a s Hs. unfold calculate_peer_score.
    destruct (qeq s 0) eqn:E; [reflexivity|]. qbool. contradiction.
  - intros u a s Hs z. unfold calculate_peer_score.
    destruct (qeq s 0) eqn:E; [qbool; contradiction|]. fold z.
    pose proof (Qabs_nonneg ((u - a) / s)) as Hz. fold z in Hz.
    unfold peer_score_of_z.
    repeat split; intros; [| | |].
    + apply py_round_compat. unfold qmin. qsplit; lra.
    + apply py_round_compat. unfold qmin. qsplit; lra.
    + apply py_round_compat. unfold qmin. qsplit; lra.
    + eapply Qeq_trans; [|apply py_round_10].
      apply py_round_compat. unfold qmin. qsplit; lra.
  - intros u a s. unfold calculate_peer_score.
    destruct (qeq s 0); [split; discriminate|].
    apply peer_score_of_z_bounds, Qabs_nonneg.
  - intros u1 a1 s1 u2 a2 s2 H1 H2 Hle. unfold calculate_peer_score.
    destruct (qeq s1 0) eqn:E1; [qbool; contradiction|].
    destruct (qeq s2 0) eqn:E2; [qbool; contradiction|].
    apply peer_score_of_z_mono; [apply Qabs_nonneg | exact Hle].
  - vm_compute. repeat split; reflexivity.
Qed.

(** C3: the unrounded piecewise-linear value is not what is returned: at
    [|z| = 0.001] the map gives [0.003], the function returns [0.0]. *)
Lemma calculate_peer_score_rounds :
  calculate_peer_score (34006 # 10) 3400 600 == 0 /\
  ~ calculate_peer_score (34006 # 10) 3400 600 == 3 * Qabs ((34006 # 10 - 3400) / 600).
Proof.
  split; [reflexivity|].
  intro H. apply Qeq_bool_iff in H. vm_compute in H. discriminate.
Qed.

Lemma calculate_peer_score_spec_witness :
  ~ (600 == 0) /\ Qabs ((4000 - 3400) / 600) <= 1 /\
  calculate_peer_score 4000 3400 600 == py_round (3 * Qabs ((4000 - 3400) / 600)) 2.
Proof.
  assert (H : ~ (600 == 0)) by (intro H; discriminate).
  assert (Hz : Qabs ((4000 - 3400) / 600) <= 1) by qdecide.
  split; [exact H|split; [exact Hz|]].
  exact (proj1 (proj1 (proj2 calculate_peer_score_spec) 4000 3400 600 H) Hz).
Defined.

(** C4 (as amended). The historical score is the piecewise map of the
    absolute year-over-year change [a], rounded to two decimals: [2a/10]
    below 10%, [3 + 2(a-10)/10] below 20%, [6 + (a-20)/10] below 30%,
    [8 + (a-30)/10] below 40%, and [10] from 40% on; the detector's
    [has_anomaly] is true exactly when that score is at least 5; a change of
    40% scores 10 and a change of 0% scores 0. *)
Theorem historical_score_spec :
  (forall y, let a := Qabs y in
     (a < 10 -> calculate_historical_score y == py_round (2 * a / 10) 2) /\
     (10 <= a < 20 -> calculate_historical_score y == py_round (3 + 2 * (a - 10) / 10) 2) /\
     (20 <= a < 30 -> calculate_historical_score y == py_round (6 + (a - 20) / 10) 2) /\
     (30 <= a < 40 -> calculate_historical_score y == py_round (8 + (a - 30) / 10) 2) /\
     (40 <= a -> calculate_historical_score y == 10)) /\
  (forall db id db' h s t,
     Anomaly.detect_historical_anomaly id db = (Ok (Some (Anomaly.Detected h s t)), db') ->
     (h = true <-> 5 <= s) /\
     exists m y, find_metrics db id = Some m /\
       m.(yoy_consumption_change_percent) = Some y /\ s = calculate_historical_score y) /\
  calculate_historical_score 40 == 10 /\
  calculate_historical_score 0 == 0.
Proof.
  split; [|split; [|split]].
  - intros y a. unfold calculate_historical_score. fold a.
    pose proof (Qabs_nonneg y) as Ha. fold a in Ha.
    repeat split; intros;
      try (apply py_round_compat; qsplit; field_simplify; lra).
    eapply Qeq_trans; [|apply py_round_10]. apply py_round_compat. qsplit; lra.
  - intros db id db' h s t H. unfold Anomaly.detect_historical_anomaly in H.
    destruct (find_bill db id); [|discriminate].
    destruct (find_metrics db id) as [m|] eqn:Em; [|discriminate].
    destruct (yoy_consumption_change_percent m) as [y|] eqn:Ey; [|discriminate].
    destruct (previous_year_consumption_kwh m); [|discriminate].
    inversion H; subst. split.
    + split; intro Hh; [now apply qle_true | now apply Qle_bool_iff].
    + exists m, y. auto.
  - reflexivity.
  - reflexivity.
Qed.

(** C4: the unrounded linear value is not what is returned: a change of
    0.001% maps to 0.0002 on the first segment, the function returns 0. *)
Lemma historical_score_rounds :
  calculate_historical_score (1 # 1000) == 0 /\
  ~ calculate_historical_score (1 # 1000) == 2 * (1 # 1000) / 10.
Proof.
  split; [reflexivity|].
  intro H. apply Qeq_bool_iff in H. vm_compute in H. discriminate.
Qed.

Lemma historical_score_spec_witness :
  Qabs (399 # 10) < 40 /\ 30 <= Qabs (399 # 10) /\
  calculate_historical_score (399 # 10) == py_round (8 + (Qabs (399 # 10) - 30) / 10) 2.
Proof.
  assert (H1 : 30 <= Qabs (399 # 10) < 40) by (split; qdecide).
  split; [apply H1|split; [apply H1|]].
  exact (proj1 (proj2 (proj2 (proj2 (proj1 historical_score_spec (399 # 10))))) H1).
Defined.

(** ** Combined score *)

Lemma detect_historical_anomaly_pure id db :
  exists r, Anomaly.detect_historical_anomaly id db = (r, db).
Proof.
  unfold Anomaly.detect_historical_anomaly.
  destruct (find_bill db id); [|eauto].
  destruct (find_metrics db id) as [m|]; [|eauto].
  destruct (yoy_consumption_change_percent m); [|eauto].
  destruct (previous_year_consumption_kwh m); eauto.
Qed.

Lemma compare_to_peers_no_comparison db uid year c :
  Peer.compare_to_peers db uid year <> Ok (Some c).
Proof.
  unfold Peer.compare_to_peers.
  destruct (find_profile db uid); [|discriminate].
  destruct (find_bill_of_year db uid year); [|discriminate].
  destruct (match Peer.get_peer_statistics _ _ _ _ with Some s => Some s | None => _ end);
    [|discriminate].
  cbv zeta. destruct (qeq _ 0); discriminate.
Qed.

Lemma detect_peer_anomaly_shape id db b :
  find_bill db id = Some b ->
  Anomaly.detect_peer_anomaly id db = (Ok (Some (Anomaly.NoData "no_peer_data"%string)), db) \/
  exists e, Anomaly.detect_peer_anomaly id db = (Raise e, db).
Proof.
  intro Hb. unfold Anomaly.detect_peer_anomaly. rewrite Hb.
  destruct (Peer.compare_to_peers db (bill_user_id b) (bill_year b)) as [[c|]|e] eqn:E.
  - exfalso. exact (compare_to_peers_no_comparison _ _ _ _ E).
  - left. reflexivity.
  - right. eauto.
Qed.

Lemma detect_all_peer_nodata api id db r db' :
  Anomaly.detect_all_anomalies api id db = (Ok (Some r), db') ->
  Anomaly.peer_result r = Some (Anomaly.NoData "no_peer_data"%string) /\
  Anomaly.peer_score r = 0.
Proof.
  unfold Anomaly.detect_all_anomalies.
  destruct (find_bill db id) as [b|] eqn:Eb; [|discriminate].
  unfold bind, ret, lift.
  destruct (detect_historical_anomaly_pure id db) as [[hr|e] Hr]; rewrite Hr; [|discriminate].
  destruct (detect_peer_anomaly_shape id db b Eb) as [Hp|[e Hp]]; rewrite Hp; [|discriminate].
  destruct (Anomaly.detect_predictive_anomaly api id db) as [[qr|e] db3]; [|discriminate].
  destruct (Anomaly._determine_primary_anomaly_type hr _ qr) as [pt|e]; [|discriminate].
  intro H. inversion H; subst; clear H. split; reflexivity.
Qed.




(** ** Primary anomaly type *)

(** C2. The primary type the code reports is "normal" when no detector
    scores 4 or more; otherwise it is the type of the first detector, in the
    order historical, peer, predictive, whose score is the maximum, where
    the historical detector contributes its type only when its
    [has_anomaly] is set and "normal" otherwise: unlike the peer and
    predictive types, the historical one is gated on the detector's own
    flag. *)
Theorem primary_anomaly_type_spec :
  forall api db id r db',
    Anomaly.detect_all_anomalies api id db = (Ok (Some r), db') ->
    let s1 := Anomaly.historical_score r in
    let s2 := Anomaly.peer_score r in
    let s3 := Anomaly.predictive_score r in
    let t1 := match Anomaly.historical_result r with
              | Some d => if Anomaly.has_anomaly d then Anomaly.get_anomaly_type d
                          else "normal"%string
              | None => "normal"%string
              end in
    let t2 := match Anomaly.peer_result r with
              | Some d => Anomaly.get_anomaly_type d | None => "normal"%string end in
    let t3 := match Anomaly.predictive_result r with
              | Some d => Anomaly.get_anomaly_type d | None => "normal"%string end in
    let pt := Anomaly.primary_anomaly_type r in
    (s1 < 4 -> s2 < 4 -> s3 < 4 -> pt = "normal"%string) /\
    (4 <= s1 -> s2 <= s1 -> s3 <= s1 -> pt = t1) /\
    (4 <= s2 -> s1 < s2 -> s3 <= s2 -> pt = t2) /\
    (4 <= s3 -> s1 < s3 -> s2 < s3 -> pt = t3).
Proof.
  intros api db id r db' H. unfold Anomaly.detect_all_anomalies in H.
  destruct (find_bill db id) as [bill|]; [|discriminate].
  unfold bind, ret, lift in H.
  destruct (Anomaly.detect_historical_anomaly id db) as [[hr|e] db1]; [|discriminate].
  destruct (Anomaly.detect_peer_anomaly id db1) as [[pr|e] db2]; [|discriminate].
  destruct (Anomaly.detect_predictive_anomaly api id db2) as [[qr|e] db3]; [|discriminate].
  destruct hr as [h|]; [|discriminate].
  destruct pr as [p|]; [|discriminate].
  destruct qr as [q|]; [|discriminate].
  simpl in H. inversion H; subst; clear H. cbv zeta. simpl.
  destruct (qlt (Anomaly.score h) (Anomaly.score p)) eqn:?; simpl;
  match goal with |- context [qlt ?a (Anomaly.score q)] => destruct (qlt a (Anomaly.score q)) eqn:? end;
  simpl; qsplit; simpl in *; repeat split; intros; try reflexivity; exfalso; lra.
Qed.

Lemma primary_anomaly_type_spec_witness :
  match Anomaly.detect_all_anomalies Samples.api_down 1 Samples.db_sum_3999 with
  | (Ok (Some r), _) =>
      Anomaly.primary_anomaly_type r
      = match Anomaly.historical_result r with
        | Some d => if Anomaly.has_anomaly d then Anomaly.get_anomaly_type d
                    else "normal"%string
        | None => "normal"%string
        end
  | _ => False
  end.
Proof.
  destruct (Anomaly.detect_all_anomalies Samples.api_down 1 Samples.db_sum_3999)
    as [[[r|]|e] db'] eqn:E.
  - pose proof E as E'. vm_compute in E'. inversion E'; subst.
    apply (proj1 (proj2 (primary_anomaly_type_spec _ _ _ _ _ E))); qdecide.
  - vm_compute in E. discriminate.
  - vm_compute in E. discriminate.
Defined.

(** C2: a rise from 4000 kWh to 4640 kWh (16%) gives a historical score
    of 4.2 of type "moderate_increase", the maximum of the three scores and
    at least 4, yet the primary type is "normal", because that detector's
    [has_anomaly] (score at least 5) is false. *)
Lemma primary_type_drops_unflagged_historical :
  exists r db' d,
    Anomaly.detect_all_anomalies Samples.api_down 1 Samples.db_hist_42 = (Ok (Some r), db') /\
    Anomaly.historical_result r = Some d /\
    Anomaly.get_anomaly_type d = "moderate_increase"%string /\
    Anomaly.has_anomaly d = false /\
    Anomaly.historical_score r == 42 # 10 /\
    Anomaly.peer_score r == 0 /\ Anomaly.predictive_score r == 0 /\
    Anomaly.primary_anomaly_type r = "normal"%string.
Proof.
  do 3 eexists. split; [vm_compute; reflexivity|].
  split; [vm_compute; reflexivity|].
  vm_compute. repeat split; reflexivity.
Qed.

(** ** Weather *)

(** C10. [get_heating_degree_days] never raises. On a cache hit it
    returns the cached number; on a miss with a successful fetch of both
    the degree days and the mean temperature it returns the dictionary
    holding both and writes the cache; on a miss whose fetch fails it
    returns [None]. For the same inputs the first (uncached) call returns a
    dictionary and the next (cached) call the bare number. *)
Theorem get_heating_degree_days_shapes :
  forall api pc year c,
    (exists v c', Weather.get_heating_degree_days api pc year false c = (Ok v, c')) /\
    (forall e, Weather._get_from_cache c pc year = Some e ->
       Weather.get_heating_degree_days api pc year false c
       = (Ok (Weather.HNum (Weather.heating_degree_days e)), c)) /\
    (Weather._get_from_cache c pc year = None ->
     forall h a, Weather._fetch_from_api api pc year = Ok (Some h, Some a) ->
       Weather.get_heating_degree_days api pc year false c
       = (Ok (Weather.HDict h a), Weather._save_to_cache c pc year h (Some a))) /\
    (Weather._get_from_cache c pc year = None ->
     (exists e, Weather._fetch_from_api api pc year = Raise e) \/
     (exists a, Weather._fetch_from_api api pc year = Ok (None, a)) ->
       Weather.get_heating_degree_days api pc year false c = (Ok Weather.HNone, c)) /\
    match Weather.get_heating_degree_days Samples.api_up (Weather.PStr "10115") 2024 false [] with
    | (Ok (Weather.HDict h _), c1) =>
        fst (Weather.get_heating_degree_days Samples.api_up (Weather.PStr "10115") 2024 false c1)
        = Ok (Weather.HNum h)
    | _ => False
    end.
Proof.
  intros api pc year c. unfold Weather.get_heating_degree_days.
  split; [|split; [|split; [|split]]].
  - destruct (Weather._get_from_cache c pc year); [eauto|].
    destruct (Weather._fetch_from_api api pc year) as [[[h|] [a|]]|e]; eauto.
  - intros e He. rewrite He. reflexivity.
  - intros Hc h a Hf. rewrite Hc, Hf. reflexivity.
  - intros Hc [[e Hf]|[a Hf]]; rewrite Hc, Hf; reflexivity.
  - vm_compute. reflexivity.
Qed.

Lemma get_heating_degree_days_shapes_witness :
  Weather.get_heating_degree_days Samples.api_down (Weather.PStr "10115") 2024 false
    Samples.cache_2750_2600
  = (Ok (Weather.HNum 2750), Samples.cache_2750_2600).
Proof.
  exact (proj1 (proj2 (get_heating_degree_days_shapes Samples.api_down (Weather.PStr "10115")
           2024 Samples.cache_2750_2600))
           (Samples.cached "10115" 2024 2750) ltac:(vm_compute; reflexivity)).
Defined.

(** C5 (as amended). Whenever both degree-day lookups yield a number the
    factor is the current value divided by the previous one, rounded to
    three decimals, and [None] when the previous value is zero; whenever
    either lookup yields [None] the factor is [None]. *)
Theorem weather_adjustment_factor_spec :
  forall api pc cy py c vc c1 vp c2,
    Weather.get_heating_degree_days api pc cy false c = (Ok vc, c1) ->
    Weather.get_heating_degree_days api pc py false c1 = (Ok vp, c2) ->
    ((vc = Weather.HNone \/ vp = Weather.HNone) ->
       Weather.calculate_weather_adjustment_factor api pc cy py c = (Ok None, c2)) /\
    (forall x y, vc = Weather.HNum x -> vp = Weather.HNum y ->
       Weather.calculate_weather_adjustment_factor api pc cy py c
       = (Ok (if qeq y 0 then None else Some (py_round (x / y) 3)), c2)).
Proof.
  intros api pc cy py c vc c1 vp c2 H1 H2.
  unfold Weather.calculate_weather_adjustment_factor, bind, lift.
  rewrite H1, H2. split.
  - intros [-> | ->]; [reflexivity|]. destruct vc; reflexivity.
  - intros x y -> ->. simpl. destruct (qeq y 0); reflexivity.
Qed.

Lemma weather_adjustment_factor_spec_witness :
  Weather.calculate_weather_adjustment_factor Samples.api_down (Weather.PStr "10115") 2024 2023
    Samples.cache_2750_2600
  = (Ok (if qeq 2600 0 then None else Some (py_round (2750 / 2600) 3)), Samples.cache_2750_2600).
Proof.
  exact (proj2 (weather_adjustment_factor_spec Samples.api_down (Weather.PStr "10115") 2024 2023
           Samples.cache_2750_2600 (Weather.HNum 2750) Samples.cache_2750_2600
           (Weather.HNum 2600) Samples.cache_2750_2600
           ltac:(vm_compute; reflexivity) ltac:(vm_compute; reflexivity))
           2750 2600 eq_refl eq_refl).
Defined.

(** C5: with 2750 and 2600 cached for 2024 and 2023 the factor is 1.058,
    not the quotient 2750/2600. *)
Lemma weather_adjustment_factor_rounded :
  Weather.calculate_weather_adjustment_factor Samples.api_down (Weather.PStr "10115") 2024 2023
    Samples.cache_2750_2600 = (Ok (Some (1058 # 1000)), Samples.cache_2750_2600) /\
  ~ (1058 # 1000 == 2750 / 2600).
Proof.
  split; [vm_compute; reflexivity|].
  intro H. vm_compute in H. discriminate.
Qed.

(** ** Bill metrics *)

(** C6 (as amended). For an existing bill, [calculate_for_bill] stores
    [None] in both year-over-year fields when the user has no bill for the
    preceding year, and [None] as the percent change when the prior bill's
    consumption is not positive. When the prior consumption is positive
    and differs from the current one, the stored percent change is
    [(current - previous) / previous * 100] rounded to two decimals and the
    stored prior consumption is the prior consumption rounded to two
    decimals; 4500 against 3200 stores 40.62. *)
Theorem calculate_for_bill_yoy :
  (forall db id bill,
    find_bill db id = Some bill ->
    exists m db',
      Metrics.calculate_for_bill id db = (Ok (Some m), db') /\
      (find_bill_of_year db (bill_user_id bill) (bill_year bill - 1) = None ->
         yoy_consumption_change_percent m = None /\
         previous_year_consumption_kwh m = None) /\
      (forall pb, find_bill_of_year db (bill_user_id bill) (bill_year bill - 1) = Some pb ->
         consumption_kwh pb <= 0 -> yoy_consumption_change_percent m = None) /\
      (forall pb, find_bill_of_year db (bill_user_id bill) (bill_year bill - 1) = Some pb ->
         0 < consumption_kwh pb -> ~ consumption_kwh bill == consumption_kwh pb ->
         yoy_consumption_change_percent m
         = Some (py_round ((consumption_kwh bill - consumption_kwh pb)
                           / consumption_kwh pb * 100) 2) /\
         previous_year_consumption_kwh m = Some (py_round (consumption_kwh pb) 2))) /\
  match Metrics.calculate_for_bill 1 (Samples.db_two_years 4500 3200) with
  | (Ok (Some m), _) => yoy_consumption_change_percent m = Some (4062 # 100)
  | _ => False
  end.
Proof.
  split; [|vm_compute; reflexivity].
  intros db id bill Hb. unfold Metrics.calculate_for_bill. rewrite Hb.
  destruct (find_bill_of_year db (bill_user_id bill) (bill_year bill - 1)) as [p|];
    do 2 eexists; (split; [reflexivity|]); simpl.
  - split; [discriminate|]. split.
    + intros pb Ep Hle. injection Ep as <-.
      destruct (qlt 0 (consumption_kwh p)) eqn:E; qbool; [lra|reflexivity].
    + intros pb Ep Hlt Hne. injection Ep as <-.
      destruct (qlt 0 (consumption_kwh p)) eqn:E; qbool; [|lra].
      rewrite truthy_true by (apply relative_change_nonzero; assumption).
      rewrite truthy_true by lra. split; reflexivity.
  - split; [split; reflexivity|]. split; intros pb Ep; discriminate.
Qed.

Lemma calculate_for_bill_yoy_witness :
  match Metrics.calculate_for_bill 1 (Samples.db_two_years 4500 3200) with
  | (Ok (Some m), _) =>
      yoy_consumption_change_percent m
      = Some (py_round ((4500 - 3200) / 3200 * 100) 2)
  | _ => False
  end.
Proof.
  destruct (proj1 calculate_for_bill_yoy (Samples.db_two_years 4500 3200) 1%Z
              (Samples.bill 1 1 2024 4500) eq_refl)
    as [m [db' [E [_ [_ H]]]]].
  rewrite E.
  exact (proj1 (H (Samples.bill 2 1 2023 3200) eq_refl ltac:(qdecide) ltac:(qdecide))).
Defined.

(** C6: a prior-year bill with consumption 0 exists, yet both
    year-over-year fields are [None]. *)
Lemma calculate_for_bill_zero_prior :
  find_bill_of_year (Samples.db_two_years 4500 0) 1%Z 2023%Z = Some (Samples.bill 2 1 2023 0) /\
  match Metrics.calculate_for_bill 1 (Samples.db_two_years 4500 0) with
  | (Ok (Some m), _) =>
      yoy_consumption_change_percent m = None /\ previous_year_consumption_kwh m = None
  | _ => False
  end.
Proof. vm_compute. split; [reflexivity | split; reflexivity]. Qed.

(** ** Missing data *)

(** C7. For an existing bill, each detector answers a missing
    prerequisite with a sentinel instead of raising: the historical
    detector without metrics or without a year-over-year change, the peer
    detector without a profile or without cohort statistics (neither for
    the user's property type nor for any), the predictive detector without
    a prior-year bill, and, for a user with a profile and a prior-year
    bill, when the degree days of either year are unavailable. A sentinel
    has [has_anomaly] false and score 0, and [detect_all_anomalies] counts
    a sentinel as a score of 0. *)
Theorem detectors_missing_data_sentinels :
  (forall db id b,
     find_bill db id = Some b ->
     (find_metrics db id = None \/
      exists m, find_metrics db id = Some m /\ yoy_consumption_change_percent m = None) ->
     Anomaly.detect_historical_anomaly id db
     = (Ok (Some (Anomaly.NoData "no_historical_data")), db)) /\
  (forall db id b,
     find_bill db id = Some b ->
     (find_profile db (bill_user_id b) = None \/
      exists u, find_profile db (bill_user_id b) = Some u /\
        Peer.get_peer_statistics db (household_size u) (property_type u) (bill_year b) = None /\
        Peer.get_peer_statistics db (household_size u) None (bill_year b) = None) ->
     Anomaly.detect_peer_anomaly id db = (Ok (Some (Anomaly.NoData "no_peer_data")), db)) /\
  (forall api db id b,
     find_bill db id = Some b ->
     find_bill_of_year db (bill_user_id b) (bill_year b - 1) = None ->
     Anomaly.detect_predictive_anomaly api id db
     = (Ok (Some (Anomaly.NoData "no_baseline_data")), db)) /\
  (forall api db id b pb u vc c1 vp c2,
     find_bill db id = Some b ->
     find_bill_of_year db (bill_user_id b) (bill_year b - 1) = Some pb ->
     find_profile db (bill_user_id b) = Some u ->
     Weather.get_heating_degree_days api (Weather.PInt (postal_code u)) (bill_year b) false
       (weather_cache db) = (Ok vc, c1) ->
     Weather.get_heating_degree_days api (Weather.PInt (postal_code u)) (bill_year pb) false
       c1 = (Ok vp, c2) ->
     vc = Weather.HNone \/ vp = Weather.HNone ->
     Anomaly.detect_predictive_anomaly api id db
     = (Ok (Some (Anomaly.NoData "no_weather_data")), set_weather_cache db c2)) /\
  (forall reason, Anomaly.has_anomaly (Anomaly.NoData reason) = false /\
                  Anomaly.score (Anomaly.NoData reason) = 0) /\
  (forall api db id r db',
     Anomaly.detect_all_anomalies api id db = (Ok (Some r), db') ->
     forall reason,
       (Anomaly.historical_result r = Some (Anomaly.NoData reason) ->
        Anomaly.historical_score r = 0) /\
       (Anomaly.peer_result r = Some (Anomaly.NoData reason) -> Anomaly.peer_score r = 0) /\
       (Anomaly.predictive_result r = Some (Anomaly.NoData reason) ->
        Anomaly.predictive_score r = 0)) /\
  match Anomaly.detect_all_anomalies Samples.api_down 1 (Samples.db_two_years 4500 3200) with
  | (Ok (Some r), _) =>
      Anomaly.historical_result r = Some (Anomaly.NoData "no_historical_data") /\
      Anomaly.peer_result r = Some (Anomaly.NoData "no_peer_data") /\
      Anomaly.predictive_result r = Some (Anomaly.NoData "no_weather_data") /\
      Anomaly.combined_score r == 0
  | _ => False
  end.
Proof.
  split; [|split; [|split; [|split; [|split; [|split]]]]].
  - intros db id b Hb Hm. unfold Anomaly.detect_historical_anomaly. rewrite Hb.
    destruct Hm as [-> | [m [-> Hy]]]; [reflexivity|]. rewrite Hy. reflexivity.
  - intros db id b Hb Hp. unfold Anomaly.detect_peer_anomaly, Peer.compare_to_peers.
    rewrite Hb. destruct Hp as [-> | [u [-> [H1 H2]]]]; [reflexivity|].
    rewrite H1, H2. destruct (find_bill_of_year _ _ _); reflexivity.
  - intros api db id b Hb Hpb. unfold Anomaly.detect_predictive_anomaly.
    rewrite Hb, Hpb. reflexivity.
  - intros api db id b pb u vc c1 vp c2 Hb Hpb Hu H1 H2 Hn.
    unfold Anomaly.detect_predictive_anomaly. rewrite Hb, Hpb, Hu.
    unfold bind, with_cache, Weather.get_expected_consumption_with_weather,
      Weather.calculate_weather_adjustment_factor, bind, lift, ret.
    rewrite H1, H2.
    destruct Hn as [-> | ->]; [reflexivity|]. destruct vc; reflexivity.
  - intro reason. split; reflexivity.
  - intros api db id r db' H reason. unfold Anomaly.detect_all_anomalies in H.
    destruct (find_bill db id) as [bill|]; [|discriminate].
    unfold bind, ret, lift in H.
    destruct (Anomaly.detect_historical_anomaly id db) as [[hr|e] db1]; [|discriminate].
    destruct (Anomaly.detect_peer_anomaly id db1) as [[pr|e] db2]; [|discriminate].
    destruct (Anomaly.detect_predictive_anomaly api id db2) as [[qr|e] db3]; [|discriminate].
    destruct (Anomaly._determine_primary_anomaly_type hr pr qr) as [pt|e]; [|discriminate].
    inversion H; subst; clear H. simpl.
    repeat split; intros ->; reflexivity.
  - vm_compute. repeat split; reflexivity.
Qed.

Lemma detectors_missing_data_sentinels_witness :
  Anomaly.detect_predictive_anomaly Samples.api_down 1 (Samples.db_two_years 4500 3200)
  = (Ok (Some (Anomaly.NoData "no_weather_data")),
     set_weather_cache (Samples.db_two_years 4500 3200) []).
Proof.
  exact (proj1 (proj2 (proj2 (proj2 detectors_missing_data_sentinels)))
           Samples.api_down (Samples.db_two_years 4500 3200) 1%Z
           (Samples.bill 1 1 2024 4500) (Samples.bill 2 1 2023 3200) (Samples.profile 1)
           Weather.HNone [] Weather.HNone []
           eq_refl eq_refl eq_refl
           ltac:(vm_compute; reflexivity) ltac:(vm_compute; reflexivity)
           (or_introl eq_refl)).
Defined.

(** ** Peer statistics *)




(** ** Invoice parser *)

(** C8 (as amended). A text containing neither supplier signature is
    detected as "UNKNOWN", and whatever the cleaning, pattern search and
    normalisation functions are, [parse_invoice_text] on a text whose
    cleaned form is detected as "UNKNOWN" returns supplier "UNKNOWN" with an
    empty field map: no pattern table applies and nothing raises. *)
Theorem parse_invoice_text_unknown :
  (forall text,
     Parser.search Parser.eon_supplier_at (Parser.L text) = false ->
     Parser.search Parser.green_supplier_at (Parser.L text) = false ->
     Parser.detect_supplier text = "UNKNOWN"%string) /\
  (forall clean_ocr_text pattern_search normalize_amount_german normalize_kwh
          parse_german_date find_dates raw_text,
     Parser.detect_supplier (clean_ocr_text raw_text) = "UNKNOWN"%string ->
     Parser.parse_invoice_text clean_ocr_text pattern_search normalize_amount_german
       normalize_kwh parse_german_date find_dates raw_text
     = {| Parser.supplier := "UNKNOWN"; Parser.fields := [] |}) /\
  Parser.detect_supplier "Rechnung Gesamtbetrag 1.234,56 EUR" = "UNKNOWN"%string /\
  Parser.detect_supplier "E.ON Energie Deutschland GmbH" = "EON"%string /\
  Parser.detect_supplier "Green Planet Energy eG" = "GREEN_PLANET"%string.
Proof.
  split; [|split; [|split; [|split]]].
  - intros text He Hg. unfold Parser.detect_supplier. rewrite He, Hg. reflexivity.
  - intros cl ps na nk pg fd raw H. unfold Parser.parse_invoice_text.
    rewrite H. reflexivity.
  - vm_compute. reflexivity.
  - vm_compute. reflexivity.
  - vm_compute. reflexivity.
Qed.

Lemma parse_invoice_text_unknown_witness :
  Parser.detect_supplier "Hallo Welt" = "UNKNOWN"%string.
Proof.
  exact (proj1 parse_invoice_text_unknown "Hallo Welt"%string
           ltac:(vm_compute; reflexivity) ltac:(vm_compute; reflexivity)).
Defined.

(** C8: an invoice text without supplier signature that states its total
    ([clean_ocr_text] leaves this text unchanged) yields no field entries
    at all, in particular no entry for "totalAmount". *)
Lemma parse_invoice_text_unknown_has_no_fields :
  let r := Parser.parse_invoice_text (fun s => s) (fun _ _ _ => None) (fun _ => None)
             (fun _ => None) (fun _ => None) (fun _ => [])
             "Rechnung Gesamtbetrag 1.234,56 EUR"%string in
  Parser.supplier r = "UNKNOWN"%string /\ Parser.fields r = [] /\
  ~ In "totalAmount"%string (map fst (Parser.fields r)).
Proof. vm_compute. split; [reflexivity | split; [reflexivity | intros []]]. Qed.

(* ================================================================== *)
(** * Further properties of the code *)

(** ** Detector scores *)

(** Division by the constants of the score tables, as multiplication. *)
Ltac qconst_div :=
  unfold Qdiv in *;
  try change (/ 10) with (1 # 10) in *;
  try change (/ 15) with (1 # 15) in *.

Lemma Qabs_opp_eq x : Qabs (- x) = Qabs x.
Proof. destruct x as [n d]. unfold Qabs, Qopp. simpl. now rewrite Z.abs_opp. Qed.

Lemma py_round_between x lo hi n :
  py_round lo n == lo -> py_round hi n == hi -> lo <= x <= hi ->
  lo <= py_round x n <= hi.
Proof.
  intros Hl Hh [H1 H2]. split.
  - rewrite <- Hl at 1. now apply py_round_mono.
  - rewrite <- Hh. now apply py_round_mono.
Qed.

(** X1. The historical score lies in [0, 10] and does not decrease as
    the absolute year-over-year change grows; in particular a rise and a
    fall of the same size score the same. *)
Theorem historical_score_bounded_monotone : forall y1 y2,
  0 <= calculate_historical_score y1 <= 10 /\
  (Qabs y1 <= Qabs y2 -> calculate_historical_score y1 <= calculate_historical_score y2) /\
  calculate_historical_score (- y1) == calculate_historical_score y1.
Proof.
  intros y1 y2. pose proof (Qabs_nonneg y1). pose proof (Qabs_nonneg y2).
  split; [|split].
  - unfold calculate_historical_score. apply py_round_between; try reflexivity.
    qsplit; qconst_div; split; lra.
  - intro H12. unfold calculate_historical_score. apply py_round_mono. qsplit; qconst_div; lra.
  - unfold calculate_historical_score. rewrite Qabs_opp_eq. reflexivity.
Qed.

(** X2. The predictive score lies in [0, 10] and does not decrease as
    the absolute deviation from the weather-adjusted expectation grows; a
    deviation up or down of the same size scores the same. *)
Theorem predictive_score_bounded_monotone : forall d1 d2,
  0 <= calculate_predictive_score d1 <= 10 /\
  (Qabs d1 <= Qabs d2 -> calculate_predictive_score d1 <= calculate_predictive_score d2) /\
  calculate_predictive_score (- d1) == calculate_predictive_score d1.
Proof.
  intros d1 d2. pose proof (Qabs_nonneg d1). pose proof (Qabs_nonneg d2).
  split; [|split].
  - unfold calculate_predictive_score. apply py_round_between; try reflexivity.
    qsplit; qconst_div; split; lra.
  - intro H12. unfold calculate_predictive_score. apply py_round_mono. qsplit; qconst_div; lra.
  - unfold calculate_predictive_score. rewrite Qabs_opp_eq. reflexivity.
Qed.

(** X3. The historical anomaly type by year-over-year change [y]:
    "normal" exactly when [|y| < 15], "consumption_spike" exactly when
    [y > 30], "consumption_drop" exactly when [y < -30],
    "moderate_increase" exactly when [15 < y <= 30], and
    "moderate_decrease" exactly when [-30 <= y <= -15] or [y = 15]: a rise
    of exactly 15 percent is classified as a decrease. *)
Theorem classify_historical_anomaly_table : forall y,
  (classify_historical_anomaly y = "normal"%string <-> Qabs y < 15) /\
  (classify_historical_anomaly y = "consumption_spike"%string <-> 30 < y) /\
  (classify_historical_anomaly y = "consumption_drop"%string <-> y < -30) /\
  (classify_historical_anomaly y = "moderate_increase"%string <-> 15 < y /\ y <= 30) /\
  (classify_historical_anomaly y = "moderate_decrease"%string <->
     (-30 <= y /\ y <= -15) \/ y == 15).
Proof.
  intro y. unfold classify_historical_anomaly.
  destruct (Qlt_le_dec y 0) as [Hy|Hy];
    [pose proof (Qabs_neg y ltac:(lra)) | pose proof (Qabs_pos y Hy)];
  qsplit; repeat split; intros; try discriminate; try reflexivity; try lra;
  try (destruct H; lra).
Qed.

(** ** Weather service *)

Lemma find_app {A} (p : A -> bool) l1 l2 :
  find p (l1 ++ l2) = match find p l1 with Some x => Some x | None => find p l2 end.
Proof.
  induction l1 as [|a l1 IH]; simpl; [reflexivity|]. destruct (p a); [reflexivity | exact IH].
Qed.

Lemma find_filter_irrel {A} (p q : A -> bool) l :
  (forall x, p x = true -> q x = true) -> find p (filter q l) = find p l.
Proof.
  intro H. induction l as [|a l IH]; simpl; [reflexivity|].
  destruct (p a) eqn:Ep.
  - rewrite (H a Ep). simpl. now rewrite Ep.
  - destruct (q a); simpl; [rewrite Ep|]; exact IH.
Qed.

Lemma find_filter_none {A} (p q : A -> bool) l :
  (forall x, p x = true -> q x = false) -> find p (filter q l) = None.
Proof.
  intro H. induction l as [|a l IH]; simpl; [reflexivity|].
  destruct (q a) eqn:Eq; [|exact IH]. simpl.
  destruct (p a) eqn:Ep; [|exact IH]. rewrite (H a Ep) in Eq. discriminate.
Qed.

Lemma find_some_true {A} (p : A -> bool) l x : find p l = Some x -> p x = true.
Proof. intro H. now apply find_some in H as [_ H]. Qed.

Lemma get_from_cache_key c pc year :
  Weather._get_from_cache c pc year = find (wc_key pc year) c.
Proof. reflexivity. Qed.

Lemma wc_key_same pc pc' y y' e :
  wc_key pc y e = true -> wc_key pc' y' e = true ->
  (String.eqb (Weather.py_str pc') (Weather.py_str pc) && Z.eqb y' y)%bool = true.
Proof.
  unfold wc_key. intros H1 H2.
  apply andb_prop in H1 as [H1 H1']. apply andb_prop in H2 as [H2 H2'].
  apply String.eqb_eq in H1, H2. apply Z.eqb_eq in H1', H2'.
  rewrite <- H1, <- H2, <- H1', <- H2', String.eqb_refl, Z.eqb_refl. reflexivity.
Qed.

Lemma find_update_first_hit (p : Weather.WeatherCache -> bool) f c e :
  find p c = Some e -> p (f e) = true -> find p (Weather.update_first p f c) = Some (f e).
Proof.
  induction c as [|a c IH]; simpl; [discriminate|].
  destruct (p a) eqn:Ea; simpl.
  - intros H Hf. injection H as <-. now rewrite Hf.
  - rewrite Ea. exact IH.
Qed.

Lemma update_first_length p f c : List.length (Weather.update_first p f c) = List.length c.
Proof. induction c as [|a c IH]; simpl; [reflexivity|]. destruct (p a); simpl; lia. Qed.

Lemma find_update_first_other (p q : Weather.WeatherCache -> bool) f c :
  (forall x, p x = true -> q x = true -> False) ->
  (forall x, p x = true -> q (f x) = q x) ->
  find q (Weather.update_first p f c) = find q c.
Proof.
  intros Hd Hf. induction c as [|a c IH]; simpl; [reflexivity|].
  destruct (p a) eqn:Ea; simpl.
  - rewrite (Hf a Ea). destruct (q a) eqn:Eq; [exfalso; exact (Hd a Ea Eq)|reflexivity].
  - destruct (q a); [reflexivity | exact IH].
Qed.

(** X4. The heating degree days computed from a daily series are never
    negative, and they are [0] when every present day is at least at the
    base temperature of 18 degrees; days with a missing reading count
    nothing. *)
Theorem calculate_hdd_nonneg_warm : forall temps,
  0 <= Weather._calculate_hdd_from_temperatures temps /\
  (Forall (fun o => match o with Some t => 18 <= t | None => True end) temps ->
   Weather._calculate_hdd_from_temperatures temps == 0) /\
  Weather._calculate_hdd_from_temperatures (None :: temps)
  = Weather._calculate_hdd_from_temperatures temps.
Proof.
  intro temps. unfold Weather._calculate_hdd_from_temperatures.
  assert (Hn : 0 <= Weather.hdd_sum temps).
  { induction temps as [|[t|] ts IH]; simpl; [lra| |exact IH].
    unfold Weather.BASE_TEMPERATURE. qsplit; lra. }
  split; [|split].
  - apply (Qle_trans _ (py_round 0 1)); [unfold Qle; simpl; lia | now apply py_round_mono].
  - intro H. apply Qeq_trans with (py_round 0 1); [apply py_round_compat | reflexivity].
    clear Hn. induction H as [|[t|] ts Ht _ IH]; simpl; [reflexivity| |exact IH].
    unfold Weather.BASE_TEMPERATURE. qsplit; [lra | exact IH].
  - reflexivity.
Qed.

(** X5. After [_save_to_cache] for a postal code and year, [_get_from_cache]
    for that key returns a row holding the saved heating degree days and
    average temperature, and the lookup of every other key is unchanged;
    a new row is appended only when the key was not cached yet. *)
Theorem save_to_cache_get_from_cache : forall c pc year hdd avg,
  (exists e, Weather._get_from_cache (Weather._save_to_cache c pc year hdd avg) pc year = Some e /\
     e.(Weather.heating_degree_days) = hdd /\ e.(Weather.average_temperature_celsius) = avg) /\
  (forall pc' year',
     (String.eqb (Weather.py_str pc') (Weather.py_str pc) && Z.eqb year' year)%bool = false ->
     Weather._get_from_cache (Weather._save_to_cache c pc year hdd avg) pc' year'
     = Weather._get_from_cache c pc' year') /\
  List.length (Weather._save_to_cache c pc year hdd avg)
  = (List.length c + match Weather._get_from_cache c pc year with
                     | Some _ => 0 | None => 1 end)%nat.
Proof.
  intros c pc year hdd avg. unfold Weather._save_to_cache.
  rewrite !get_from_cache_key.
  destruct (find (wc_key pc year) c) as [e|] eqn:E.
  - split; [|split].
    + eexists. split; [apply (find_update_first_hit (wc_key pc year)); [exact E|]|].
      * apply find_some_true in E. exact E.
      * split; reflexivity.
    + intros pc' year' Hne. apply find_update_first_other.
      * intros x H1 H2. pose proof (wc_key_same _ _ _ _ _ H1 H2). congruence.
      * intros x _. reflexivity.
    + rewrite update_first_length. lia.
  - split; [|split].
    + eexists. rewrite find_app, E. simpl. unfold wc_key at 1. simpl.
      rewrite String.eqb_refl, Z.eqb_refl. split; [reflexivity | split; reflexivity].
    + intros pc' year' Hne. rewrite !get_from_cache_key, find_app.
      destruct (find (wc_key pc' year') c); [reflexivity|]. simpl.
      unfold wc_key at 1. simpl. rewrite String.eqb_sym, Z.eqb_sym, Hne. reflexivity.
    + rewrite length_app. simpl. lia.
Qed.

Lemma get_heating_degree_days_cached api c pc year e :
  Weather._get_from_cache c pc year = Some e ->
  Weather.get_heating_degree_days api pc year false c
  = (Ok (Weather.HNum e.(Weather.heating_degree_days)), c).
Proof. intro H. unfold Weather.get_heating_degree_days. now rewrite H. Qed.

Lemma get_heating_degree_days_int api z year force c :
  z <> 0%Z ->
  Weather.get_heating_degree_days api (Weather.PInt z) year force c
  = (Ok (if force then Weather.HNone else cached_hdd c (Weather.PInt z) year), c).
Proof.
  intro Hz. unfold Weather.get_heating_degree_days, cached_hdd.
  destruct force; [|destruct (Weather._get_from_cache c (Weather.PInt z) year); [reflexivity|]];
  unfold Weather._fetch_from_api, Weather._get_coordinates_from_postal_code;
  destruct z; try contradiction; reflexivity.
Qed.

(** X6. With an integer postal code (the [UserProfile.postal_code] column
    the anomaly detector passes) other than 0, [get_heating_degree_days]
    never reaches the weather API: taking the first character of an
    [int] raises [TypeError], which is not caught, so only a cache hit
    gives a value, [force_refresh] always gives [None], and the cache is
    never written. Hence [calculate_weather_adjustment_factor] on such a
    code is computed from the cached rows alone. *)
Theorem heating_degree_days_int_postal_code_offline :
  forall api z c, z <> 0%Z ->
  (forall year force,
     Weather.get_heating_degree_days api (Weather.PInt z) year force c
     = (Ok (if force then Weather.HNone else cached_hdd c (Weather.PInt z) year), c)) /\
  (forall current_year previous_year,
     Weather.calculate_weather_adjustment_factor api (Weather.PInt z) current_year previous_year c
     = (Weather.adjustment_of (cached_hdd c (Weather.PInt z) current_year)
                              (cached_hdd c (Weather.PInt z) previous_year), c)).
Proof.
  intros api z c Hz. split.
  - intros year force. now apply get_heating_degree_days_int.
  - intros cy py. unfold Weather.calculate_weather_adjustment_factor, bind, lift.
    rewrite !get_heating_degree_days_int by exact Hz. reflexivity.
Qed.

Lemma heating_degree_days_int_postal_code_offline_witness :
  (10115 <> 0)%Z /\
  Weather.calculate_weather_adjustment_factor Samples.api_up (Weather.PInt 10115) 2024 2023
    Samples.cache_2750_2600
  = (Ok (Some (py_round (2750 / 2600) 3)), Samples.cache_2750_2600).
Proof.
  split; [discriminate|].
  exact (proj2 (heating_degree_days_int_postal_code_offline Samples.api_up 10115
                  Samples.cache_2750_2600 ltac:(discriminate)) 2024%Z 2023%Z).
Defined.

Lemma py_round_small x : 0 <= x -> x < 1 # 2000 -> py_round x 3 == 0.
Proof.
  intros H0 H1. unfold py_round.
  change (inject_Z (Zpos (scale 3))) with 1000.
  assert (Hf : Qfloor (x * 1000) = 0%Z).
  { apply Z.le_antisymm.
    - change 0%Z with (Qfloor (1 # 2)). apply Qfloor_resp_le. lra.
    - change 0%Z with (Qfloor 0). apply Qfloor_resp_le. lra. }
  rewrite rhe_below; rewrite Hf; [reflexivity|].
  change (inject_Z 0) with 0. lra.
Qed.

(** X7. When both years are cached and the baseline year's heating
    degree days are not 0, [get_weather_normalized_consumption] divides
    by the factor rounded to three decimals: a ratio below 0.0005 (for
    instance a current year with no heating degree days) rounds the
    factor to 0.0 and the division raises [ZeroDivisionError]; equal
    heating degree days give the consumption rounded to two decimals.
    The cache is left unchanged. *)
Theorem weather_normalized_consumption_cached :
  forall api actual pc actual_year baseline_year c e1 e2,
  Weather._get_from_cache c pc actual_year = Some e1 ->
  Weather._get_from_cache c pc baseline_year = Some e2 ->
  ~ e2.(Weather.heating_degree_days) == 0 ->
  (0 <= e1.(Weather.heating_degree_days) / e2.(Weather.heating_degree_days) < 1 # 2000 ->
   WeatherOps.get_weather_normalized_consumption api actual pc actual_year baseline_year c
   = (Raise ZeroDivisionError, c)) /\
  (e1.(Weather.heating_degree_days) == e2.(Weather.heating_degree_days) ->
   exists r,
   WeatherOps.get_weather_normalized_consumption api actual pc actual_year baseline_year c
   = (Ok (Some r), c) /\ r == py_round actual 2).
Proof.
  intros api actual pc ay bly c e1 e2 E1 E2 Hne.
  unfold WeatherOps.get_weather_normalized_consumption,
    Weather.calculate_weather_adjustment_factor, bind, lift.
  rewrite (get_heating_degree_days_cached _ _ _ _ _ E1),
          (get_heating_degree_days_cached _ _ _ _ _ E2).
  unfold Weather.adjustment_of.
  destruct (qeq (Weather.heating_degree_days e2) 0) eqn:Ez; qbool; [contradiction|].
  set (h1 := Weather.heating_degree_days e1) in *.
  set (h2 := Weather.heating_degree_days e2) in *.
  split.
  - intro Hs. rewrite (qeq_true_of _ _ (py_round_small _ (proj1 Hs) (proj2 Hs))). reflexivity.
  - intro Heq.
    assert (Hf : py_round (h1 / h2) 3 == 1).
    { apply Qeq_trans with (py_round 1 3); [apply py_round_compat | reflexivity].
      rewrite Heq. field. exact Hne. }
    destruct (qeq (py_round (h1 / h2) 3) 0) eqn:Ef; qbool; [exfalso; lra|].
    eexists. split; [reflexivity|].
    apply py_round_compat. rewrite Hf. field.
Qed.

Lemma weather_normalized_consumption_cached_witness :
  WeatherOps.get_weather_normalized_consumption Samples.api_up 3000 (Weather.PStr "10115")
    2024 2023 Samples.cache_0_2600
  = (Raise ZeroDivisionError, Samples.cache_0_2600).
Proof.
  destruct (weather_normalized_consumption_cached Samples.api_up 3000 (Weather.PStr "10115")
              2024 2023 Samples.cache_0_2600 (Samples.cached "10115" 2024 0)
              (Samples.cached "10115" 2023 2600) eq_refl eq_refl ltac:(qdecide)) as [H _].
  apply H. split; qdecide.
Defined.

Lemma filter_length_split {A} (p : A -> bool) l :
  (List.length (filter p l) + List.length (filter (fun x => negb (p x)) l))%nat = List.length l.
Proof. induction l as [|a l IH]; simpl; [reflexivity|]. destruct (p a); simpl; lia. Qed.

(** X8. [clear_cache] with no filter (or with the falsy filters [""] and
    year [0], which are ignored) deletes the whole cache and returns its
    size. With a postal code and a year it returns the number of deleted
    rows, which together with the rows left makes up the old cache; no row
    for that key is left, and the lookup of every other key is
    unchanged. *)
Theorem clear_cache_spec : forall c,
  WeatherOps.clear_cache None None c = (Ok (List.length c), []) /\
  (forall year, WeatherOps.clear_cache (Some EmptyString) year c
                = WeatherOps.clear_cache None year c) /\
  (forall pc, WeatherOps.clear_cache pc (Some 0%Z) c = WeatherOps.clear_cache pc None c) /\
  (forall s year, s <> EmptyString -> year <> 0%Z ->
   exists n c', WeatherOps.clear_cache (Some s) (Some year) c = (Ok n, c') /\
     (n + List.length c')%nat = List.length c /\
     Weather._get_from_cache c' (Weather.PStr s) year = None /\
     (forall pc' year',
        (String.eqb (Weather.py_str pc') s && Z.eqb year' year)%bool = false ->
        Weather._get_from_cache c' pc' year' = Weather._get_from_cache c pc' year')).
Proof.
  intro c. split; [|split; [|split]].
  - unfold WeatherOps.clear_cache. simpl.
    induction c as [|a c IH]; simpl; [reflexivity|]. now injection IH as -> ->.
  - intro year. reflexivity.
  - intro pc. reflexivity.
  - intros s year Hs Hy. unfold WeatherOps.clear_cache.
    destruct (String.eqb s EmptyString) eqn:Es; [apply String.eqb_eq in Es; contradiction|].
    destruct (Z.eqb year 0) eqn:Ey; [apply Z.eqb_eq in Ey; contradiction|].
    do 2 eexists. split; [reflexivity|]. split; [|split].
    + apply filter_length_split.
    + rewrite get_from_cache_key. apply find_filter_none.
      intros x Hx. unfold wc_key in Hx. simpl in Hx. now rewrite Hx.
    + intros pc' year' Hne. rewrite !get_from_cache_key. apply find_filter_irrel.
      intros x Hx. destruct (String.eqb (Weather.wc_postal_code x) s && Z.eqb (Weather.wc_year x) year)%bool eqn:Ex; [|reflexivity].
      exfalso. pose proof (wc_key_same (Weather.PStr s) pc' year year' x Ex Hx). simpl in H.
      congruence.
Qed.

Lemma clear_cache_spec_witness :
  WeatherOps.clear_cache (Some "10115"%string) (Some 2024%Z) Samples.cache_2750_2600
  = (Ok 1%nat, [Samples.cached "10115" 2023 2600]).
Proof.
  destruct (proj2 (proj2 (proj2 (clear_cache_spec Samples.cache_2750_2600)))
              "10115"%string 2024%Z ltac:(discriminate) ltac:(discriminate))
    as (n & c' & E & _).
  rewrite E. vm_compute in E. symmetry. exact E.
Defined.

Lemma py_sum_complete temps :
  Forall (fun o => o <> None) temps -> exists s, Weather.py_sum temps = Ok s.
Proof.
  induction 1 as [|[t|] ts Ht _ IH]; simpl; [eauto | | contradiction].
  destruct IH as [s ->]. eauto.
Qed.

Lemma get_heating_degree_days_miss api c pc year :
  api_complete api -> Weather._get_from_cache c (Weather.PStr pc) year = None ->
  exists hdd avg,
    Weather.get_heating_degree_days api (Weather.PStr pc) year false c
    = (Ok (Weather.HDict hdd avg),
       Weather._save_to_cache c (Weather.PStr pc) year hdd (Some avg)).
Proof.
  intros Hapi Hc. unfold Weather.get_heating_degree_days. rewrite Hc.
  unfold Weather._fetch_from_api.
  assert (Hco : exists ll, Weather._get_coordinates_from_postal_code (Weather.PStr pc) = Ok ll)
    by (destruct pc; simpl; eauto).
  destruct Hco as [ll ->].
  destruct (Hapi ll year) as (temps & -> & Hne & Hall).
  destruct (py_sum_complete temps Hall) as [s Hs].
  destruct temps as [|t ts]; [contradiction|]. rewrite Hs.
  do 2 eexists. reflexivity.
Qed.

Lemma save_to_cache_self c pc year hdd avg :
  is_cached (Weather._save_to_cache c pc year hdd avg) pc year.
Proof.
  unfold is_cached, Weather._save_to_cache. rewrite !get_from_cache_key.
  destruct (find (wc_key pc year) c) as [e|] eqn:E.
  - rewrite (find_update_first_hit (wc_key pc year) _ c e E); [discriminate|].
    apply find_some_true in E. exact E.
  - rewrite find_app, E. simpl. unfold wc_key at 1. simpl.
    rewrite String.eqb_refl, Z.eqb_refl. discriminate.
Qed.

Lemma save_to_cache_other c pc year hdd avg pc' year' :
  (String.eqb (Weather.py_str pc') (Weather.py_str pc) && Z.eqb year' year)%bool = false ->
  Weather._get_from_cache (Weather._save_to_cache c pc year hdd avg) pc' year'
  = Weather._get_from_cache c pc' year'.
Proof.
  intro Hne. unfold Weather._save_to_cache. rewrite !get_from_cache_key.
  destruct (find (wc_key pc year) c) as [e|] eqn:E.
  - apply find_update_first_other.
    + intros x H1 H2. pose proof (wc_key_same _ _ _ _ _ H1 H2). congruence.
    + intros x _. reflexivity.
  - rewrite find_app. destruct (find (wc_key pc' year') c); [reflexivity|]. simpl.
    unfold wc_key at 1. simpl. rewrite String.eqb_sym, Z.eqb_sym, Hne. reflexivity.
Qed.

Lemma get_from_cache_same_key c pc pc' year year' :
  (String.eqb (Weather.py_str pc') (Weather.py_str pc) && Z.eqb year' year)%bool = true ->
  Weather._get_from_cache c pc' year' = Weather._get_from_cache c pc year.
Proof.
  intro H. apply andb_prop in H as [H1 H2].
  apply String.eqb_eq in H1. apply Z.eqb_eq in H2.
  unfold Weather._get_from_cache. now rewrite H1, H2.
Qed.

Lemma save_to_cache_keeps c pc year hdd avg pc' year' :
  is_cached c pc' year' -> is_cached (Weather._save_to_cache c pc year hdd avg) pc' year'.
Proof.
  unfold is_cached. intro H.
  destruct (String.eqb (Weather.py_str pc') (Weather.py_str pc) && Z.eqb year' year)%bool eqn:E.
  - rewrite (get_from_cache_same_key _ _ _ _ _ E). apply save_to_cache_self.
  - now rewrite save_to_cache_other.
Qed.

Lemma prefetch_years_run api pc years f k c :
  api_complete api ->
  exists f' k' c',
    WeatherOps.prefetch_years api pc years (f, k) c = (Ok (f', k'), c') /\
    (f' + k' = f + k + List.length years)%nat /\
    (forall pc' year', is_cached c pc' year' -> is_cached c' pc' year') /\
    (forall year, In year years -> is_cached c' (Weather.PStr pc) year).
Proof.
  intro Hapi. revert f k c. induction years as [|y ys IH]; intros f k c.
  - exists f, k, c. simpl. split; [reflexivity|]. split; [lia|]. split; [auto | intros ? []].
  - simpl. destruct (Weather._get_from_cache c (Weather.PStr pc) y) as [e|] eqn:Ec.
    + destruct (IH f (S k) c) as (f' & k' & c' & E & Hn & Hk & Hy).
      exists f', k', c'. split; [exact E|]. split; [simpl in Hn; lia|]. split; [exact Hk|].
      intros year [<-|Hin]; [|now apply Hy]. apply Hk. unfold is_cached. now rewrite Ec.
    + destruct (get_heating_degree_days_miss api c pc y Hapi Ec) as (h & a & Eg).
      unfold bind. rewrite Eg. simpl.
      destruct (IH (S f) k (Weather._save_to_cache c (Weather.PStr pc) y h (Some a)))
        as (f' & k' & c' & E & Hn & Hk & Hy).
      exists f', k', c'. split; [exact E|]. split; [simpl in Hn; lia|].
      split; [intros; apply Hk, save_to_cache_keeps; assumption|].
      intros year [<-|Hin]; [|now apply Hy]. apply Hk, save_to_cache_self.
Qed.

Lemma prefetch_years_cached api pc years f k c :
  (forall year, In year years -> is_cached c (Weather.PStr pc) year) ->
  WeatherOps.prefetch_years api pc years (f, k) c = (Ok (f, k + List.length years)%nat, c).
Proof.
  revert k. induction years as [|y ys IH]; intros k H; simpl.
  - now rewrite Nat.add_0_r.
  - destruct (Weather._get_from_cache c (Weather.PStr pc) y) eqn:Ec.
    + rewrite IH; [now rewrite Nat.add_succ_r | intros; apply H; now right].
    + exfalso. apply (H y (or_introl eq_refl)). exact Ec.
Qed.

Lemma prefetch_codes_run api codes years f k c :
  api_complete api ->
  exists f' k' c',
    WeatherOps.prefetch_codes api codes years (f, k) c = (Ok (f', k'), c') /\
    (f' + k' = f + k + List.length codes * List.length years)%nat /\
    (forall pc' year', is_cached c pc' year' -> is_cached c' pc' year') /\
    (forall pc year, In pc codes -> In year years -> is_cached c' (Weather.PStr pc) year).
Proof.
  intro Hapi. revert f k c. induction codes as [|pc codes IH]; intros f k c.
  - exists f, k, c. simpl. split; [reflexivity|]. split; [lia|]. split; [auto | intros ? ? []].
  - simpl. unfold bind.
    destruct (prefetch_years_run api pc years f k c Hapi) as (f1 & k1 & c1 & E1 & Hn1 & Hk1 & Hy1).
    rewrite E1.
    destruct (IH f1 k1 c1) as (f' & k' & c' & E & Hn & Hk & Hy).
    exists f', k', c'. split; [exact E|]. split; [lia|].
    split; [intros; apply Hk, Hk1; assumption|].
    intros p year [<-|Hin] Hyear; [apply Hk, Hy1, Hyear | now apply Hy].
Qed.

Lemma prefetch_codes_cached api codes years f k c :
  (forall pc year, In pc codes -> In year years -> is_cached c (Weather.PStr pc) year) ->
  WeatherOps.prefetch_codes api codes years (f, k) c
  = (Ok (f, k + List.length codes * List.length years)%nat, c).
Proof.
  revert k. induction codes as [|pc codes IH]; intros k H; simpl.
  - now rewrite Nat.add_0_r.
  - unfold bind. rewrite prefetch_years_cached by (intros; apply H; [now left | assumption]).
    rewrite IH by (intros; apply H; [now right | assumption]).
    f_equal. f_equal. f_equal. lia.
Qed.

(** X9. With a weather API that always returns a complete daily series,
    [prefetch_common_locations] handles each of the nine cities and each
    year once, as fetched or as already cached, leaves every one of them
    cached, and a second run fetches nothing: it reports all of them as
    cached and leaves the cache as it is. *)
Theorem prefetch_common_locations_idempotent : forall api years c,
  api_complete api ->
  let ys := match years with None => [2022; 2023; 2024]%Z | Some ys => ys end in
  exists fetched cached c1,
    WeatherOps.prefetch_common_locations api years c = (Ok (fetched, cached), c1) /\
    (fetched + cached = 9 * List.length ys)%nat /\
    (forall pc year, In pc WeatherOps.common_postal_codes -> In year ys ->
       is_cached c1 (Weather.PStr pc) year) /\
    WeatherOps.prefetch_common_locations api years c1 = (Ok (0, 9 * List.length ys)%nat, c1).
Proof.
  intros api years c Hapi ys. unfold WeatherOps.prefetch_common_locations. fold ys.
  destruct (prefetch_codes_run api WeatherOps.common_postal_codes ys 0 0 c Hapi)
    as (f & k & c1 & E & Hn & _ & Hall).
  exists f, k, c1. split; [exact E|]. split; [exact Hn|]. split; [exact Hall|].
  now rewrite prefetch_codes_cached.
Qed.

Lemma prefetch_common_locations_idempotent_witness :
  exists fetched cached c1,
    WeatherOps.prefetch_common_locations Samples.api_up (Some [2024%Z]) [] = (Ok (fetched, cached), c1) /\
    (fetched + cached = 9)%nat /\
    WeatherOps.prefetch_common_locations Samples.api_up (Some [2024%Z]) c1 = (Ok (0, 9)%nat, c1).
Proof.
  assert (Hapi : api_complete Samples.api_up).
  { intros ll y. eexists. split; [reflexivity|]. split; [discriminate|].
    repeat constructor; discriminate. }
  destruct (prefetch_common_locations_idempotent Samples.api_up (Some [2024%Z]) [] Hapi)
    as (f & k & c1 & E & Hn & _ & E2).
  exists f, k, c1. split; [exact E|]. split; [exact Hn | exact E2].
Defined.

(** ** Metrics service *)

Lemma upsert_find_self {R} (p : R -> bool) r rows :
  p r = true -> find p (upsert p r rows) = Some r.
Proof.
  intro Hr. induction rows as [|x rows IH]; simpl.
  - now rewrite Hr.
  - destruct (p x) eqn:Ex; simpl; [now rewrite Hr | rewrite Ex; exact IH].
Qed.

Lemma upsert_find_other {R} (p q : R -> bool) r rows :
  (forall x, q x = true -> p x = false) -> q r = false ->
  find q (upsert p r rows) = find q rows.
Proof.
  intros Hd Hr. induction rows as [|x rows IH]; simpl.
  - now rewrite Hr.
  - destruct (p x) eqn:Ex; simpl.
    + rewrite Hr. destruct (q x) eqn:Eq; [|reflexivity].
      rewrite (Hd x Eq) in Ex. discriminate.
    + destruct (q x); [reflexivity | exact IH].
Qed.

Lemma upsert_find_keep {R} (p q : R -> bool) r rows :
  (forall x, p x = true -> q x = true -> q r = true) ->
  find q rows <> None -> find q (upsert p r rows) <> None.
Proof.
  intros Hk. induction rows as [|x rows IH]; simpl; [tauto|].
  destruct (p x) eqn:Ex; simpl.
  - destruct (q x) eqn:Eq.
    + rewrite (Hk x Ex Eq). discriminate.
    + intro H. destruct (q r); [discriminate | exact H].
  - destruct (q x); [discriminate | exact IH].
Qed.

Lemma find_in_some {A} (p : A -> bool) l x : In x l -> p x = true -> find p l <> None.
Proof.
  induction l as [|a l IH]; simpl; [tauto|].
  intros [<-|Hin] Hx; [now rewrite Hx|]. destruct (p a); [discriminate | now apply IH].
Qed.

Lemma calculate_for_bill_found db id b :
  find_bill db id = Some b ->
  exists m,
    Metrics.calculate_for_bill id db
    = (Ok (Some m), set_bill_metrics db
                      (upsert (fun m => Z.eqb m.(metrics_bill_id) id) m db.(bill_metrics))) /\
    metrics_bill_id m = id /\
    days_in_billing_period m = (billing_end_date b - billing_start_date b)%Z /\
    ((billing_end_date b - billing_start_date b <= 0)%Z -> daily_avg_consumption_kwh m == 0) /\
    (consumption_kwh b <= 0 -> cost_per_kwh m == 0).
Proof.
  intro Hb. unfold Metrics.calculate_for_bill. rewrite Hb.
  destruct (find_bill_of_year db (bill_user_id b) (bill_year b - 1)) as [p|];
    eexists; (split; [reflexivity|]); simpl;
    (split; [reflexivity|]); (split; [reflexivity|]); split; intro H.
  all: try (rewrite (proj2 (Z.ltb_ge _ _) H); reflexivity).
  all: destruct (qlt 0 (consumption_kwh b)) eqn:E; qbool; [lra | reflexivity].
Qed.

Lemma calculate_for_bill_missing db id :
  find_bill db id = None -> Metrics.calculate_for_bill id db = (Ok None, db).
Proof. intro H. unfold Metrics.calculate_for_bill. now rewrite H. Qed.

(** X10. [calculate_for_bill] writes only the metrics table: it returns
    [None] and changes nothing exactly when the bill does not exist;
    otherwise [get_metrics_by_bill_id] afterwards returns the metrics it
    returned, and the metrics of every other bill are unchanged. *)
Theorem calculate_for_bill_then_get_metrics : forall id db r db',
  Metrics.calculate_for_bill id db = (Ok r, db') ->
  user_bills db' = user_bills db /\ user_profiles db' = user_profiles db /\
  peer_statistics db' = peer_statistics db /\ weather_cache db' = weather_cache db /\
  (r = None <-> find_bill db id = None) /\
  (r = None -> db' = db) /\
  (forall m, r = Some m -> MetricsOps.get_metrics_by_bill_id db' id = Some m) /\
  (forall id', id' <> id ->
     MetricsOps.get_metrics_by_bill_id db' id' = MetricsOps.get_metrics_by_bill_id db id').
Proof.
  intros id db r db' H.
  destruct (find_bill db id) as [b|] eqn:Hb.
  - destruct (calculate_for_bill_found db id b Hb) as (m & E & Hid & _).
    rewrite E in H. injection H as <- <-.
    split; [reflexivity|]. split; [reflexivity|]. split; [reflexivity|].
    split; [reflexivity|]. split; [split; discriminate|]. split; [discriminate|].
    split.
    + intros m' Hm. injection Hm as <-. unfold MetricsOps.get_metrics_by_bill_id, find_metrics.
      simpl. apply upsert_find_self. rewrite Hid. apply Z.eqb_refl.
    + intros id' Hne. unfold MetricsOps.get_metrics_by_bill_id, find_metrics. simpl.
      apply upsert_find_other.
      * intros x Hx. apply Z.eqb_eq in Hx. rewrite Hx. now apply Z.eqb_neq.
      * rewrite Hid. now apply Z.eqb_neq.
  - rewrite (calculate_for_bill_missing db id Hb) in H. injection H as <- <-.
    repeat split; try reflexivity; intros; discriminate.
Qed.

Lemma calculate_for_bill_then_get_metrics_witness :
  MetricsOps.get_metrics_by_bill_id
    (snd (Metrics.calculate_for_bill 1 (Samples.db_two_years 4500 3200))) 1
  = match fst (Metrics.calculate_for_bill 1 (Samples.db_two_years 4500 3200)) with
    | Ok r => r | Raise _ => None end.
Proof.
  destruct (Metrics.calculate_for_bill 1 (Samples.db_two_years 4500 3200)) as [[r|e] db'] eqn:E.
  - pose proof (calculate_for_bill_then_get_metrics 1 _ r db' E) as (_ & _ & _ & _ & Hr & _ & Hm & _).
    destruct r as [m|]; simpl.
    + now apply Hm.
    + exfalso. pose proof (proj1 Hr eq_refl) as H. vm_compute in H. discriminate.
  - vm_compute in E. discriminate.
Defined.

(** X11. On a bill whose billing period has no positive length,
    [calculate_for_bill] stores a daily average of 0, and on a bill with no
    positive consumption a cost per kWh of 0, instead of dividing by zero;
    the stored period length is the difference of the two dates. *)
Theorem calculate_for_bill_degenerate_bill : forall db id b,
  find_bill db id = Some b ->
  exists m db',
    Metrics.calculate_for_bill id db = (Ok (Some m), db') /\
    days_in_billing_period m = (billing_end_date b - billing_start_date b)%Z /\
    ((billing_end_date b - billing_start_date b <= 0)%Z -> daily_avg_consumption_kwh m == 0) /\
    (consumption_kwh b <= 0 -> cost_per_kwh m == 0).
Proof.
  intros db id b Hb. destruct (calculate_for_bill_found db id b Hb) as (m & E & _ & Hd & Ha & Hc).
  exists m. eexists. split; [exact E|]. auto.
Qed.

Lemma calculate_for_bill_degenerate_bill_witness :
  exists m db',
    Metrics.calculate_for_bill 1 (Samples.db_two_years 0 3200) = (Ok (Some m), db') /\
    cost_per_kwh m == 0.
Proof.
  destruct (calculate_for_bill_degenerate_bill (Samples.db_two_years 0 3200) 1
              (Samples.bill 1 1 2024 0) eq_refl) as (m & db' & E & _ & _ & Hc).
  exists m, db'. split; [exact E|]. apply Hc. apply Qle_refl.
Defined.

Lemma calculate_for_bill_step db id :
  find_bill db id <> None ->
  exists m,
    Metrics.calculate_for_bill id db
    = (Ok (Some m), set_bill_metrics db
                      (upsert (fun m => Z.eqb m.(metrics_bill_id) id) m db.(bill_metrics))) /\
    metrics_bill_id m = id.
Proof.
  intro H. destruct (find_bill db id) as [b|] eqn:Hb; [|contradiction].
  destruct (calculate_for_bill_found db id b Hb) as (m & E & Hid & _). eauto.
Qed.

Lemma metrics_upsert_self db id m :
  metrics_bill_id m = id ->
  find_metrics (set_bill_metrics db
     (upsert (fun m => Z.eqb m.(metrics_bill_id) id) m db.(bill_metrics))) id <> None.
Proof.
  intro Hid. unfold find_metrics. simpl. rewrite upsert_find_self; [discriminate|].
  rewrite Hid. apply Z.eqb_refl.
Qed.

Lemma metrics_upsert_keep db id m id' :
  metrics_bill_id m = id -> find_metrics db id' <> None ->
  find_metrics (set_bill_metrics db
     (upsert (fun m => Z.eqb m.(metrics_bill_id) id) m db.(bill_metrics))) id' <> None.
Proof.
  intros Hid. unfold find_metrics. simpl. apply upsert_find_keep.
  intros x H1 H2. apply Z.eqb_eq in H1, H2. rewrite Hid, <- H1, H2. apply Z.eqb_refl.
Qed.

Lemma metrics_upsert_other db id m id' :
  metrics_bill_id m = id -> id' <> id ->
  find_metrics (set_bill_metrics db
     (upsert (fun m => Z.eqb m.(metrics_bill_id) id) m db.(bill_metrics))) id'
  = find_metrics db id'.
Proof.
  intros Hid Hne. unfold find_metrics. simpl. apply upsert_find_other.
  - intros x Hx. apply Z.eqb_eq in Hx. rewrite Hx. now apply Z.eqb_neq.
  - rewrite Hid. now apply Z.eqb_neq.
Qed.

Lemma bill_in_found db b : In b (user_bills db) -> find_bill db (bill_id b) <> None.
Proof. intro H. apply (find_in_some _ _ b H). apply Z.eqb_refl. Qed.

Lemma calculate_for_bills_run bills processed errors db :
  (forall b, In b bills -> In b (user_bills db)) ->
  exists ms,
    MetricsOps.calculate_for_bills bills processed errors db
    = (Ok (processed + List.length bills, errors)%nat, set_bill_metrics db ms) /\
    (forall id, find_metrics db id <> None -> find_metrics (set_bill_metrics db ms) id <> None) /\
    (forall b, In b bills -> find_metrics (set_bill_metrics db ms) (bill_id b) <> None) /\
    (forall id, (forall b, In b bills -> bill_id b <> id) ->
       find_metrics (set_bill_metrics db ms) id = find_metrics db id).
Proof.
  revert processed db. induction bills as [|b bills IH]; intros processed db Hin; simpl.
  - exists (bill_metrics db). rewrite Nat.add_0_r.
    assert (Hdb : set_bill_metrics db (bill_metrics db) = db) by (destruct db; reflexivity).
    rewrite Hdb. split; [reflexivity|]. split; [auto|]. split; [intros ? []|auto].
  - destruct (calculate_for_bill_step db (bill_id b)) as (m & E & Hid);
      [apply bill_in_found, Hin; now left|].
    rewrite E.
    set (db1 := set_bill_metrics db
                  (upsert (fun m => Z.eqb m.(metrics_bill_id) (bill_id b)) m db.(bill_metrics))).
    destruct (IH (S processed) db1) as (ms & E' & Hk & Hall & Ho);
      [intros; apply Hin; now right|].
    assert (Hset : set_bill_metrics db1 ms = set_bill_metrics db ms) by reflexivity.
    rewrite Hset in E', Hk, Hall, Ho.
    exists ms. split; [rewrite E'; do 3 f_equal; lia|]. split; [|split].
    + intros id H. apply Hk. now apply metrics_upsert_keep.
    + intros b' [<-|Hb']; [|now apply Hall]. apply Hk. now apply metrics_upsert_self.
    + intros id Hn. rewrite Ho by (intros; apply Hn; now right).
      apply metrics_upsert_other; [exact Hid|]. intro Heq. apply (Hn b (or_introl eq_refl)).
      now symmetry.
Qed.

(** X12. [calculate_for_user] processes every bill of the user: it
    reports as many processed bills as the user has and no error, every
    bill of the user has metrics afterwards, and only the metrics table
    changes, the metrics of bills of other users being untouched. *)
Theorem calculate_for_user_spec : forall uid db,
  let bills := filter (fun b => Z.eqb b.(bill_user_id) uid) db.(user_bills) in
  exists run ms,
    MetricsOps.calculate_for_user uid db = (Ok run, set_bill_metrics db ms) /\
    MetricsOps.total run = List.length bills /\ MetricsOps.processed run = List.length bills /\
    MetricsOps.errors run = 0%nat /\
    (forall b, In b (user_bills db) -> bill_user_id b = uid ->
       MetricsOps.get_metrics_by_bill_id (set_bill_metrics db ms) (bill_id b) <> None) /\
    (forall id, (forall b, In b (user_bills db) -> bill_user_id b = uid -> bill_id b <> id) ->
       MetricsOps.get_metrics_by_bill_id (set_bill_metrics db ms) id
       = MetricsOps.get_metrics_by_bill_id db id).
Proof.
  intros uid db bills. unfold MetricsOps.calculate_for_user. fold bills.
  destruct (calculate_for_bills_run bills 0 0 db) as (ms & E & _ & Hall & Ho).
  { intros b Hb. now apply filter_In in Hb as [Hb _]. }
  unfold bind. rewrite E. exists {| MetricsOps.total := List.length bills;
    MetricsOps.processed := List.length bills; MetricsOps.errors := 0 |}, ms.
  split; [reflexivity|]. split; [reflexivity|]. split; [reflexivity|]. split; [reflexivity|].
  split.
  - intros b Hb Hu. apply Hall. apply filter_In. split; [exact Hb|]. now apply Z.eqb_eq.
  - intros id Hn. apply Ho. intros b Hb. apply filter_In in Hb as [Hb Hu].
    apply Z.eqb_eq in Hu. now apply Hn.
Qed.

Lemma recalculate_bills_run bills created updated errors db :
  (forall b, In b bills -> In b (user_bills db)) ->
  exists created' updated' ms,
    MetricsOps.recalculate_bills bills created updated errors db
    = (Ok (created', updated', errors), set_bill_metrics db ms) /\
    (created' + updated' = created + updated + List.length bills)%nat /\
    ((forall b, In b bills -> find_metrics db (bill_id b) <> None) -> created' = created) /\
    (forall id, find_metrics db id <> None -> find_metrics (set_bill_metrics db ms) id <> None) /\
    (forall b, In b bills -> find_metrics (set_bill_metrics db ms) (bill_id b) <> None).
Proof.
  revert created updated db. induction bills as [|b bills IH]; intros created updated db Hin; simpl.
  - exists created, updated, (bill_metrics db).
    assert (Hdb : set_bill_metrics db (bill_metrics db) = db) by (destruct db; reflexivity).
    rewrite Hdb. split; [reflexivity|]. split; [lia|]. split; [auto|]. split; [auto | intros ? []].
  - destruct (calculate_for_bill_step db (bill_id b)) as (m & E & Hid);
      [apply bill_in_found, Hin; now left|].
    rewrite E.
    set (db1 := set_bill_metrics db
                  (upsert (fun m => Z.eqb m.(metrics_bill_id) (bill_id b)) m db.(bill_metrics))).
    assert (Hin1 : forall b', In b' bills -> In b' (user_bills db1)) by (intros; apply Hin; now right).
    destruct (find_metrics db (bill_id b)) as [x|] eqn:Ex.
    + destruct (IH created (S updated) db1 Hin1) as (c' & u' & ms & E' & Hn & Hc & Hk & Hall).
      exists c', u', ms. split; [exact E'|]. split; [lia|]. split; [|split].
      * intro H. apply Hc. intros b' Hb'. apply metrics_upsert_keep; [exact Hid|].
        apply H. now right.
      * intros id H. apply Hk. now apply metrics_upsert_keep.
      * intros b' [<-|Hb']; [|now apply Hall]. apply Hk. now apply metrics_upsert_self.
    + destruct (IH (S created) updated db1 Hin1) as (c' & u' & ms & E' & Hn & Hc & Hk & Hall).
      exists c', u', ms. split; [exact E'|]. split; [lia|]. split; [|split].
      * intro H. exfalso. apply (H b (or_introl eq_refl)). exact Ex.
      * intros id H. apply Hk. now apply metrics_upsert_keep.
      * intros b' [<-|Hb']; [|now apply Hall]. apply Hk. now apply metrics_upsert_self.
Qed.

(** X13. [recalculate_all] counts every bill once, as created or updated,
    with no error, and leaves every bill with metrics; a second run
    therefore creates nothing and counts every bill as updated. *)
Theorem recalculate_all_spec : forall db,
  exists run ms,
    MetricsOps.recalculate_all db = (Ok run, set_bill_metrics db ms) /\
    MetricsOps.all_total run = List.length (user_bills db) /\
    (MetricsOps.created run + MetricsOps.updated run = List.length (user_bills db))%nat /\
    MetricsOps.all_errors run = 0%nat /\
    (forall b, In b (user_bills db) ->
       MetricsOps.get_metrics_by_bill_id (set_bill_metrics db ms) (bill_id b) <> None) /\
    exists run2 ms2,
      MetricsOps.recalculate_all (set_bill_metrics db ms)
      = (Ok run2, set_bill_metrics db ms2) /\
      MetricsOps.created run2 = 0%nat /\
      MetricsOps.updated run2 = List.length (user_bills db) /\
      MetricsOps.all_errors run2 = 0%nat.
Proof.
  intro db. unfold MetricsOps.recalculate_all, bind.
  destruct (recalculate_bills_run (user_bills db) 0 0 0 db) as (c & u & ms & E & Hn & _ & _ & Hall);
    [auto|].
  rewrite E. eexists. exists ms. split; [reflexivity|]. simpl.
  split; [reflexivity|]. split; [lia|]. split; [reflexivity|]. split; [exact Hall|].
  destruct (recalculate_bills_run (user_bills db) 0 0 0 (set_bill_metrics db ms))
    as (c2 & u2 & ms2 & E2 & Hn2 & Hc2 & _ & _); [auto|].
  simpl in E2. rewrite E2. eexists. exists ms2. split; [reflexivity|]. simpl.
  specialize (Hc2 Hall). split; [exact Hc2|]. split; [lia | reflexivity].
Qed.

(** ** Peer statistics *)

Lemma opt_str_eqb_eq a b : opt_str_eqb a b = true <-> a = b.
Proof.
  destruct a as [x|], b as [y|]; simpl; split; intro H; try discriminate; try reflexivity.
  - apply String.eqb_eq in H. now subst.
  - injection H as ->. apply String.eqb_refl.
Qed.

Lemma same_group_eq hs pt year s :
  Peer.same_group hs pt year s = true <->
  ps_household_size s = hs /\ ps_property_type s = pt /\ ps_year s = year.
Proof.
  unfold Peer.same_group. rewrite !andb_true_iff, Z.eqb_eq, opt_str_eqb_eq, Z.eqb_eq.
  tauto.
Qed.

Lemma same_group_key hs pt year a b :
  ps_key a = ps_key b -> Peer.same_group hs pt year a = Peer.same_group hs pt year b.
Proof.
  unfold ps_key, Peer.same_group. intro H. injection H as H1 H2 H3.
  rewrite H1, H2, H3. reflexivity.
Qed.

Lemma get_peer_statistics_group db hs pt year :
  Peer.get_peer_statistics db (Some hs) pt year
  = find (Peer.same_group hs pt year) (peer_statistics db).
Proof. reflexivity. Qed.

Lemma set_peer_statistics_same db : set_peer_statistics db (peer_statistics db) = db.
Proof. destruct db; reflexivity. Qed.

Lemma set_peer_statistics_twice db a b :
  set_peer_statistics (set_peer_statistics db a) b = set_peer_statistics db b.
Proof. destruct db; reflexivity. Qed.

Lemma upsert_keys hs pt year r e rows :
  find (Peer.same_group hs pt year) rows = Some e -> ps_key r = ps_key e ->
  map ps_key (upsert (Peer.same_group hs pt year) r rows) = map ps_key rows.
Proof.
  induction rows as [|x rows IH]; simpl; [discriminate|].
  destruct (Peer.same_group hs pt year x); simpl.
  - intros Hx Hk. injection Hx as ->. now rewrite Hk.
  - intros Hf Hk. f_equal. now apply IH.
Qed.

Lemma find_same_group_keys hs pt year l1 l2 :
  map ps_key l1 = map ps_key l2 ->
  Parser.is_some (find (Peer.same_group hs pt year) l1)
  = Parser.is_some (find (Peer.same_group hs pt year) l2).
Proof.
  revert l2. induction l1 as [|a l1 IH]; intros [|b l2] H; simpl in H; try discriminate;
    [reflexivity|].
  injection H as H2 H3 H4 H.
  assert (Hab : ps_key a = ps_key b) by (unfold ps_key; congruence).
  simpl. rewrite (same_group_key hs pt year a b Hab).
  destruct (Peer.same_group hs pt year b); [reflexivity | now apply IH].
Qed.

Lemma has_row_keys db ps g :
  map ps_key ps = map ps_key (peer_statistics db) ->
  has_row (set_peer_statistics db ps) g = has_row db g.
Proof.
  destruct g as [[y h] p]. unfold has_row, set_peer_statistics. simpl.
  apply find_same_group_keys.
Qed.

Lemma big_cohort_keys db ps g :
  big_cohort (set_peer_statistics db ps) g = big_cohort db g.
Proof. destruct g as [[y h] p]. reflexivity. Qed.

Lemma count_groups_ext f f' cs :
  (forall g, f g = f' g) -> count_groups f cs = count_groups f' cs.
Proof. intro H. unfold count_groups. now rewrite (filter_ext f f' H). Qed.

Lemma count_groups_cons f g cs :
  count_groups f (g :: cs) = (count_groups f [g] + count_groups f cs)%nat.
Proof. unfold count_groups. simpl. destruct (f g); reflexivity. Qed.

Lemma count_groups_one f g : count_groups f [g] = (if f g then 1 else 0)%nat.
Proof. unfold count_groups. simpl. destruct (f g); reflexivity. Qed.

Lemma calculate_peer_statistics_small hs pt year db :
  (List.length (Peer.cohort_bills db hs pt year) < 3)%nat ->
  Peer.calculate_peer_statistics hs pt year db = (Ok None, db).
Proof.
  intro H. unfold Peer.calculate_peer_statistics.
  now rewrite (proj2 (Nat.ltb_lt _ _) H).
Qed.

Lemma calculate_peer_statistics_new hs pt year db :
  (3 <= List.length (Peer.cohort_bills db hs pt year))%nat ->
  find (Peer.same_group hs pt year) (peer_statistics db) = None ->
  Peer.calculate_peer_statistics hs pt year db = (Raise TypeError, db).
Proof.
  intros H Hf. unfold Peer.calculate_peer_statistics.
  rewrite (proj2 (Nat.ltb_ge _ _) H), Hf. reflexivity.
Qed.

Lemma calculate_peer_statistics_found hs pt year db e :
  (3 <= List.length (Peer.cohort_bills db hs pt year))%nat ->
  find (Peer.same_group hs pt year) (peer_statistics db) = Some e ->
  exists o,
    Peer.calculate_peer_statistics hs pt year db
    = (Ok (Some o), set_peer_statistics db
                      (upsert (Peer.same_group hs pt year) (Peer.stats_row o)
                         (peer_statistics db))) /\
    ps_key (Peer.stats_row o) = ps_key e.
Proof.
  intros H Hf. unfold Peer.calculate_peer_statistics.
  rewrite (proj2 (Nat.ltb_ge _ _) H), Hf. cbv beta iota zeta.
  match goal with |- exists o, (Ok (Some ?x), _) = _ /\ _ => exists x end.
  split; reflexivity.
Qed.

(** X14. [calculate_peer_statistics] writes only the peer statistics
    table and never adds or removes a row of it: the keys of its rows are
    the same before and after. When it raises or returns [None] it changes
    nothing; when it returns an object, [get_peer_statistics] for the same
    household size, property type and year afterwards returns the updated
    row of that object, and the statistics of every other group are
    unchanged. *)
Theorem calculate_peer_statistics_keeps_rows : forall hs pt year db res db',
  Peer.calculate_peer_statistics hs pt year db = (res, db') ->
  user_bills db' = user_bills db /\ user_profiles db' = user_profiles db /\
  bill_metrics db' = bill_metrics db /\ weather_cache db' = weather_cache db /\
  map ps_key (peer_statistics db') = map ps_key (peer_statistics db) /\
  (forall e, res = Raise e -> db' = db) /\
  (res = Ok None -> db' = db) /\
  (forall o, res = Ok (Some o) ->
     Peer.get_peer_statistics db' (Some hs) pt year = Some (Peer.stats_row o)) /\
  (forall hs' pt' year', (hs', pt', year') <> (hs, pt, year) ->
     Peer.get_peer_statistics db' (Some hs') pt' year'
     = Peer.get_peer_statistics db (Some hs') pt' year').
Proof.
  intros hs pt year db res db' H.
  destruct (Nat.lt_ge_cases (List.length (Peer.cohort_bills db hs pt year)) 3) as [Hl|Hl].
  - rewrite (calculate_peer_statistics_small _ _ _ _ Hl) in H. injection H as <- <-.
    repeat split; intros; try discriminate; reflexivity.
  - destruct (find (Peer.same_group hs pt year) (peer_statistics db)) as [e|] eqn:Ef.
    + destruct (calculate_peer_statistics_found _ _ _ _ _ Hl Ef) as (o & E & Hk).
      rewrite E in H. injection H as <- <-.
      assert (Hg : Peer.same_group hs pt year (Peer.stats_row o) = true).
      { rewrite (same_group_key _ _ _ _ _ Hk). exact (proj2 (find_some _ _ Ef)). }
      split; [reflexivity|]. split; [reflexivity|]. split; [reflexivity|].
      split; [reflexivity|]. split; [exact (upsert_keys _ _ _ _ _ _ Ef Hk)|].
      split; [intros ? ?; discriminate|]. split; [discriminate|]. split.
      * intros o' Ho. injection Ho as <-. rewrite get_peer_statistics_group.
        now apply upsert_find_self.
      * intros hs' pt' year' Hne. rewrite !get_peer_statistics_group. apply upsert_find_other.
        -- intros x Hx. destruct (Peer.same_group hs pt year x) eqn:Ex; [|reflexivity].
           exfalso. apply same_group_eq in Hx as (? & ? & ?), Ex as (? & ? & ?).
           apply Hne. congruence.
        -- destruct (Peer.same_group hs' pt' year' (Peer.stats_row o)) eqn:Es; [|reflexivity].
           exfalso. apply same_group_eq in Es as (? & ? & ?), Hg as (? & ? & ?).
           apply Hne. congruence.
    + rewrite (calculate_peer_statistics_new _ _ _ _ Hl Ef) in H. injection H as <- <-.
      repeat split; intros; try discriminate; reflexivity.
Qed.

Lemma calculate_peer_statistics_keeps_rows_witness :
  Peer.get_peer_statistics
    (snd (Peer.calculate_peer_statistics 2 (Some "apartment"%string) 2024 Samples.db_cohort_row))
    (Some 2%Z) (Some "apartment"%string) 2024
  = match fst (Peer.calculate_peer_statistics 2 (Some "apartment"%string) 2024
                 Samples.db_cohort_row) with
    | Ok (Some o) => Some (Peer.stats_row o) | _ => None end.
Proof.
  destruct (Peer.calculate_peer_statistics 2 (Some "apartment"%string) 2024 Samples.db_cohort_row)
    as [res db'] eqn:E.
  pose proof (calculate_peer_statistics_keeps_rows 2 (Some "apartment"%string) 2024 _ res db' E)
    as (_ & _ & _ & _ & _ & _ & _ & Hs & _).
  destruct res as [[o|]|e]; simpl.
  - now apply Hs.
  - vm_compute in E. discriminate.
  - vm_compute in E. discriminate.
Defined.

Lemma calculate_one_counts force y h p r db :
  exists ps,
    PeerOps.calculate_one force y h p r db
    = (Ok {| PeerOps.created := PeerOps.created r;
             PeerOps.updated := PeerOps.updated r
               + count_groups (fun g => force && has_row db g && big_cohort db g) [(y, h, p)];
             PeerOps.skipped := PeerOps.skipped r
               + count_groups (fun g => negb force && has_row db g) [(y, h, p)];
             PeerOps.errors := PeerOps.errors r
               + count_groups (fun g => negb (has_row db g) && big_cohort db g) [(y, h, p)] |},
       set_peer_statistics db ps) /\
    map ps_key ps = map ps_key (peer_statistics db) /\
    (force = false -> ps = peer_statistics db).
Proof.
  rewrite !count_groups_one.
  unfold PeerOps.calculate_one, has_row, big_cohort. cbv beta iota zeta.
  destruct (find (Peer.same_group h p y) (peer_statistics db)) as [x|] eqn:Ef;
  destruct (Nat.leb 3 (List.length (Peer.cohort_bills db h p y))) eqn:El;
  [apply Nat.leb_le in El | apply Nat.leb_gt in El | apply Nat.leb_le in El
  | apply Nat.leb_gt in El]; destruct force; simpl.
  - destruct (calculate_peer_statistics_found _ _ _ _ _ El Ef) as (o & E & Hk). rewrite E.
    eexists. split; [|split; [exact (upsert_keys _ _ _ _ _ _ Ef Hk) | discriminate]].
    destruct r; simpl. repeat f_equal; lia.
  - exists (peer_statistics db). rewrite set_peer_statistics_same.
    split; [|split; reflexivity]. destruct r; simpl. repeat f_equal; lia.
  - rewrite (calculate_peer_statistics_small _ _ _ _ El).
    exists (peer_statistics db). rewrite set_peer_statistics_same.
    split; [|split; reflexivity]. destruct r; simpl. repeat f_equal; lia.
  - exists (peer_statistics db). rewrite set_peer_statistics_same.
    split; [|split; reflexivity]. destruct r; simpl. repeat f_equal; lia.
  - rewrite (calculate_peer_statistics_new _ _ _ _ El Ef).
    exists (peer_statistics db). rewrite set_peer_statistics_same.
    split; [|split; reflexivity]. destruct r; simpl. repeat f_equal; lia.
  - rewrite (calculate_peer_statistics_new _ _ _ _ El Ef).
    exists (peer_statistics db). rewrite set_peer_statistics_same.
    split; [|split; reflexivity]. destruct r; simpl. repeat f_equal; lia.
  - rewrite (calculate_peer_statistics_small _ _ _ _ El).
    exists (peer_statistics db). rewrite set_peer_statistics_same.
    split; [|split; reflexivity]. destruct r; simpl. repeat f_equal; lia.
  - rewrite (calculate_peer_statistics_small _ _ _ _ El).
    exists (peer_statistics db). rewrite set_peer_statistics_same.
    split; [|split; reflexivity]. destruct r; simpl. repeat f_equal; lia.
Qed.

Lemma run_combos_counts force cs r db :
  exists ps,
    PeerOps.run_combos force cs r db
    = (Ok {| PeerOps.created := PeerOps.created r;
             PeerOps.updated := PeerOps.updated r
               + count_groups (fun g => force && has_row db g && big_cohort db g) cs;
             PeerOps.skipped := PeerOps.skipped r
               + count_groups (fun g => negb force && has_row db g) cs;
             PeerOps.errors := PeerOps.errors r
               + count_groups (fun g => negb (has_row db g) && big_cohort db g) cs |},
       set_peer_statistics db ps) /\
    map ps_key ps = map ps_key (peer_statistics db) /\
    (force = false -> ps = peer_statistics db).
Proof.
  revert r db. induction cs as [|[[y h] p] cs IH]; intros r db; simpl.
  - exists (peer_statistics db). rewrite set_peer_statistics_same.
    split; [|split; reflexivity]. destruct r; unfold ret, count_groups; simpl.
    repeat f_equal; lia.
  - unfold bind.
    destruct (calculate_one_counts force y h p r db) as (ps1 & E1 & Hk1 & Hf1). rewrite E1.
    match type of E1 with _ = (Ok ?r1, _) =>
      destruct (IH r1 (set_peer_statistics db ps1)) as (ps & E & Hk & Hf) end.
    rewrite set_peer_statistics_twice in E.
    exists ps. split; [|split].
    + rewrite E. cbn [PeerOps.created PeerOps.updated PeerOps.skipped PeerOps.errors].
      rewrite (count_groups_cons (fun g => force && has_row db g && big_cohort db g) _ cs),
        (count_groups_cons (fun g => negb force && has_row db g) _ cs),
        (count_groups_cons (fun g => negb (has_row db g) && big_cohort db g) _ cs).
      rewrite (count_groups_ext (fun g => force && has_row (set_peer_statistics db ps1) g
                                          && big_cohort (set_peer_statistics db ps1) g)
                 (fun g => force && has_row db g && big_cohort db g))
        by (intro g; now rewrite has_row_keys, big_cohort_keys).
      rewrite (count_groups_ext (fun g => negb force && has_row (set_peer_statistics db ps1) g)
                 (fun g => negb force && has_row db g))
        by (intro g; now rewrite has_row_keys).
      rewrite (count_groups_ext (fun g => negb (has_row (set_peer_statistics db ps1) g)
                                          && big_cohort (set_peer_statistics db ps1) g)
                 (fun g => negb (has_row db g) && big_cohort db g))
        by (intro g; now rewrite has_row_keys, big_cohort_keys).
      rewrite !Nat.add_assoc. reflexivity.
    + rewrite Hk. simpl. exact Hk1.
    + intro F. rewrite (Hf F). simpl. exact (Hf1 F).
Qed.

(** X15. [calculate_all_peer_statistics] never creates a row: over the
    groups it visits it counts as skipped those that have a row when
    [force_recalculate] is off, as updated those that have a row and at
    least three bills when it is on, and as errors those that have no row
    and at least three bills (the constructor raises); it creates nothing.
    Rows keep their keys, and without [force_recalculate] the table is left
    as it is. *)
Theorem calculate_all_peer_statistics_counts : forall year force db,
  let cs := PeerOps.combos db year in
  exists ps,
    PeerOps.calculate_all_peer_statistics year force db
    = (Ok {| PeerOps.created := 0;
             PeerOps.updated := count_groups (fun g => force && has_row db g && big_cohort db g) cs;
             PeerOps.skipped := count_groups (fun g => negb force && has_row db g) cs;
             PeerOps.errors := count_groups (fun g => negb (has_row db g) && big_cohort db g) cs |},
       set_peer_statistics db ps) /\
    map ps_key ps = map ps_key (peer_statistics db) /\
    (force = false -> ps = peer_statistics db).
Proof.
  intros year force db cs. unfold PeerOps.calculate_all_peer_statistics.
  destruct (run_combos_counts force cs
              {| PeerOps.created := 0; PeerOps.updated := 0; PeerOps.skipped := 0;
                 PeerOps.errors := 0 |} db) as (ps & E & Hk & Hf).
  exists ps. split; [exact E | split; assumption].
Qed.

Lemma calculate_all_peer_statistics_counts_witness :
  exists ps,
    PeerOps.calculate_all_peer_statistics (Some 2024%Z) true Samples.db_cohort_row
    = (Ok {| PeerOps.created := 0; PeerOps.updated := 1; PeerOps.skipped := 0;
             PeerOps.errors := 1 |}, set_peer_statistics Samples.db_cohort_row ps).
Proof.
  destruct (calculate_all_peer_statistics_counts (Some 2024%Z) true Samples.db_cohort_row)
    as (ps & E & _ & _).
  exists ps. rewrite E. vm_compute. reflexivity.
Defined.

(** X16. [compare_to_peers] never returns a comparison: once the user's
    profile, the bill of the year and a row of peer statistics (of the
    user's property type, or else of no property type) are found, it raises
    [ZeroDivisionError] when the row's average is 0 and [AttributeError]
    otherwise, as the row has no [percentile_25_kwh]. So every report of
    [detect_all_anomalies] has the peer sentinel "no_peer_data" with peer
    score 0. *)
Theorem compare_to_peers_never_compares :
  (forall db uid year c, Peer.compare_to_peers db uid year <> Ok (Some c)) /\
  (forall db uid year user bill ps,
     find_profile db uid = Some user ->
     find_bill_of_year db uid year = Some bill ->
     (Peer.get_peer_statistics db (Db.household_size user) (Db.property_type user) year = Some ps \/
      (Peer.get_peer_statistics db (Db.household_size user) (Db.property_type user) year = None /\
       Peer.get_peer_statistics db (Db.household_size user) None year = Some ps)) ->
     Peer.compare_to_peers db uid year
     = Raise (if qeq (avg_consumption_kwh ps) 0 then ZeroDivisionError else AttributeError)) /\
  (forall api id db r db',
     Anomaly.detect_all_anomalies api id db = (Ok (Some r), db') ->
     Anomaly.peer_result r = Some (Anomaly.NoData "no_peer_data"%string) /\
     Anomaly.peer_score r = 0).
Proof.
  split; [|split].
  - exact compare_to_peers_no_comparison.
  - intros db uid year user bill ps Hp Hb Hs. unfold Peer.compare_to_peers.
    rewrite Hp, Hb. destruct Hs as [-> | [-> ->]]; cbv zeta;
      destruct (qeq (avg_consumption_kwh ps) 0); reflexivity.
  - exact detect_all_peer_nodata.
Qed.

Lemma compare_to_peers_never_compares_witness :
  Peer.compare_to_peers Samples.db_peer_row 1 2024 = Raise AttributeError.
Proof.
  exact (proj1 (proj2 compare_to_peers_never_compares) Samples.db_peer_row 1%Z 2024%Z
           (Samples.profile 1) (Samples.bill 1 1 2024 4500) (Samples.peer_row 2024 3600 300)
           eq_refl eq_refl (or_introl eq_refl)).
Defined.

(** ** Anomaly detection *)

Lemma set_weather_cache_same db : set_weather_cache db (weather_cache db) = db.
Proof. destruct db; reflexivity. Qed.

Lemma weather_factor_int api z cy py c :
  z <> 0%Z ->
  Weather.calculate_weather_adjustment_factor api (Weather.PInt z) cy py c
  = (Weather.adjustment_of (cached_hdd c (Weather.PInt z) cy)
                           (cached_hdd c (Weather.PInt z) py), c).
Proof.
  intro Hz. unfold Weather.calculate_weather_adjustment_factor, bind, lift.
  rewrite !get_heating_degree_days_int by exact Hz. reflexivity.
Qed.

Lemma expected_consumption_int api z base baseline_year target_year c :
  z <> 0%Z ->
  Weather.get_expected_consumption_with_weather api base (Weather.PInt z) baseline_year
    target_year c
  = (match Weather.adjustment_of (cached_hdd c (Weather.PInt z) target_year)
                                 (cached_hdd c (Weather.PInt z) baseline_year) with
     | Ok None => Ok None
     | Ok (Some f) => Ok (Some (py_round (base * f) 2))
     | Raise e => Raise e
     end, c).
Proof.
  intro Hz. unfold Weather.get_expected_consumption_with_weather, bind at 1.
  rewrite weather_factor_int by exact Hz.
  destruct (Weather.adjustment_of _ _) as [[f|]|e]; reflexivity.
Qed.

Lemma detect_peer_anomaly_pure id db :
  exists r, Anomaly.detect_peer_anomaly id db = (r, db).
Proof.
  unfold Anomaly.detect_peer_anomaly.
  destruct (find_bill db id) as [b|]; [|eauto].
  destruct (Peer.compare_to_peers db (bill_user_id b) (bill_year b)) as [[c|]|e]; eauto.
Qed.

Lemma detect_historical_anomaly_ok id db :
  (forall m, find_metrics db id = Some m ->
     yoy_consumption_change_percent m = None \/ previous_year_consumption_kwh m <> None) ->
  exists r, Anomaly.detect_historical_anomaly id db = (Ok r, db).
Proof.
  intro H. unfold Anomaly.detect_historical_anomaly.
  destruct (find_bill db id); [|eauto].
  destruct (find_metrics db id) as [m|]; [|eauto].
  destruct (H m eq_refl) as [Hy|Hp]; [rewrite Hy; eauto|].
  destruct (yoy_consumption_change_percent m); [|eauto].
  destruct (previous_year_consumption_kwh m); [eauto | contradiction].
Qed.

Lemma detect_peer_anomaly_no_stats id db b u :
  find_bill db id = Some b -> find_profile db (bill_user_id b) = Some u ->
  Peer.get_peer_statistics db (Db.household_size u) (Db.property_type u) (bill_year b) = None ->
  Peer.get_peer_statistics db (Db.household_size u) None (bill_year b) = None ->
  Anomaly.detect_peer_anomaly id db = (Ok (Some (Anomaly.NoData "no_peer_data"%string)), db).
Proof.
  intros Hb Hu H1 H2. unfold Anomaly.detect_peer_anomaly, Peer.compare_to_peers.
  rewrite Hb, Hu. destruct (find_bill_of_year _ _ _); [rewrite H1, H2|]; reflexivity.
Qed.

Lemma detect_predictive_anomaly_cache api id db :
  exists c, snd (Anomaly.detect_predictive_anomaly api id db) = set_weather_cache db c.
Proof.
  unfold Anomaly.detect_predictive_anomaly.
  destruct (find_bill db id) as [b|]; [|exists (weather_cache db); symmetry; apply set_weather_cache_same].
  destruct (find_bill_of_year _ _ _) as [pb|];
    [|exists (weather_cache db); symmetry; apply set_weather_cache_same].
  destruct (find_profile _ _) as [u|];
    [|exists (weather_cache db); symmetry; apply set_weather_cache_same].
  unfold bind, with_cache.
  destruct (Weather.get_expected_consumption_with_weather _ _ _ _ _ _) as [[[e|]|ex] c].
  - cbv zeta. destruct (qeq e 0); exists c; reflexivity.
  - exists c. reflexivity.
  - exists c. reflexivity.
Qed.

Lemma detect_predictive_anomaly_offline api1 api2 id db :
  (forall u, In u (user_profiles db) -> postal_code u <> 0%Z) ->
  Anomaly.detect_predictive_anomaly api1 id db = Anomaly.detect_predictive_anomaly api2 id db /\
  snd (Anomaly.detect_predictive_anomaly api1 id db) = db.
Proof.
  intro Hz. unfold Anomaly.detect_predictive_anomaly.
  destruct (find_bill db id) as [b|]; [|split; reflexivity].
  destruct (find_bill_of_year _ _ _) as [pb|]; [|split; reflexivity].
  destruct (find_profile db (bill_user_id b)) as [u|] eqn:Eu; [|split; reflexivity].
  assert (Hu : postal_code u <> 0%Z).
  { apply Hz. unfold find_profile in Eu. now apply find_some in Eu as [Hin _]. }
  unfold bind, with_cache. rewrite !expected_consumption_int by exact Hu.
  split; [reflexivity|].
  destruct (Weather.adjustment_of _ _) as [[f|]|ex]; simpl;
    [cbv zeta; destruct (qeq _ 0)|..]; simpl; apply set_weather_cache_same.
Qed.

(** X17. When every user profile has a postal code other than 0,
    [detect_all_anomalies] never reaches the weather API and never writes
    the database: its result is the same whatever the API answers, and the
    database is left unchanged. Weather-adjusted predictions then come
    only from rows already in the weather cache. *)
Theorem detect_all_anomalies_offline : forall api1 api2 id db,
  (forall u, In u (user_profiles db) -> postal_code u <> 0%Z) ->
  Anomaly.detect_all_anomalies api1 id db = Anomaly.detect_all_anomalies api2 id db /\
  snd (Anomaly.detect_all_anomalies api1 id db) = db.
Proof.
  intros api1 api2 id db Hz. unfold Anomaly.detect_all_anomalies.
  destruct (find_bill db id) as [b|]; [|split; reflexivity].
  unfold bind.
  destruct (detect_historical_anomaly_pure id db) as [[hr|e] Hr]; rewrite Hr;
    [|split; reflexivity].
  destruct (detect_peer_anomaly_pure id db) as [[pr|e] Hp]; rewrite Hp; [|split; reflexivity].
  destruct (detect_predictive_anomaly_offline api1 api2 id db Hz) as [Heq Hs].
  rewrite <- Heq.
  destruct (Anomaly.detect_predictive_anomaly api1 id db) as [[qr|e] db3].
  - simpl in Hs. subst db3. split; [reflexivity|].
    unfold lift, ret. destruct (Anomaly._determine_primary_anomaly_type _ _ _); reflexivity.
  - simpl in Hs. subst db3. split; reflexivity.
Qed.

Lemma detect_all_anomalies_offline_witness :
  Anomaly.detect_all_anomalies Samples.api_up 1 (Samples.db_two_years 4500 3200)
  = Anomaly.detect_all_anomalies Samples.api_down 1 (Samples.db_two_years 4500 3200).
Proof.
  apply (detect_all_anomalies_offline Samples.api_up Samples.api_down 1
           (Samples.db_two_years 4500 3200)).
  intros u [<-|[]]. discriminate.
Defined.

(** X18. Whatever the weather API answers, [detect_all_anomalies] never
    changes the bills, the user profiles, the bill metrics or the peer
    statistics; the weather cache is the only table it can write. *)
Theorem detect_all_anomalies_read_only : forall api id db,
  let db' := snd (Anomaly.detect_all_anomalies api id db) in
  user_bills db' = user_bills db /\ user_profiles db' = user_profiles db /\
  bill_metrics db' = bill_metrics db /\ peer_statistics db' = peer_statistics db.
Proof.
  intros api id db db'.
  assert (H : exists c, db' = set_weather_cache db c).
  { unfold db', Anomaly.detect_all_anomalies.
    destruct (find_bill db id) as [b|];
      [|exists (weather_cache db); symmetry; apply set_weather_cache_same].
    unfold bind.
    destruct (detect_historical_anomaly_pure id db) as [[hr|e] Hr]; rewrite Hr;
      [|exists (weather_cache db); symmetry; apply set_weather_cache_same].
    destruct (detect_peer_anomaly_pure id db) as [[pr|e] Hp]; rewrite Hp;
      [|exists (weather_cache db); symmetry; apply set_weather_cache_same].
    destruct (detect_predictive_anomaly_cache api id db) as [c Hc].
    destruct (Anomaly.detect_predictive_anomaly api id db) as [[qr|e] db3].
    - simpl in Hc. subst db3. exists c.
      unfold lift, ret. destruct (Anomaly._determine_primary_anomaly_type _ _ _); reflexivity.
    - simpl in Hc. subst db3. exists c. reflexivity. }
  destruct H as [c ->]. repeat split.
Qed.

(** X19. [detect_predictive_anomaly] has no guard against an expected
    consumption of 0: when the user's bill of the year before shows zero
    consumption and the weather factor exists (heating degree days of both
    years cached, the earlier one non-zero), the expected consumption rounds
    to 0 and computing the deviation percentage raises ZeroDivisionError.
    [detect_all_anomalies] then fails with the same error, without writing
    the database, when the detectors run before it do not raise first: the
    bill's metrics have no year-over-year change without a previous
    consumption, and no peer statistics are stored for the user's group. *)
Theorem predictive_zero_baseline_raises : forall api id db b pb u h1 h2,
  find_bill db id = Some b ->
  find_bill_of_year db (bill_user_id b) (bill_year b - 1) = Some pb ->
  find_profile db (bill_user_id b) = Some u ->
  postal_code u <> 0%Z ->
  consumption_kwh pb == 0 ->
  cached_hdd (weather_cache db) (Weather.PInt (postal_code u)) (bill_year b) = Weather.HNum h1 ->
  cached_hdd (weather_cache db) (Weather.PInt (postal_code u)) (bill_year pb) = Weather.HNum h2 ->
  ~ h2 == 0 ->
  Anomaly.detect_predictive_anomaly api id db = (Raise ZeroDivisionError, db) /\
  ((forall m, find_metrics db id = Some m ->
      yoy_consumption_change_percent m = None \/ previous_year_consumption_kwh m <> None) ->
   Peer.get_peer_statistics db (Db.household_size u) (Db.property_type u) (bill_year b) = None ->
   Peer.get_peer_statistics db (Db.household_size u) None (bill_year b) = None ->
   Anomaly.detect_all_anomalies api id db = (Raise ZeroDivisionError, db)).
Proof.
  intros api id db b pb u h1 h2 Hb Hpb Hu Hz H0 Hc1 Hc2 Hh2.
  assert (Hp : Anomaly.detect_predictive_anomaly api id db = (Raise ZeroDivisionError, db)).
  { unfold Anomaly.detect_predictive_anomaly. rewrite Hb, Hpb, Hu.
    unfold bind, with_cache. rewrite expected_consumption_int by exact Hz.
    rewrite Hc1, Hc2. unfold Weather.adjustment_of.
    replace (qeq h2 0) with false
      by (symmetry; destruct (qeq h2 0) eqn:E; [apply qeq_true in E; contradiction | reflexivity]).
    cbv beta iota zeta.
    assert (Hq : qeq (py_round (consumption_kwh pb * py_round (h1 / h2) 3) 2) 0 = true).
    { apply qeq_true_of. eapply Qeq_trans; [apply py_round_compat | apply py_round_0].
      rewrite H0. apply Qmult_0_l. }
    rewrite Hq. simpl. rewrite set_weather_cache_same. reflexivity. }
  split; [exact Hp|]. intros Hm Hs1 Hs2.
  unfold Anomaly.detect_all_anomalies. rewrite Hb. unfold bind.
  destruct (detect_historical_anomaly_ok id db Hm) as [hr Hr]. rewrite Hr.
  rewrite (detect_peer_anomaly_no_stats id db b u Hb Hu Hs1 Hs2), Hp. reflexivity.
Qed.

Lemma predictive_zero_baseline_raises_witness :
  Anomaly.detect_all_anomalies Samples.api_up 1 Samples.db_zero_baseline
  = (Raise ZeroDivisionError, Samples.db_zero_baseline).
Proof.
  refine (proj2 (predictive_zero_baseline_raises Samples.api_up 1 Samples.db_zero_baseline
    (Samples.bill 1 1 2024 4500) (Samples.bill 2 1 2023 0) (Samples.profile 1) 2750 2600
    eq_refl eq_refl eq_refl _ _ eq_refl eq_refl _) _ eq_refl eq_refl).
  - discriminate.
  - reflexivity.
  - vm_compute. discriminate.
  - intros m Hm. vm_compute in Hm. discriminate.
Defined.

(** ** Financial impact *)

Lemma truthy_zero x : x == 0 -> truthy x = false.
Proof. intro H. unfold truthy. now rewrite (proj2 (Qeq_bool_iff x 0) H). Qed.

(** X20. [_calculate_financial_impact] returns nothing without a (non-zero)
    tariff. A non-zero predictive deviation takes precedence: a positive one
    costs deviation x tariff rounded to cents, a negative one gives no impact
    even when consumption rose. Without a predictive deviation, a rise from a
    positive previous consumption costs (current - previous) x tariff. With a
    non-negative tariff the impact is never negative. *)
Theorem financial_impact_spec : forall t d c p,
  AnomalyOps._calculate_financial_impact None d c p = None /\
  (t == 0 -> AnomalyOps._calculate_financial_impact (Some t) d c p = None) /\
  (0 <= t -> forall x, AnomalyOps._calculate_financial_impact (Some t) d c p = Some x -> 0 <= x) /\
  (forall dv, d = Some dv -> dv < 0 -> AnomalyOps._calculate_financial_impact (Some t) d c p = None) /\
  (forall dv, d = Some dv -> 0 < dv -> ~ t == 0 ->
     AnomalyOps._calculate_financial_impact (Some t) d c p = Some (py_round (dv * t) 2)) /\
  (forall cv pv, match d with Some dv => dv == 0 | None => True end ->
     c = Some cv -> p = Some pv -> 0 < pv -> pv < cv -> ~ t == 0 ->
     AnomalyOps._calculate_financial_impact (Some t) d c p = Some (py_round ((cv - pv) * t) 2)).
Proof.
  intros t d c p. unfold AnomalyOps._calculate_financial_impact. split; [reflexivity|].
  split; [intro H0; now rewrite (truthy_zero t H0)|].
  split.
  { intros Ht x. destruct (negb (truthy t)); [discriminate|].
    match goal with |- context [if qlt 0 ?e then _ else _] => set (ex := e) end.
    destruct (qlt 0 ex) eqn:Hl; [|discriminate]. intro E. injection E as <-. qbool.
    apply Qle_trans with (py_round 0 2).
    - rewrite py_round_0. apply Qle_refl.
    - apply py_round_mono. apply Qmult_le_0_compat; [apply Qlt_le_weak|]; assumption. }
  split.
  { intros dv -> Hd. destruct (negb (truthy t)); [reflexivity|].
    rewrite truthy_true by (intro H; rewrite H in Hd; apply (Qlt_irrefl 0 Hd)).
    unfold AnomalyOps.py_max. destruct (qlt 0 dv) eqn:E; qbool; [lra|].
    replace (qlt 0 0) with false by reflexivity. reflexivity. }
  split.
  { intros dv -> Hd Ht. rewrite (truthy_true t Ht). simpl.
    rewrite truthy_true by (intro H; rewrite H in Hd; apply (Qlt_irrefl 0 Hd)).
    unfold AnomalyOps.py_max.
    assert (Hq : qlt 0 dv = true)
      by (unfold qlt; destruct (Qle_bool dv 0) eqn:E; [apply Qle_bool_iff in E; lra | reflexivity]).
    rewrite Hq. cbv beta iota. rewrite Hq. reflexivity. }
  { intros cv pv Hd -> -> Hp Hc Ht. rewrite (truthy_true t Ht). simpl.
    replace (match d with Some d0 => if truthy d0 then Some (AnomalyOps.py_max 0 d0) else None
             | None => None end) with (@None Q)
      by (destruct d as [dv|]; [now rewrite (truthy_zero dv Hd) | reflexivity]).
    rewrite (truthy_true cv) by lra. rewrite (truthy_true pv) by lra. simpl.
    unfold AnomalyOps.py_max.
    assert (Hq : qlt 0 (cv - pv) = true) by (unfold qlt; destruct (Qle_bool (cv - pv) 0) eqn:E;
      [apply Qle_bool_iff in E; lra | reflexivity]).
    rewrite Hq. cbv beta iota. rewrite Hq. reflexivity. }
Qed.

Lemma financial_impact_spec_witness :
  AnomalyOps._calculate_financial_impact (Some (15 # 100)) None (Some 4500) (Some 3200)
  = Some (py_round ((4500 - 3200) * (15 # 100)) 2).
Proof.
  refine (proj2 (proj2 (proj2 (proj2 (proj2
    (financial_impact_spec (15 # 100) None (Some 4500) (Some 3200))))))
    4500 3200 I eq_refl eq_refl _ _ _).
  - reflexivity.
  - reflexivity.
  - vm_compute. discriminate.
Defined.

(** ** Invoice field extraction *)



Lemma L_app a b : Parser.L (a ++ b) = Parser.L a ++ Parser.L b.
Proof. induction a as [|c a IH]; simpl; [reflexivity | now rewrite <- IH]. Qed.

Lemma search_app at_ l1 l2 : Parser.search at_ l2 = true -> Parser.search at_ (l1 ++ l2) = true.
Proof.
  intro H. induction l1 as [|c l1 IH]; simpl; [exact H|].
  rewrite IH. apply orb_true_r.
Qed.

Lemma search_app_false at_ l1 l2 :
  Parser.search at_ (l1 ++ l2) = false -> Parser.search at_ l2 = false.
Proof.
  induction l1 as [|c l1 IH]; simpl; [auto|]. intro H.
  apply orb_false_iff in H as [_ H]. exact (IH H).
Qed.

(** X22. [detect_supplier] answers EON for any text containing E.ON, E-ON
    or EON in any letter case, wherever it occurs and whatever else the
    text contains (so EON wins over a Green Planet signature). A text
    containing "Green Planet Energy" or "Greenpeace Energy" in which no
    E.ON signature occurs is GREEN_PLANET. *)
Theorem detect_supplier_signatures : forall a b (sep : string) (e o n : ascii),
  In sep [EmptyString; "."%string; "-"%string] ->
  In e ["E"; "e"]%char -> In o ["O"; "o"]%char -> In n ["N"; "n"]%char ->
  Parser.detect_supplier (a ++ String e (sep ++ String o (String n b))) = "EON"%string /\
  (forall g, In g ["Green Planet Energy"; "Greenpeace Energy"]%string ->
   Parser.search Parser.eon_supplier_at (Parser.L (a ++ g ++ b)) = false ->
   Parser.detect_supplier (a ++ g ++ b) = "GREEN_PLANET"%string).
Proof.
  intros a b sep e o n Hsep He Ho Hn. split.
  - unfold Parser.detect_supplier. rewrite L_app, search_app; [reflexivity|].
    destruct He as [<-|[<-|[]]], Ho as [<-|[<-|[]]], Hn as [<-|[<-|[]]],
      Hsep as [<-|[<-|[<-|[]]]]; reflexivity.
  - intros g Hg Hno. unfold Parser.detect_supplier. rewrite Hno.
    rewrite L_app, search_app; [reflexivity|].
    destruct Hg as [<-|[<-|[]]]; reflexivity.
Qed.

Lemma detect_supplier_signatures_witness :
  Parser.detect_supplier ("Rechnung "%string ++ String "E" ("."%string ++ String "O" (String "N" " Energie"%string))) = "EON"%string /\
  Parser.detect_supplier ("Ihre "%string ++ "Green Planet Energy"%string ++ " eG"%string)
  = "GREEN_PLANET"%string.
Proof.
  split.
  - exact (proj1 (detect_supplier_signatures "Rechnung " " Energie" "." "E" "O" "N"
      (or_intror (or_introl eq_refl)) (or_introl eq_refl) (or_introl eq_refl)
      (or_introl eq_refl))).
  - refine (proj2 (detect_supplier_signatures "Ihre " " eG" EmptyString "E" "O" "N"
      (or_introl eq_refl) (or_introl eq_refl) (or_introl eq_refl) (or_introl eq_refl))
      "Green Planet Energy"%string (or_introl eq_refl) _).
    vm_compute. reflexivity.
Defined.

(** ** Number normalisers of the invoice parser *)

Lemma L_sol l : Parser.L (string_of_list_ascii l) = l.
Proof. apply list_ascii_of_string_of_list_ascii. Qed.

Lemma kwh_char_neq a c : kwh_char a = false -> kwh_char c = true -> Ascii.eqb a c = false.
Proof.
  intros Ha Hc. destruct (Ascii.eqb a c) eqn:E; [|reflexivity].
  apply Ascii.eqb_eq in E. subst. congruence.
Qed.

Lemma digit_neq a c : Normalize.is_digit a = false -> Normalize.is_digit c = true -> Ascii.eqb c a = false.
Proof.
  intros Ha Hc. destruct (Ascii.eqb c a) eqn:E; [|reflexivity].
  apply Ascii.eqb_eq in E. subst. congruence.
Qed.

Lemma lower_e c : Ascii.eqb (Parser.lower c) "e"%char = true -> c = "e"%char \/ c = "E"%char.
Proof.
  destruct c as [[] [] [] [] [] [] [] []]; vm_compute; intro H; first [discriminate | auto].
Qed.

Lemma lower_e_safe c : kwh_char c = true -> Ascii.eqb (Parser.lower c) "e"%char = false.
Proof.
  intro Hc. destruct (Ascii.eqb (Parser.lower c) "e"%char) eqn:E; [|reflexivity].
  apply lower_e in E as [-> | ->]; discriminate.
Qed.

Lemma take_digits_app D r :
  Forall (fun c => Normalize.is_digit c = true) D ->
  match r with [] => True | c :: _ => Normalize.is_digit c = false end ->
  Normalize.take_digits (D ++ r) = (D, r).
Proof.
  intros HD Hr. induction HD as [|d D Hd HD IH]; simpl.
  - destruct r as [|c r]; simpl; [reflexivity|]. now rewrite Hr.
  - rewrite Hd, IH. reflexivity.
Qed.

Lemma py_float_decimal (neg : bool) D F :
  Forall (fun c => Normalize.is_digit c = true) D ->
  Forall (fun c => Normalize.is_digit c = true) F ->
  D ++ F <> [] ->
  Normalize.py_float ((if neg then ["-"%char] else []) ++ D ++ "."%char :: F)
  = Some (let v := inject_Z (Normalize.digits_val (D ++ F))
                   / inject_Z (10 ^ Z.of_nat (List.length F)) in
          if neg then - v else v).
Proof.
  intros HD HF Hne. unfold Normalize.py_float.
  assert (Hs : match (if neg then ["-"%char] else []) ++ D ++ "."%char :: F with
               | c :: r => if Ascii.eqb c "-"%char then (true, r)
                           else if Ascii.eqb c "+"%char then (false, r) else (false, (if neg then ["-"%char] else []) ++ D ++ "."%char :: F)
               | [] => (false, (if neg then ["-"%char] else []) ++ D ++ "."%char :: F)
               end = (neg, D ++ "."%char :: F)).
  { destruct neg; [reflexivity|]. simpl.
    destruct HD as [|d D Hd HD]; [reflexivity|]. simpl.
    rewrite (digit_neq "-"%char d), (digit_neq "+"%char d) by (reflexivity || exact Hd).
    reflexivity. }
  rewrite Hs. rewrite take_digits_app by (exact HD || reflexivity).
  cbv beta iota. replace (Ascii.eqb "."%char "."%char) with true by reflexivity.
  rewrite <- (app_nil_r F) at 1. rewrite take_digits_app by (exact HF || exact I).
  destruct D as [|d D]; [destruct F as [|f F]; [contradiction|] |]; reflexivity.
Qed.

Lemma filter_all {A} (f : A -> bool) l : Forall (fun c => f c = true) l -> filter f l = l.
Proof. induction 1 as [|x l Hx _ IH]; simpl; [reflexivity|]. now rewrite Hx, IH. Qed.

Lemma filter_none {A} (f : A -> bool) l : Forall (fun c => f c = false) l -> filter f l = [].
Proof. induction 1 as [|x l Hx _ IH]; simpl; [reflexivity|]. now rewrite Hx, IH. Qed.

Lemma map_fixed {A} (f : A -> A) l : Forall (fun c => f c = c) l -> map f l = l.
Proof. induction 1 as [|x l Hx _ IH]; simpl; [reflexivity|]. now rewrite Hx, IH. Qed.

Lemma digit_kwh c : Normalize.is_digit c = true -> kwh_char c = true.
Proof. intro H. unfold kwh_char. now rewrite H. Qed.

Lemma comma_to_dot_other c : Ascii.eqb c ","%char = false -> Normalize.comma_to_dot c = c.
Proof. intro H. unfold Normalize.comma_to_dot. now rewrite H. Qed.

Lemma filter_digits_dots ip :
  Forall (fun c => Normalize.is_digit c = true \/ c = "."%char) ip ->
  filter (fun c => negb (Ascii.eqb c "."%char)) ip = filter Normalize.is_digit ip /\
  Forall (fun c => Normalize.is_digit c = true) (filter Normalize.is_digit ip) /\
  Forall (fun c => kwh_char c = true) ip.
Proof.
  induction 1 as [|c ip Hc _ [IH1 [IH2 IH3]]]; simpl; [repeat split; constructor|].
  destruct Hc as [Hc | ->].
  - rewrite Hc, (digit_neq "."%char c) by (reflexivity || exact Hc). simpl.
    rewrite IH1. repeat split; constructor; auto using digit_kwh.
  - simpl. split; [exact IH1|]. split; [exact IH2|]. constructor; [reflexivity | exact IH3].
Qed.

Lemma digits_fixed D :
  Forall (fun c => Normalize.is_digit c = true) D -> map Normalize.comma_to_dot D = D.
Proof.
  intro HD. apply map_fixed. eapply Forall_impl; [|exact HD].
  intros c Hc. apply comma_to_dot_other. now apply (digit_neq ","%char c).
Qed.

Lemma normalize_kwh_sol l : l <> [] ->
  Normalize.normalize_kwh (string_of_list_ascii l)
  = Normalize.py_float (map Normalize.comma_to_dot
      (filter (fun c => negb (Ascii.eqb c "."%char)) (filter kwh_char l))).
Proof.
  intro Hl. destruct l as [|c l]; [congruence|].
  rewrite <- (L_sol (c :: l)) at 2. reflexivity.
Qed.

(** X23. [normalize_kwh] reads German number formats: dots are dropped as
    thousands separators and the comma is the decimal point, an optional
    leading minus is kept, and any trailing text without digits, dots,
    commas or minus signs (such as " kWh") is ignored. Without a comma the
    dotted digits are read as an integer, so "1.234 kWh" is 1234. *)
Theorem normalize_kwh_german : forall (neg : bool) ip fs u,
  Forall (fun c => Normalize.is_digit c = true \/ c = "."%char) ip ->
  Forall (fun c => Normalize.is_digit c = true) fs ->
  Forall (fun c => kwh_char c = false) u ->
  filter Normalize.is_digit ip ++ fs <> [] ->
  Normalize.normalize_kwh
    (string_of_list_ascii ((if neg then ["-"%char] else []) ++ ip ++ ","%char :: fs ++ u))
  = Some (let v := inject_Z (Normalize.digits_val (filter Normalize.is_digit ip ++ fs))
                   / inject_Z (10 ^ Z.of_nat (List.length fs)) in
          if neg then - v else v) /\
  (filter Normalize.is_digit ip <> [] ->
   exists q, Normalize.normalize_kwh (string_of_list_ascii (ip ++ u)) = Some q /\
             q == inject_Z (Normalize.digits_val (filter Normalize.is_digit ip))).
Proof.
  intros neg ip fs u Hip Hfs Hu Hne.
  destruct (filter_digits_dots ip Hip) as [Hdot [HD Hk]].
  assert (Hfk : Forall (fun c => kwh_char c = true) fs)
    by (eapply Forall_impl; [exact digit_kwh | exact Hfs]).
  split.
  - rewrite normalize_kwh_sol by (destruct neg; destruct ip; discriminate).
    set (sign := if neg then ["-"%char] else []).
    assert (E1 : filter kwh_char (sign ++ ip ++ ","%char :: fs ++ u) = sign ++ ip ++ ","%char :: fs).
    { rewrite !filter_app. f_equal; [destruct neg; reflexivity|].
      rewrite (filter_all _ ip Hk). f_equal.
      change (filter kwh_char (","%char :: fs ++ u)) with (","%char :: filter kwh_char (fs ++ u)).
      rewrite filter_app, (filter_all _ fs Hfk), (filter_none _ u Hu), app_nil_r. reflexivity. }
    assert (E2 : filter (fun c => negb (Ascii.eqb c "."%char)) (sign ++ ip ++ ","%char :: fs)
                 = sign ++ filter Normalize.is_digit ip ++ ","%char :: fs).
    { rewrite !filter_app. f_equal; [destruct neg; reflexivity|]. rewrite Hdot. f_equal.
      change (filter (fun c => negb (Ascii.eqb c "."%char)) (","%char :: fs))
        with (","%char :: filter (fun c => negb (Ascii.eqb c "."%char)) fs).
      f_equal. apply filter_all.
      eapply Forall_impl; [|exact Hfs]; intros c Hc; now rewrite (digit_neq "."%char c). }
    assert (E3 : map Normalize.comma_to_dot (sign ++ filter Normalize.is_digit ip ++ ","%char :: fs)
                 = sign ++ filter Normalize.is_digit ip ++ "."%char :: fs).
    { rewrite !map_app. f_equal; [destruct neg; reflexivity|].
      rewrite (digits_fixed _ HD). simpl. rewrite (digits_fixed _ Hfs). reflexivity. }
    rewrite E1, E2, E3. apply py_float_decimal; assumption.
  - intro Hd. rewrite normalize_kwh_sol by (destruct ip; [destruct Hd; reflexivity | discriminate]).
    rewrite filter_app, (filter_all _ ip Hk), (filter_none _ u Hu), app_nil_r, Hdot.
    rewrite (digits_fixed _ HD).
    destruct (filter Normalize.is_digit ip) as [|d D] eqn:E; [contradiction|].
    inversion HD as [|d' D' Hd' HD']; subst.
    unfold Normalize.py_float. simpl.
    rewrite (digit_neq "-"%char d), (digit_neq "+"%char d) by (reflexivity || exact Hd').
    pose proof (take_digits_app (d :: D) [] HD I) as T. rewrite app_nil_r in T. rewrite T.
    cbv beta iota. eexists. split; [reflexivity|]. rewrite app_nil_r. unfold Qdiv.
    apply Qmult_1_r.
Qed.

Lemma normalize_kwh_german_witness :
  Normalize.normalize_kwh "1.234,5 kWh"%string = Some (12345 # 10) /\
  (exists q, Normalize.normalize_kwh "1.234 kWh"%string = Some q /\ q == 1234).
Proof.
  assert (Hip : Forall (fun c => Normalize.is_digit c = true \/ c = "."%char) (Parser.L "1.234"))
    by (repeat (apply Forall_cons; [first [left; reflexivity | right; reflexivity] |]);
        apply Forall_nil).
  assert (Hfs : Forall (fun c => Normalize.is_digit c = true) (Parser.L "5"))
    by (repeat (apply Forall_cons; [reflexivity |]); apply Forall_nil).
  assert (Hu : Forall (fun c => kwh_char c = false) (Parser.L " kWh"))
    by (repeat (apply Forall_cons; [reflexivity |]); apply Forall_nil).
  destruct (normalize_kwh_german false (Parser.L "1.234") (Parser.L "5") (Parser.L " kWh")
              Hip Hfs Hu ltac:(discriminate)) as [H1 H2].
  split.
  - exact H1.
  - exact (H2 ltac:(discriminate)).
Defined.

Lemma strip_id c l z : Parser.is_space c = false -> Parser.is_space z = false ->
  Parser.L (Parser.strip (string_of_list_ascii (c :: l ++ [z]))) = c :: l ++ [z].
Proof.
  intros Hc Hz. unfold Parser.strip. cbv zeta. rewrite !L_sol.
  cbv beta iota. rewrite Hc.
  change (c :: l ++ [z]) with ((c :: l) ++ [z]). rewrite rev_unit.
  cbv beta iota. rewrite Hz. rewrite <- rev_unit, rev_involutive. reflexivity.
Qed.

Lemma replace_safe_app a pat' rep p t :
  kwh_char a = false -> Forall (fun c => kwh_char c = true) p ->
  Normalize.replace (a :: pat') rep (p ++ t) = p ++ Normalize.replace (a :: pat') rep t.
Proof.
  intros Ha Hp. unfold Normalize.replace.
  induction Hp as [|c p Hc Hp IH]; [reflexivity|]. simpl app.
  change (Normalize.replace_go (a :: pat') rep O (c :: p ++ t)) with
    (if Ascii.eqb a c && Normalize.prefix pat' (p ++ t)
     then rep ++ Normalize.replace_go (a :: pat') rep (pred (List.length (a :: pat'))) (p ++ t)
     else c :: Normalize.replace_go (a :: pat') rep O (p ++ t)).
  rewrite (kwh_char_neq a c Ha Hc). simpl andb. cbv iota. now rewrite IH.
Qed.

Lemma strip_currency_safe_app p t :
  Forall (fun c => kwh_char c = true) p ->
  Normalize.strip_currency (p ++ t) = p ++ Normalize.strip_currency t.
Proof.
  intro Hp. unfold Normalize.strip_currency.
  induction Hp as [|c p Hc Hp IH]; [reflexivity|]. simpl app.
  change (Normalize.strip_currency_go O (c :: p ++ t)) with
    (if Ascii.eqb (Normalize.byte 226) c && Normalize.prefix [Normalize.byte 130; Normalize.byte 172] (p ++ t)
     then Normalize.strip_currency_go 2 (p ++ t)
     else if Parser.is_some (if Ascii.eqb (Parser.lower c) "e"%char
                             then Parser.lit_ci (Parser.L "ur") (p ++ t) else None)
     then Normalize.strip_currency_go 2 (p ++ t)
     else if Parser.is_some (if Ascii.eqb (Parser.lower c) "e"%char
                             then Parser.lit_ci (Parser.L "uro") (p ++ t) else None)
     then Normalize.strip_currency_go 3 (p ++ t)
     else c :: Normalize.strip_currency_go O (p ++ t)).
  rewrite (kwh_char_neq (Normalize.byte 226) c) by (reflexivity || exact Hc).
  rewrite (lower_e_safe c Hc). simpl andb. cbv iota. now rewrite IH.
Qed.

Lemma front_app p t :
  Forall (fun c => kwh_char c = true) p ->
  (map (fun c => if Ascii.eqb c "o"%char then "0"%char else c)
     (map (fun c => if Ascii.eqb c "O"%char then "0"%char else c)
       (Normalize.strip_currency
         (Normalize.replace Normalize.EN_DASH ["-"%char]
           (Normalize.replace Normalize.MINUS_SIGN ["-"%char]
             (filter (fun c => negb (Ascii.eqb c " "%char))
               (Normalize.replace Normalize.NBSP [] (p ++ t))))))))
  = p ++ (map (fun c => if Ascii.eqb c "o"%char then "0"%char else c)
     (map (fun c => if Ascii.eqb c "O"%char then "0"%char else c)
       (Normalize.strip_currency
         (Normalize.replace Normalize.EN_DASH ["-"%char]
           (Normalize.replace Normalize.MINUS_SIGN ["-"%char]
             (filter (fun c => negb (Ascii.eqb c " "%char))
               (Normalize.replace Normalize.NBSP [] t))))))).
Proof.
  intro Hp. unfold Normalize.NBSP, Normalize.MINUS_SIGN, Normalize.EN_DASH.
  rewrite !replace_safe_app by (reflexivity || exact Hp).
  rewrite filter_app, (filter_all _ p).
  2:{ eapply Forall_impl; [|exact Hp]. intros c Hc.
      now rewrite Ascii.eqb_sym, (kwh_char_neq " "%char c). }
  rewrite !replace_safe_app by (reflexivity || exact Hp).
  rewrite strip_currency_safe_app by exact Hp.
  rewrite !map_app, (map_fixed _ p), (map_fixed _ p); [reflexivity| |];
    (eapply Forall_impl; [|exact Hp]; intros c Hc);
    [rewrite Ascii.eqb_sym, (kwh_char_neq "o"%char c) | rewrite Ascii.eqb_sym, (kwh_char_neq "O"%char c)];
    reflexivity || exact Hc.
Qed.

Lemma front_suffix t :
  In t [[]; Normalize.EURO_SIGN; " "%char :: Normalize.EURO_SIGN; Parser.L "EUR"; Parser.L " EUR"] ->
  (map (fun c => if Ascii.eqb c "o"%char then "0"%char else c)
     (map (fun c => if Ascii.eqb c "O"%char then "0"%char else c)
       (Normalize.strip_currency
         (Normalize.replace Normalize.EN_DASH ["-"%char]
           (Normalize.replace Normalize.MINUS_SIGN ["-"%char]
             (filter (fun c => negb (Ascii.eqb c " "%char))
               (Normalize.replace Normalize.NBSP [] t))))))) = [].
Proof. intros [<-|[<-|[<-|[<-|[<-|[]]]]]]; vm_compute; reflexivity. Qed.

Lemma kwh_not_space c : kwh_char c = true -> Parser.is_space c = false.
Proof.
  intro H. destruct (Parser.is_space c) eqn:E; [|reflexivity].
  unfold kwh_char, Normalize.is_digit, Parser.is_space in *.
  destruct c as [[] [] [] [] [] [] [] []]; vm_compute in H, E; congruence.
Qed.

Lemma strip_ends l : l <> [] ->
  (forall c m, l = c :: m -> Parser.is_space c = false) ->
  (forall m z, l = m ++ [z] -> Parser.is_space z = false) ->
  Parser.L (Parser.strip (string_of_list_ascii l)) = l.
Proof.
  intros Hne Hh Hl. destruct l as [|c m]; [congruence|].
  specialize (Hh c m eq_refl).
  destruct m as [|d m'].
  - unfold Parser.strip. cbv zeta. rewrite !L_sol. cbv beta iota. rewrite Hh.
    change (rev [c]) with [c]. cbv beta iota. rewrite Hh. reflexivity.
  - destruct (exists_last (l := d :: m') ltac:(discriminate)) as [m0 [z E]].
    rewrite E in *. apply strip_id; [exact Hh|]. apply (Hl (c :: m0)). reflexivity.
Qed.

Lemma last_nonspace p t m z :
  Forall (fun c => kwh_char c = true) p ->
  (t = [] \/ Parser.is_space (last t " "%char) = false) ->
  p ++ t = m ++ [z] -> Parser.is_space z = false.
Proof.
  intros Hp Ht E. destruct t as [|a t'].
  - rewrite app_nil_r in E. subst p. apply Forall_app in Hp as [_ Hz].
    inversion Hz. now apply kwh_not_space.
  - destruct (exists_last (l := a :: t') ltac:(discriminate)) as [t0 [z0 Et]].
    rewrite Et in E, Ht. rewrite last_last in Ht. rewrite app_assoc in E.
    apply app_inj_tail in E as [_ <-].
    destruct Ht as [H|H]; [destruct t0; discriminate | exact H].
Qed.

Lemma existsb_false_forall {A} (f : A -> bool) l :
  existsb f l = false -> Forall (fun x => f x = false) l.
Proof.
  induction l as [|x l IH]; simpl; [constructor|].
  intro H. apply orb_false_iff in H as [H1 H2]. constructor; auto.
Qed.

Lemma nodot_comma (sign : list ascii) ip fs :
  Forall (fun c => Ascii.eqb c ","%char = false /\ Ascii.eqb c "."%char = false) sign ->
  Forall (fun c => Normalize.is_digit c = true \/ c = "."%char) ip ->
  Forall (fun c => Normalize.is_digit c = true) fs ->
  map Normalize.comma_to_dot
    (filter (fun c => negb (Ascii.eqb c "."%char)) (sign ++ ip ++ ","%char :: fs))
  = sign ++ filter Normalize.is_digit ip ++ "."%char :: fs.
Proof.
  intros Hs Hip Hfs. destruct (filter_digits_dots ip Hip) as [Hdot [HD _]].
  rewrite !filter_app, Hdot.
  change (filter (fun c => negb (Ascii.eqb c "."%char)) (","%char :: fs))
    with (","%char :: filter (fun c => negb (Ascii.eqb c "."%char)) fs).
  rewrite (filter_all _ fs)
    by (eapply Forall_impl; [|exact Hfs]; intros c Hc; now rewrite (digit_neq "."%char c)).
  rewrite (filter_all _ sign)
    by (eapply Forall_impl; [|exact Hs]; intros c [_ Hc]; now rewrite Hc).
  rewrite !map_app, (digits_fixed _ HD). simpl. rewrite (digits_fixed _ Hfs).
  rewrite (map_fixed _ sign); [reflexivity|].
  eapply Forall_impl; [|exact Hs]. intros c [Hc _]. now apply comma_to_dot_other.
Qed.

Lemma head_nonspace (p t : list ascii) c m :
  Forall (fun c => kwh_char c = true) p -> p <> [] -> p ++ t = c :: m -> Parser.is_space c = false.
Proof.
  intros Hp Hne E. destruct p as [|a p]; [congruence|]. injection E as <- _.
  apply kwh_not_space. now inversion Hp.
Qed.

Lemma normalize_amount_german_safe p t t' :
  Forall (fun c => kwh_char c = true) p -> p <> [] ->
  (t = [] \/ Parser.is_space (last t " "%char) = false) ->
  (map (fun c => if Ascii.eqb c "o"%char then "0"%char else c)
     (map (fun c => if Ascii.eqb c "O"%char then "0"%char else c)
       (Normalize.strip_currency
         (Normalize.replace Normalize.EN_DASH ["-"%char]
           (Normalize.replace Normalize.MINUS_SIGN ["-"%char]
             (filter (fun c => negb (Ascii.eqb c " "%char))
               (Normalize.replace Normalize.NBSP [] t))))))) = t' ->
  Normalize.normalize_amount_german (string_of_list_ascii (p ++ t)) =
  Normalize.py_float
    (filter (fun c => Normalize.is_digit c || Ascii.eqb c "."%char || Ascii.eqb c "-"%char)
      (if existsb (Ascii.eqb ","%char) (p ++ t') && existsb (Ascii.eqb "."%char) (p ++ t')
       then map Normalize.comma_to_dot
              (filter (fun c => negb (Ascii.eqb c "."%char)) (p ++ t'))
       else
         let s1 := map Normalize.comma_to_dot (p ++ t') in
         if Nat.ltb 1 (List.length (filter (Ascii.eqb "."%char) s1)) then
           let parts := Normalize.split_dot s1 in
           List.concat (removelast parts) ++ ["."%char] ++ last parts []
         else s1)).
Proof.
  intros Hp Hpne Ht Hf.
  assert (Hnil : p ++ t <> []) by (destruct p; [congruence | discriminate]).
  remember (string_of_list_ascii (p ++ t)) as s eqn:Hs.
  destruct s as [|c0 s'].
  { apply (f_equal Parser.L) in Hs. rewrite L_sol in Hs. now destruct Hnil. }
  unfold Normalize.normalize_amount_german. cbv beta iota zeta. rewrite Hs.
  rewrite strip_ends; [| exact Hnil | intros c m; now apply head_nonspace |
                        intros m z; now apply last_nonspace].
  rewrite front_app by exact Hp. rewrite Hf. reflexivity.
Qed.

(** X24. [normalize_amount_german] reads amounts in German format: an
    optional minus, digits with dots as thousands separators, a decimal
    comma, then nothing, a euro sign or EUR (with or without a space). The
    result is the exact value, for instance -1.234,56 EUR is -1234.56. *)
Theorem normalize_amount_german_format : forall (neg : bool) ip fs t,
  Forall (fun c => Normalize.is_digit c = true \/ c = "."%char) ip ->
  Forall (fun c => Normalize.is_digit c = true) fs ->
  filter Normalize.is_digit ip ++ fs <> [] ->
  In t [[]; Normalize.EURO_SIGN; " "%char :: Normalize.EURO_SIGN; Parser.L "EUR"; Parser.L " EUR"] ->
  Normalize.normalize_amount_german
    (string_of_list_ascii (((if neg then ["-"%char] else []) ++ ip ++ ","%char :: fs) ++ t))
  = Some (let v := inject_Z (Normalize.digits_val (filter Normalize.is_digit ip ++ fs))
                   / inject_Z (10 ^ Z.of_nat (List.length fs)) in
          if neg then - v else v).
Proof.
  intros neg ip fs t Hip Hfs Hne Ht.
  set (sign := if neg then ["-"%char] else []).
  set (p := sign ++ ip ++ ","%char :: fs).
  destruct (filter_digits_dots ip Hip) as [Hdot [HD Hk]].
  assert (Hsk : Forall (fun c => kwh_char c = true) sign) by (destruct neg; repeat constructor).
  assert (Hfk : Forall (fun c => kwh_char c = true) fs)
    by (eapply Forall_impl; [exact digit_kwh | exact Hfs]).
  assert (Hp : Forall (fun c => kwh_char c = true) p)
    by (apply Forall_app; split; [exact Hsk|]; apply Forall_app; split; [exact Hk|];
        constructor; [reflexivity | exact Hfk]).
  assert (Hnil : p ++ t <> []) by (unfold p; destruct neg, ip; discriminate).
  remember (string_of_list_ascii (p ++ t)) as s eqn:Hs.
  destruct s as [|c0 s'].
  { apply (f_equal Parser.L) in Hs. rewrite L_sol in Hs. now destruct Hnil. }
  unfold Normalize.normalize_amount_german. cbv beta iota zeta. rewrite Hs.
  rewrite strip_ends; [| exact Hnil | |].
  2:{ intros c m E. unfold p, sign in E. destruct neg; [injection E as <- _; reflexivity|].
      destruct ip as [|a ip']; simpl in E; injection E as <- _; [reflexivity|].
      apply kwh_not_space. now inversion Hk. }
  2:{ intros m z. apply last_nonspace; [exact Hp|].
      destruct Ht as [<-|[<-|[<-|[<-|[<-|[]]]]]]; [left; reflexivity | right; reflexivity ..]. }
  rewrite front_app by exact Hp. rewrite (front_suffix t Ht), app_nil_r.
  assert (Hc : existsb (Ascii.eqb ","%char) p = true).
  { apply existsb_exists. exists ","%char. split; [|reflexivity].
    unfold p. apply in_or_app. right. apply in_or_app. right. left. reflexivity. }
  assert (Hsg : Forall (fun c => Ascii.eqb c ","%char = false /\ Ascii.eqb c "."%char = false) sign)
    by (destruct neg; repeat constructor).
  assert (HF : forall l, Forall (fun c => Normalize.is_digit c = true) l ->
            Forall (fun c => Normalize.is_digit c || Ascii.eqb c "."%char || Ascii.eqb c "-"%char = true) l)
    by (intros l Hl; eapply Forall_impl; [|exact Hl]; intros c Hc'; now rewrite Hc').
  assert (Hsign : Forall (fun c => Normalize.is_digit c || Ascii.eqb c "."%char || Ascii.eqb c "-"%char = true) sign)
    by (destruct neg; repeat constructor).
  rewrite Hc, andb_true_l.
  destruct (existsb (Ascii.eqb "."%char) p) eqn:Hd.
  - unfold p. rewrite (nodot_comma sign ip fs Hsg Hip Hfs).
    rewrite filter_all; [apply py_float_decimal; assumption|].
    apply Forall_app; split; [exact Hsign|]. apply Forall_app; split; [exact (HF _ HD)|].
    constructor; [reflexivity | exact (HF _ Hfs)].
  - apply existsb_false_forall in Hd. unfold p in Hd.
    apply Forall_app in Hd as [_ Hd]. apply Forall_app in Hd as [Hdi _].
    assert (HDi : Forall (fun c => Normalize.is_digit c = true) ip).
    { apply Forall_forall. intros c Hin.
      destruct (proj1 (Forall_forall _ _) Hip c Hin) as [H | ->]; [exact H|].
      pose proof (proj1 (Forall_forall _ _) Hdi _ Hin). discriminate. }
    assert (Em : map Normalize.comma_to_dot p = sign ++ ip ++ "."%char :: fs).
    { unfold p. rewrite !map_app, (digits_fixed _ HDi). simpl. rewrite (digits_fixed _ Hfs).
      f_equal. apply map_fixed. eapply Forall_impl; [|exact Hsg].
      intros c [Hc' _]. now apply comma_to_dot_other. }
    assert (Ef : filter (Ascii.eqb "."%char) (sign ++ ip ++ "."%char :: fs) = ["."%char]).
    { rewrite !filter_app, (filter_none _ sign), (filter_none _ ip Hdi).
      - simpl. rewrite (filter_none _ fs); [reflexivity|].
        eapply Forall_impl; [|exact Hfs]. intros c Hc'. now apply (digit_neq "."%char c).
      - eapply Forall_impl; [|exact Hsg]. intros c [_ Hc']. now rewrite Ascii.eqb_sym. }
    rewrite Em, Ef. replace (Nat.ltb 1 (List.length ["."%char])) with false by reflexivity.
    rewrite (filter_all _ ip HDi).
    rewrite filter_all; [apply py_float_decimal; try assumption; now rewrite <- (filter_all _ ip HDi)|].
    apply Forall_app; split; [exact Hsign|]. apply Forall_app; split; [exact (HF _ HDi)|].
    constructor; [reflexivity | exact (HF _ Hfs)].
Qed.

Lemma normalize_amount_german_format_witness :
  Normalize.normalize_amount_german "-1.234,56 EUR"%string = Some (- (123456 # 100)).
Proof.
  refine (normalize_amount_german_format true (Parser.L "1.234") (Parser.L "56")
            (Parser.L " EUR") _ _ _ _).
  - repeat (apply Forall_cons; [first [left; reflexivity | right; reflexivity] |]).
    apply Forall_nil.
  - repeat (apply Forall_cons; [reflexivity |]). apply Forall_nil.
  - discriminate.
  - right; right; right; right; left. reflexivity.
Defined.

Lemma py_float_int D :
  Forall (fun c => Normalize.is_digit c = true) D -> D <> [] ->
  exists q, Normalize.py_float D = Some q /\ q == inject_Z (Normalize.digits_val D).
Proof.
  intros HD Hne. destruct D as [|d D]; [congruence|].
  inversion HD as [|d' D' Hd' HD']; subst.
  unfold Normalize.py_float. cbv beta iota.
  rewrite (digit_neq "-"%char d), (digit_neq "+"%char d) by (reflexivity || exact Hd').
  pose proof (take_digits_app (d :: D) [] HD I) as T. rewrite app_nil_r in T. rewrite T.
  cbv beta iota. eexists. split; [reflexivity|]. rewrite app_nil_r. unfold Qdiv.
  apply Qmult_1_r.
Qed.

Lemma existsb_none {A} (f : A -> bool) l : Forall (fun x => f x = false) l -> existsb f l = false.
Proof. induction 1 as [|x l Hx _ IH]; simpl; [reflexivity|]. now rewrite Hx, IH. Qed.

Lemma digits_not (a : ascii) D :
  Normalize.is_digit a = false -> Forall (fun c => Normalize.is_digit c = true) D ->
  Forall (fun c => Ascii.eqb a c = false) D.
Proof.
  intros Ha HD. eapply Forall_impl; [|exact HD]. intros c Hc.
  rewrite Ascii.eqb_sym. now apply digit_neq.
Qed.

Lemma digits_not' (a : ascii) D :
  Normalize.is_digit a = false -> Forall (fun c => Normalize.is_digit c = true) D ->
  Forall (fun c => Ascii.eqb c a = false) D.
Proof.
  intros Ha HD. eapply Forall_impl; [|exact HD]. intros c Hc. now apply digit_neq.
Qed.

Lemma split_dot_digits D :
  Forall (fun c => Normalize.is_digit c = true) D -> Normalize.split_dot D = [D].
Proof.
  induction 1 as [|c D Hc _ IH]; [reflexivity|]. simpl. rewrite IH.
  now rewrite (digit_neq "."%char c).
Qed.

Lemma split_dot_app D r :
  Forall (fun c => Normalize.is_digit c = true) D ->
  Normalize.split_dot (D ++ "."%char :: r) = D :: Normalize.split_dot r.
Proof.
  induction 1 as [|c D Hc _ IH]; [reflexivity|]. simpl. rewrite IH.
  now rewrite (digit_neq "."%char c).
Qed.

Lemma digits_final D :
  Forall (fun c => Normalize.is_digit c = true) D ->
  Forall (fun c => Normalize.is_digit c || Ascii.eqb c "."%char || Ascii.eqb c "-"%char = true) D.
Proof. intro HD. eapply Forall_impl; [|exact HD]. intros c Hc. now rewrite Hc. Qed.

Lemma digits_safe D :
  Forall (fun c => Normalize.is_digit c = true) D -> Forall (fun c => kwh_char c = true) D.
Proof. intro HD. eapply Forall_impl; [exact digit_kwh | exact HD]. Qed.

Ltac suffix_last Ht :=
  destruct Ht as [<-|[<-|[<-|[<-|[<-|[]]]]]]; [left; reflexivity | right; reflexivity ..].

(** X25. Without a comma, [normalize_amount_german] takes the last dot as
    the decimal point: "1.234" reads as 1.234, not 1234, and "1.234.567"
    as 1234.567. The suffix "Euro" is not removed whole: the pattern "eur"
    consumes "Eur" and the remaining "o" is read as a zero, so "12 Euro"
    reads as 120. *)
Theorem normalize_amount_german_dots : forall D D2 F t,
  Forall (fun c => Normalize.is_digit c = true) D ->
  Forall (fun c => Normalize.is_digit c = true) D2 ->
  Forall (fun c => Normalize.is_digit c = true) F ->
  D <> [] ->
  In t [[]; Normalize.EURO_SIGN; " "%char :: Normalize.EURO_SIGN; Parser.L "EUR"; Parser.L " EUR"] ->
  Normalize.normalize_amount_german (string_of_list_ascii ((D ++ "."%char :: F) ++ t))
  = Some (inject_Z (Normalize.digits_val (D ++ F)) / inject_Z (10 ^ Z.of_nat (List.length F))) /\
  Normalize.normalize_amount_german
    (string_of_list_ascii ((D ++ "."%char :: D2 ++ "."%char :: F) ++ t))
  = Some (inject_Z (Normalize.digits_val ((D ++ D2) ++ F))
          / inject_Z (10 ^ Z.of_nat (List.length F))) /\
  exists q, Normalize.normalize_amount_german (string_of_list_ascii (D ++ Parser.L " Euro"))
            = Some q /\ q == inject_Z (10 * Normalize.digits_val D).
Proof.
  intros D D2 F t HD HD2 HF Hne Ht.
  pose proof (digits_safe _ HD) as SD. pose proof (digits_safe _ HD2) as SD2.
  pose proof (digits_safe _ HF) as SF.
  split; [|split].
  - rewrite (normalize_amount_german_safe (D ++ "."%char :: F) t []);
      [| apply Forall_app; split; [exact SD | constructor; [reflexivity | exact SF]]
       | destruct D; [congruence | discriminate] | suffix_last Ht | exact (front_suffix t Ht)].
    rewrite app_nil_r.
    rewrite (existsb_none _ (D ++ "."%char :: F));
      [| apply Forall_app; split; [apply digits_not; [reflexivity | exact HD]|];
         constructor; [reflexivity | apply digits_not; [reflexivity | exact HF]]].
    rewrite andb_false_l. cbv beta zeta.
    rewrite map_app, (digits_fixed _ HD). simpl map. rewrite (digits_fixed _ HF).
    rewrite filter_app, (filter_none _ D (digits_not "."%char D eq_refl HD)). simpl filter.
    rewrite (filter_none _ F (digits_not "."%char F eq_refl HF)).
    replace (Nat.ltb 1 (List.length ["."%char])) with false by reflexivity.
    rewrite filter_all.
    + exact (py_float_decimal false D F HD HF ltac:(destruct D; [congruence | discriminate])).
    + apply Forall_app; split; [exact (digits_final _ HD)|].
      constructor; [reflexivity | exact (digits_final _ HF)].
  - rewrite (normalize_amount_german_safe (D ++ "."%char :: D2 ++ "."%char :: F) t []);
      [| apply Forall_app; split; [exact SD|]; constructor; [reflexivity|];
         apply Forall_app; split; [exact SD2 | constructor; [reflexivity | exact SF]]
       | destruct D; [congruence | discriminate] | suffix_last Ht | exact (front_suffix t Ht)].
    rewrite app_nil_r.
    rewrite (existsb_none _ (D ++ "."%char :: D2 ++ "."%char :: F));
      [| apply Forall_app; split; [apply digits_not; [reflexivity | exact HD]|];
         constructor; [reflexivity|]; apply Forall_app; split;
         [apply digits_not; [reflexivity | exact HD2]|];
         constructor; [reflexivity | apply digits_not; [reflexivity | exact HF]]].
    rewrite andb_false_l. cbv beta zeta.
    rewrite map_app, (digits_fixed _ HD). simpl map. rewrite map_app, (digits_fixed _ HD2).
    simpl map. rewrite (digits_fixed _ HF).
    rewrite filter_app, (filter_none _ D (digits_not "."%char D eq_refl HD)). simpl filter.
    rewrite filter_app, (filter_none _ D2 (digits_not "."%char D2 eq_refl HD2)). simpl filter.
    change (Normalize.comma_to_dot "."%char) with "."%char.
    rewrite split_dot_app by exact HD. rewrite split_dot_app by exact HD2.
    rewrite split_dot_digits by exact HF. simpl removelast. simpl last. simpl List.concat.
    rewrite app_nil_r, <- app_assoc. simpl app at 2.
    rewrite filter_all.
    + rewrite app_assoc. apply (py_float_decimal false (D ++ D2) F); [apply Forall_app; split; assumption | exact HF |].
      destruct D; [congruence | discriminate].
    + apply Forall_app; split; [exact (digits_final _ HD)|].
      apply Forall_app; split; [exact (digits_final _ HD2)|].
      constructor; [reflexivity | exact (digits_final _ HF)].
  - rewrite (normalize_amount_german_safe D (Parser.L " Euro") ["0"%char]);
      [| exact SD | exact Hne | right; reflexivity | vm_compute; reflexivity].
    rewrite (existsb_none _ (D ++ ["0"%char]));
      [| apply Forall_app; split; [apply digits_not; [reflexivity | exact HD] | repeat constructor]].
    rewrite andb_false_l. cbv beta zeta.
    assert (H0 : Forall (fun c => Normalize.is_digit c = true) (D ++ ["0"%char]))
      by (apply Forall_app; split; [exact HD | repeat constructor]).
    rewrite (digits_fixed _ H0).
    rewrite (filter_none _ (D ++ ["0"%char]) (digits_not "."%char _ eq_refl H0)).
    replace (Nat.ltb 1 (List.length (@nil ascii))) with false by reflexivity.
    rewrite filter_all by exact (digits_final _ H0).
    destruct (py_float_int (D ++ ["0"%char]) H0 ltac:(destruct D; [congruence | discriminate]))
      as [q [Eq Hq]].
    exists q. split; [exact Eq|]. rewrite Hq. unfold Normalize.digits_val.
    rewrite fold_left_app. simpl. rewrite Z.add_0_r, Z.mul_comm. reflexivity.
Qed.

Lemma normalize_amount_german_dots_witness :
  Normalize.normalize_amount_german "12.678"%string = Some (12678 # 1000) /\
  Normalize.normalize_amount_german "12.345.678"%string = Some (12345678 # 1000) /\
  (exists q, Normalize.normalize_amount_german "12 Euro"%string = Some q /\ q == 120).
Proof.
  assert (HD : Forall (fun c => Normalize.is_digit c = true) (Parser.L "12"))
    by (repeat (apply Forall_cons; [reflexivity |]); apply Forall_nil).
  assert (HD2 : Forall (fun c => Normalize.is_digit c = true) (Parser.L "345"))
    by (repeat (apply Forall_cons; [reflexivity |]); apply Forall_nil).
  assert (HF : Forall (fun c => Normalize.is_digit c = true) (Parser.L "678"))
    by (repeat (apply Forall_cons; [reflexivity |]); apply Forall_nil).
  destruct (normalize_amount_german_dots (Parser.L "12") (Parser.L "345") (Parser.L "678") []
              HD HD2 HF ltac:(discriminate) (or_introl eq_refl)) as [H1 [H2 H3]].
  split; [exact H1 | split; [exact H2 | exact H3]].
Defined.

Lemma historical_score_bounded_monotone_witness :
  calculate_historical_score 16 <= calculate_historical_score (-20).
Proof.
  exact (proj1 (proj2 (historical_score_bounded_monotone 16 (-20)))
           ltac:(vm_compute; discriminate)).
Defined.

Lemma predictive_score_bounded_monotone_witness :
  calculate_predictive_score (-12) <= calculate_predictive_score 25.
Proof.
  exact (proj1 (proj2 (predictive_score_bounded_monotone (-12) 25))
           ltac:(vm_compute; discriminate)).
Defined.

Lemma classify_historical_anomaly_table_witness :
  classify_historical_anomaly 20 = "moderate_increase"%string /\
  classify_historical_anomaly 15 = "moderate_decrease"%string.
Proof.
  split.
  - apply (proj2 (proj1 (proj2 (proj2 (proj2 (classify_historical_anomaly_table 20)))))).
    split; vm_compute; [reflexivity | discriminate].
  - apply (proj2 (proj2 (proj2 (proj2 (proj2 (classify_historical_anomaly_table 15)))))).
    right. vm_compute. reflexivity.
Defined.

Lemma calculate_hdd_nonneg_warm_witness :
  Weather._calculate_hdd_from_temperatures [Some 20; None; Some 18] == 0.
Proof.
  exact (proj1 (proj2 (calculate_hdd_nonneg_warm [Some 20; None; Some 18]))
           ltac:(repeat (apply Forall_cons; [simpl; first [exact I | vm_compute; discriminate] |]);
                 apply Forall_nil)).
Defined.

Lemma save_to_cache_get_from_cache_witness :
  Weather._get_from_cache
    (Weather._save_to_cache Samples.cache_2750_2600 (Weather.PStr "10115") 2024%Z 3000 None)
    (Weather.PInt 10115) 2023%Z
  = Weather._get_from_cache Samples.cache_2750_2600 (Weather.PInt 10115) 2023%Z.
Proof.
  exact (proj1 (proj2 (save_to_cache_get_from_cache Samples.cache_2750_2600
                          (Weather.PStr "10115") 2024%Z 3000 None))
           (Weather.PInt 10115) 2023%Z ltac:(vm_compute; reflexivity)).
Defined.

Lemma calculate_for_user_spec_witness :
  exists run ms,
    MetricsOps.calculate_for_user 1 (Samples.db_two_years 4500 3200)
    = (Ok run, set_bill_metrics (Samples.db_two_years 4500 3200) ms) /\
    MetricsOps.get_metrics_by_bill_id (set_bill_metrics (Samples.db_two_years 4500 3200) ms) 2
    <> None.
Proof.
  destruct (calculate_for_user_spec 1 (Samples.db_two_years 4500 3200))
    as [run [ms [E [_ [_ [_ [H _]]]]]]].
  exists run, ms. split; [exact E |].
  exact (H (Samples.bill 2 1 2023 3200) (or_intror (or_introl eq_refl)) eq_refl).
Defined.

Lemma recalculate_all_spec_witness :
  exists run ms,
    MetricsOps.recalculate_all (Samples.db_two_years 4500 3200)
    = (Ok run, set_bill_metrics (Samples.db_two_years 4500 3200) ms) /\
    MetricsOps.get_metrics_by_bill_id (set_bill_metrics (Samples.db_two_years 4500 3200) ms) 1
    <> None.
Proof.
  destruct (recalculate_all_spec (Samples.db_two_years 4500 3200))
    as [run [ms [E [_ [_ [_ [H _]]]]]]].
  exists run, ms. split; [exact E |].
  exact (H (Samples.bill 1 1 2024 4500) (or_introl eq_refl)).
Defined.

